(** * Scoring and recommendation scripts: a shallow embedding

    The development embeds three scripts of the repository:
    - [scripts/calculate-process-maturity.py]   (module [Maturity]),
    - [scripts/analyze-command-usage.py]        (module [CommandUsage]),
    - [scripts/analyze-subagent-effectiveness.py] (module [Subagent]).

    Conventions of the embedding.
    - A Python [float] is an exact rational ([Q]); comparisons of finite
      floats agree with the comparisons of the rationals they denote, and
      arithmetic is taken exact, except for the quotients of two integers
      in [analyze_effectiveness] ([first_pass_rate] and the average token
      count), which are rounded to the nearest binary64 number
      ([binary64]) before [round] sees them.  A Python [int] is a [Z].
    - [round(x, n)] is rounding to [n] decimals, ties to even.
    - A Python [dict] is an association list in insertion order (the order
      is observable: [dict.items()], [list(d.keys())], a stable sort).
    - A key that may be absent from a JSON object is an [option] field;
      [d.get(k, default)] is [get_or].
    - A call that can raise returns a [result]: [Ok v] or [Raise e]
      ([thresholds[-1]] on an empty list, a division by a zero count).
    - [datetime.now()] is a parameter of the function that reads it. *)

From Stdlib Require Import ZArith QArith Qround Qabs List String Ascii Bool.
From Stdlib Require Import Sorted Permutation Lia Lqa Decimal DecimalString.
Import ListNotations.

Local Open Scope string_scope.
Local Open Scope list_scope.
Local Open Scope Z_scope.

(** ** Python primitives *)

Inductive exn : Type :=
| IndexError
| ZeroDivisionError.

Inductive result (A : Type) : Type :=
| Ok (a : A)
| Raise (e : exn).
Arguments Ok {A} a.
Arguments Raise {A} e.

Definition bind {A B : Type} (r : result A) (k : A -> result B) : result B :=
  match r with
  | Ok a => k a
  | Raise e => Raise e
  end.

Notation "x <- r ;; k" := (bind r (fun x => k))
  (at level 61, r at next level, right associativity).

(** [d.get(k, default)] on an optional field. *)
Definition get_or {A : Type} (field : option A) (default : A) : A :=
  match field with
  | Some a => a
  | None => default
  end.

(** Python dictionaries keep insertion order. *)
Definition dict (V : Type) : Type := list (string * V).

Fixpoint dict_get {V : Type} (k : string) (d : dict V) : option V :=
  match d with
  | [] => None
  | (k', v) :: rest => if String.eqb k k' then Some v else dict_get k rest
  end.

(** [d[k] = v]: an existing key keeps its place, a new one goes last. *)
Fixpoint dict_set {V : Type} (k : string) (v : V) (d : dict V) : dict V :=
  match d with
  | [] => [(k, v)]
  | (k', v') :: rest =>
      if String.eqb k k' then (k', v) :: rest else (k', v') :: dict_set k v rest
  end.

Definition dict_mem {V : Type} (k : string) (d : dict V) : bool :=
  match dict_get k d with
  | Some _ => true
  | None => false
  end.

Definition keys {V : Type} (d : dict V) : list string := map fst d.

(** [thresholds[-1]] *)
Fixpoint last_item {A : Type} (l : list A) : result A :=
  match l with
  | [] => Raise IndexError
  | [a] => Ok a
  | _ :: rest => last_item rest
  end.

Fixpoint pow10 (n : nat) : positive :=
  match n with
  | O => 1%positive
  | S n' => (10 * pow10 n')%positive
  end.

(** Nearest integer, ties to the even one. *)
Definition round_half_even (q : Q) : Z :=
  let f := Qfloor q in
  match (q - inject_Z f ?= 1 # 2)%Q with
  | Lt => f
  | Gt => f + 1
  | Eq => if Z.even f then f else f + 1
  end.

(** [round(q, ndigits)] *)
Definition py_round (q : Q) (ndigits : nat) : Q :=
  Qmake (round_half_even (q * inject_Z (Zpos (pow10 ndigits)))) (pow10 ndigits).

(** [q * 2^k] *)
Definition scale2 (q : Q) (k : Z) : Q :=
  match k with
  | Z0 => q
  | Zpos p => (q * inject_Z (2 ^ Zpos p))%Q
  | Zneg p => (q / inject_Z (2 ^ Zpos p))%Q
  end.

(** [floor (log2 (n / d))] *)
Definition floor_log2 (n d : positive) : Z :=
  let k := Z.log2 (Zpos n) - Z.log2 (Zpos d) in
  let below :=
    if 0 <=? k then Zpos n <? Zpos d * 2 ^ k
    else Zpos n * 2 ^ (- k) <? Zpos d in
  if below then k - 1 else k.

(** The binary64 float nearest to the positive rational [n / d], ties to
    even, as a rational: 53 significant bits, least exponent -1074
    (subnormal numbers included). *)
Definition nearest_binary64 (n d : positive) : Q :=
  let shift := Z.max (floor_log2 n d - 52) (-1074) in
  scale2 (inject_Z (round_half_even (scale2 (Zpos n # d) (- shift)))) shift.

(** The float a rational rounds to.  A Python float is a binary64
    number; where the rounding of a quotient is observable, the quotient
    goes through [binary64].  Magnitudes from 2^1024 on, where Python
    raises [OverflowError], are outside its use here. *)
Definition binary64 (q : Q) : Q :=
  match Qnum q with
  | Z0 => 0%Q
  | Zpos n => nearest_binary64 n (Qden q)
  | Zneg n => (- nearest_binary64 n (Qden q))%Q
  end.

(** [str(n)] for an integer. *)
Definition str_of_Z (z : Z) : string := NilZero.string_of_int (Z.to_int z).

(** [f"{q:.0f}"]: no decimals, ties to even, and the sign of a negative
    value that rounds to zero is kept. *)
Definition format_0f (q : Q) : string :=
  let z := round_half_even q in
  if Z.eqb z 0 && negb (Qle_bool 0 q) then "-0" else str_of_Z z.

Definition Qlt_bool (x y : Q) : bool := negb (Qle_bool y x).

(** ** calculate-process-maturity.py *)

Module Maturity.

(** What the six collectors return: a raw value and a detail string each.
    The collectors read files, git and npm; their results are inputs here. *)
Record sources : Type := {
  delegation_compliance : Q * string;
  error_recurrence_rate : Q * string;
  documentation_coverage : Q * string;
  test_coverage : Q * string;
  context_freshness : Q * string;
  hook_adoption_rate : Q * string
}.

(** [thresholds]: list of [(max_value, score)] tuples. *)
Definition threshold_table : Type := list (Q * Z).

(** The [for] loop of [score_dimension]: [Some score] on the first
    [value <= threshold], [None] when the loop falls through. *)
Fixpoint scan_thresholds (value : Q) (thresholds : threshold_table) : option Z :=
  match thresholds with
  | [] => None
  | (threshold, score) :: rest =>
      if Qle_bool value threshold then Some score else scan_thresholds value rest
  end.

Definition score_dimension (value : Q) (thresholds : threshold_table) : result Z :=
  match scan_thresholds value thresholds with
  | Some score => Ok score
  | None => p <- last_item thresholds ;; Ok (snd p)
  end.

Record dimension : Type := {
  name : string;
  weight : Q;
  getValue : sources -> Q * string;
  thresholds : threshold_table
}.

Definition dimensions : list dimension :=
  [ {| name := "Delegation Compliance"; weight := 0.25%Q;
       getValue := delegation_compliance;
       thresholds := [(0.20%Q, 2); (0.40%Q, 4); (0.60%Q, 6); (0.80%Q, 8); (1.00%Q, 10)] |};
    {| name := "Error Recurrence"; weight := 0.20%Q;
       getValue := error_recurrence_rate;
       thresholds := [(0.20%Q, 2); (0.40%Q, 4); (0.60%Q, 6); (0.80%Q, 8); (1.00%Q, 10)] |};
    {| name := "Documentation Coverage"; weight := 0.15%Q;
       getValue := documentation_coverage;
       thresholds := [(0.40%Q, 2); (0.60%Q, 4); (0.75%Q, 6); (0.90%Q, 8); (1.00%Q, 10)] |};
    {| name := "Test Coverage"; weight := 0.15%Q;
       getValue := test_coverage;
       thresholds := [(0.60%Q, 2); (0.70%Q, 4); (0.80%Q, 6); (0.90%Q, 8); (1.00%Q, 10)] |};
    {| name := "Context Freshness"; weight := 0.15%Q;
       getValue := context_freshness;
       thresholds := [(0.20%Q, 2); (0.40%Q, 4); (0.60%Q, 6); (0.80%Q, 8); (1.00%Q, 10)] |};
    {| name := "Hook Adoption"; weight := 0.10%Q;
       getValue := hook_adoption_rate;
       thresholds := [(0.20%Q, 2); (0.40%Q, 4); (0.60%Q, 6); (0.80%Q, 8); (1.00%Q, 10)] |} ].

(** One element of [results]: keys [dimension], [value], [score],
    [weight], [detail]. *)
Record dimension_result : Type := {
  r_dimension : string;
  r_value : Q;
  r_score : Z;
  r_weight : Q;
  r_detail : string
}.

Record report : Type := {
  overallScore : Q;
  trend : string;
  report_dimensions : list dimension_result;
  calculatedAt : string
}.

(** The loop [for dim in dimensions], from a given [(total_score, results)]. *)
Fixpoint score_loop (env : sources) (dims : list dimension)
    (total_score : Q) (results : list dimension_result)
    : result (Q * list dimension_result) :=
  match dims with
  | [] => Ok (total_score, results)
  | dim :: rest =>
      let (value, detail) := getValue dim env in
      score <- score_dimension value (thresholds dim) ;;
      let weighted_score := (inject_Z score * weight dim)%Q in
      score_loop env rest (total_score + weighted_score)%Q
        (results ++ [ {| r_dimension := name dim; r_value := value;
                         r_score := score; r_weight := weight dim;
                         r_detail := detail |} ])
  end.

(** The body of [calculate_maturity] over a list of dimensions. *)
Definition calculate_maturity_on (dims : list dimension) (env : sources)
    (now : string) : result report :=
  acc <- score_loop env dims 0%Q [] ;;
  let trend := "stable" in
  Ok {| overallScore := py_round (fst acc) 1;
        trend := trend;
        report_dimensions := snd acc;
        calculatedAt := (now ++ "Z")%string |}.

Definition calculate_maturity (env : sources) (now : string) : result report :=
  calculate_maturity_on dimensions env now.

Definition get_maturity_level (score : Q) : string * string :=
  if Qlt_bool score 2.0%Q then ("Critical", "Immediate intervention needed")
  else if Qlt_bool score 4.0%Q then ("Poor", "Significant gaps, high risk")
  else if Qlt_bool score 6.0%Q then ("Fair", "Basic processes in place")
  else if Qlt_bool score 8.0%Q then ("Good", "Solid foundation, room to grow")
  else ("Excellent", "Mature, optimized system").

(** *** Collectors
    The collectors that only read a JSON file or dates are embedded from
    the parsed content on. *)

(** The keys of [delegation.json] read by [get_delegation_compliance]. *)
Record delegation_file : Type := {
  totalDelegableTasks : option Z;
  tasksDelegated : option Z
}.

(** [file] is [None] when [delegation.json] does not exist. *)
Definition get_delegation_compliance (file : option delegation_file)
    : Q * string :=
  match file with
  | None => (0.0%Q, "No delegation data available")
  | Some data =>
      let total_tasks := get_or (totalDelegableTasks data) 0 in
      let delegated := get_or (tasksDelegated data) 0 in
      if total_tasks =? 0 then (0.0%Q, "No delegable tasks recorded")
      else
        let rate := (inject_Z delegated / inject_Z total_tasks)%Q in
        (rate,
         (str_of_Z delegated ++ "/" ++ str_of_Z total_tasks
          ++ " tasks delegated (" ++ format_0f (rate * 100) ++ "%)")%string)
  end.

(** [data["aggregateMetrics"]] of [hook-activity.json]. *)
Record aggregate_metrics : Type := {
  totalAdviceGiven : option Z;
  totalAdviceFollowed : option Z
}.

Record hook_file : Type := {
  aggregateMetrics : option aggregate_metrics
}.

Definition no_metrics : aggregate_metrics :=
  {| totalAdviceGiven := None; totalAdviceFollowed := None |}.

(** [file] is [None] when [hook-activity.json] does not exist. *)
Definition get_hook_adoption_rate (file : option hook_file) : Q * string :=
  match file with
  | None => (0.0%Q, "No hook activity data available")
  | Some data =>
      let total_advice :=
        get_or (totalAdviceGiven (get_or (aggregateMetrics data) no_metrics)) 0 in
      let total_followed :=
        get_or (totalAdviceFollowed (get_or (aggregateMetrics data) no_metrics)) 0 in
      if total_advice =? 0 then (0.0%Q, "No hook advice given yet")
      else
        let rate := (inject_Z total_followed / inject_Z total_advice)%Q in
        (rate,
         (str_of_Z total_followed ++ "/" ++ str_of_Z total_advice
          ++ " hook advice followed (" ++ format_0f (rate * 100) ++ "%)")%string)
  end.

(** [sum(...)] of a list of integers. *)
Definition sum_Z (l : list Z) : Z := fold_right Z.add 0 l.

(** The bands of [get_context_freshness] on the average age in days. *)
Definition freshness_band (avg_age_days : Q) : Q :=
  if Qlt_bool avg_age_days 3 then 1.0%Q
  else if Qlt_bool avg_age_days 8 then 0.8%Q
  else if Qlt_bool avg_age_days 15 then 0.6%Q
  else if Qlt_bool avg_age_days 30 then 0.4%Q
  else 0.2%Q.

(** [context_files] has one element per [*.md] file of the context
    directory: the age in days of its last commit, [(now - dt).days], or
    [None] when the git log of the file is empty. *)
Definition get_context_freshness (context_files : list (option Z))
    : Q * string :=
  match context_files with
  | [] => (0.0%Q, "No context files found")
  | _ :: _ =>
      let context_dates :=
        flat_map (fun f => match f with Some age => [age] | None => [] end)
                 context_files in
      match context_dates with
      | [] => (0.0%Q, "Could not determine context file dates")
      | _ :: _ =>
          let avg_age_days :=
            (inject_Z (sum_Z context_dates)
             / inject_Z (Z.of_nat (List.length context_dates)))%Q in
          let score := freshness_band avg_age_days in
          (score,
           ("Context files avg " ++ format_0f avg_age_days ++ " days old")%string)
      end
  end.

End Maturity.

(** ** analyze-command-usage.py *)

Module CommandUsage.

(** One value of [data["commands"]]. *)
Record cmd_info : Type := {
  invocations : option Z;
  lastUsed : option string;
  avgSuccessRate : option Q;
  recommendationsMade : option Z;
  adoptionRate : option Q
}.

(** The empty object [{}]. *)
Definition no_info : cmd_info :=
  {| invocations := None; lastUsed := None; avgSuccessRate := None;
     recommendationsMade := None; adoptionRate := None |}.

(** An element of [redundant]: keys [commands], [reason], [suggestion]. *)
Record redundancy : Type := {
  red_commands : list string;
  red_reason : string;
  red_suggestion : string
}.

(** A chaining opportunity: keys [sequence], [frequency], [suggestion]. *)
Record chaining : Type := {
  sequence : list string;
  frequency : string;
  chain_suggestion : string
}.

(** [data["insights"]]; an absent key reads as the empty list. *)
Record insights_t : Type := {
  mostUsedCommands : list string;
  leastUsedCommands : list string;
  redundantCommands : list redundancy;
  chainingOpportunities : list chaining;
  confusionPatterns : list string
}.

Definition no_insights : insights_t :=
  {| mostUsedCommands := []; leastUsedCommands := []; redundantCommands := [];
     chainingOpportunities := []; confusionPatterns := [] |}.

(** A recommendation; the key [commands] is absent from the adoption and
    promotion entries. *)
Record recommendation : Type := {
  priority : string;
  category : string;
  issue : string;
  rec_commands : option (list string);
  suggestion : string
}.

(** [data["trackingPeriod"]]: keys [start], [end], [days]. *)
Record tracking_period : Type := {
  tp_start : string;
  tp_end : string;
  tp_days : Z
}.

(** The content of [command-usage.json]. *)
Record usage_data : Type := {
  commands : dict cmd_info;
  insights : insights_t;
  recommendations : list recommendation;
  trackingPeriod : option tracking_period;
  lastUpdated : option string
}.

(** The file is [None] when it does not exist. *)
Definition load_command_data (file : option usage_data) : usage_data :=
  match file with
  | None =>
      {| commands := []; insights := no_insights; recommendations := [];
         trackingPeriod := None; lastUpdated := None |}
  | Some data => data
  end.

(** [list.sort(key=lambda x: x[1], reverse=True)]: stable, descending. *)
Fixpoint insert_desc (x : string * Z) (sorted : list (string * Z))
    : list (string * Z) :=
  match sorted with
  | [] => [x]
  | y :: rest =>
      if snd x <? snd y then y :: insert_desc x rest else x :: sorted
  end.

Definition sort_desc (l : list (string * Z)) : list (string * Z) :=
  fold_right insert_desc [] l.

Definition low_usage_family (prefix : string) (bound : Z)
    (commands : dict cmd_info) : dict cmd_info :=
  filter (fun item => String.prefix prefix (fst item)
                      && (get_or (invocations (snd item)) 0 <? bound))
         commands.

Definition find_redundant_commands (commands : dict cmd_info) : list redundancy :=
  let redundant : list redundancy := [] in
  let local_commands := low_usage_family "/local-" 5 commands in
  let redundant :=
    if (2 <=? List.length local_commands)%nat then
      redundant ++
      [ {| red_commands := keys local_commands;
           red_reason := "Multiple /local-* commands with low usage, consider consolidation";
           red_suggestion := "Merge into /delegate-auto with auto-routing" |} ]
    else redundant in
  let process_commands := low_usage_family "/process-" 3 commands in
  let redundant :=
    if (3 <=? List.length process_commands)%nat then
      redundant ++
      [ {| red_commands := keys process_commands;
           red_reason := "Multiple specialized process commands rarely used";
           red_suggestion := "Consider consolidating related functions" |} ]
    else redundant in
  redundant.

Definition find_chaining_opportunities (commands : dict cmd_info) : list chaining :=
  [ {| sequence := ["/project start"; "/gen-tests"; "/review"];
       frequency := "unknown";
       chain_suggestion := "Consider /project-init-with-tests macro" |};
    {| sequence := ["/local-code"; "npm test"; "/review"];
       frequency := "unknown";
       chain_suggestion := "Already automated via execute-local-task.sh" |} ].

Definition with_insights (data : usage_data) (i : insights_t) : usage_data :=
  {| commands := commands data; insights := i;
     recommendations := recommendations data;
     trackingPeriod := trackingPeriod data; lastUpdated := lastUpdated data |}.

Definition analyze_usage_patterns (data : usage_data) : usage_data :=
  let commands := commands data in
  let usage_counts :=
    map (fun item => (fst item, get_or (invocations (snd item)) 0)) commands in
  let usage_counts := sort_desc usage_counts in
  let most_used :=
    map fst (filter (fun x => 0 <? snd x) (firstn 5 usage_counts)) in
  let least_used := map fst (filter (fun x => snd x =? 0) usage_counts) in
  let redundant := find_redundant_commands commands in
  let chaining := find_chaining_opportunities commands in
  with_insights data
    {| mostUsedCommands := most_used;
       leastUsedCommands := least_used;
       redundantCommands := redundant;
       chainingOpportunities := chaining;
       confusionPatterns := [] |}.

Definition with_recommendations (data : usage_data)
    (recs : list recommendation) : usage_data :=
  {| commands := commands data; insights := insights data;
     recommendations := recs;
     trackingPeriod := trackingPeriod data; lastUpdated := lastUpdated data |}.

Definition cleanup (least_used : list string) : recommendation :=
  {| priority := "low";
     category := "cleanup";
     issue := (str_of_Z (Z.of_nat (List.length least_used))
               ++ " commands never used in 30 days")%string;
     rec_commands := Some least_used;
     suggestion := "Review for deprecation or better promotion" |}.

Definition consolidation (r : redundancy) : recommendation :=
  {| priority := "medium";
     category := "consolidation";
     issue := red_reason r;
     rec_commands := Some (red_commands r);
     suggestion := red_suggestion r |}.

Definition adoption_alert (adoption : Q) : recommendation :=
  {| priority := "high";
     category := "adoption";
     issue := ("/route recommendations only followed "
               ++ format_0f (adoption * 100) ++ "% of time")%string;
     rec_commands := None;
     suggestion := "Improve specificity of routing advice or reduce noise" |}.

Definition promotion (cmd : string) : recommendation :=
  {| priority := "medium";
     category := "promotion";
     issue := (cmd ++ " highly successful but rarely used")%string;
     rec_commands := None;
     suggestion := "Better documentation or automatic suggestions" |}.

(** The test of the last loop of [generate_recommendations]. *)
Definition underused (info : cmd_info) : bool :=
  let invocations := get_or (invocations info) 0 in
  let success_rate := get_or (avgSuccessRate info) 0.0%Q in
  (invocations <? 5) && Qlt_bool 0.8 success_rate.

Definition generate_recommendations (data : usage_data) : usage_data :=
  let recommendations : list recommendation := [] in
  let commands := commands data in
  let insights := insights data in
  let least_used := leastUsedCommands insights in
  let recommendations :=
    match least_used with
    | [] => recommendations
    | _ :: _ => recommendations ++ [cleanup least_used]
    end in
  let redundant := redundantCommands insights in
  let recommendations := recommendations ++ map consolidation redundant in
  let route_cmd := get_or (dict_get "/route" commands) no_info in
  let recommendations :=
    if 0 <? get_or (recommendationsMade route_cmd) 0 then
      let adoption := get_or (adoptionRate route_cmd) 0.0%Q in
      if Qlt_bool adoption 0.3 then recommendations ++ [adoption_alert adoption]
      else recommendations
    else recommendations in
  let recommendations :=
    recommendations
    ++ flat_map (fun item => if underused (snd item) then [promotion (fst item)]
                             else [])
                commands in
  with_recommendations data recommendations.

(** [update_command_usage(command, success)].  [file] is the content of
    the JSON file before the call, the result is what is written back;
    [now k] is the [k]-th reading of the clock.  Nothing is written when
    the call raises. *)
Definition update_command_usage (now : nat -> string) (command : string)
    (success : bool) (file : option usage_data) : result usage_data :=
  let data := load_command_data file in
  let cmds :=
    if dict_mem command (commands data) then commands data
    else dict_set command
           {| invocations := Some 0; lastUsed := None;
              avgSuccessRate := Some 0.0%Q;
              recommendationsMade := None; adoptionRate := None |}
           (commands data) in
  let cmd_data := get_or (dict_get command cmds) no_info in
  let invocations := get_or (invocations cmd_data) 0 + 1 in
  let last_used := (now 0%nat ++ "Z")%string in
  let current_rate := get_or (avgSuccessRate cmd_data) 0.5%Q in
  if invocations =? 0 then Raise ZeroDivisionError else
  let new_rate :=
    ((current_rate * inject_Z (invocations - 1)
      + (if success then 1.0 else 0.0)) / inject_Z invocations)%Q in
  let cmd_data :=
    {| CommandUsage.invocations := Some invocations;
       lastUsed := Some last_used;
       avgSuccessRate := Some (py_round new_rate 2);
       recommendationsMade := recommendationsMade cmd_data;
       adoptionRate := adoptionRate cmd_data |} in
  let cmds := dict_set command cmd_data cmds in
  let tracking :=
    match trackingPeriod data with
    | None => {| tp_start := (now 1%nat ++ "Z")%string;
                 tp_end := (now 2%nat ++ "Z")%string;
                 tp_days := 0 |}
    | Some tp => tp
    end in
  let tracking :=
    {| tp_start := tp_start tracking;
       tp_end := (now 3%nat ++ "Z")%string;
       tp_days := tp_days tracking |} in
  Ok {| commands := cmds; insights := insights data;
        recommendations := recommendations data;
        trackingPeriod := Some tracking; lastUpdated := lastUpdated data |}.

(** The calls of one run of the hook after another; a call that raises
    leaves the file as it was. *)
Fixpoint record_outcomes (now : nat -> string) (command : string)
    (outcomes : list bool) (file : option usage_data) : option usage_data :=
  match outcomes with
  | [] => file
  | success :: rest =>
      match update_command_usage now command success file with
      | Ok data => record_outcomes now command rest (Some data)
      | Raise _ => record_outcomes now command rest file
      end
  end.

Definition analyze_command_usage (now : string) (file : option usage_data)
    : usage_data :=
  let data := load_command_data file in
  let data := analyze_usage_patterns data in
  let data := generate_recommendations data in
  {| commands := commands data; insights := insights data;
     recommendations := recommendations data;
     trackingPeriod := trackingPeriod data;
     lastUpdated := Some (now ++ "Z")%string |}.

End CommandUsage.

(** ** analyze-subagent-effectiveness.py *)

Module Subagent.

(** One value of [model_data["taskTypes"]]: keys [attempted],
    [succeeded], [firstPassRate]. *)
Record task_type_stats : Type := {
  attempted : option Z;
  succeeded : option Z;
  type_firstPassRate : option Q
}.

(** One value of [subagent_data["models"]]. *)
Record model_data : Type := {
  tasksAttempted : option Z;
  tasksSucceeded : option Z;
  taskTypes : option (dict task_type_stats);
  commonFailures : list string;
  firstPassRate : option Q;
  avgTokensUsed : option Q;
  totalTokensUsed : option Z
}.

(** The rate [analyze_effectiveness] stores, per model and per task type:
    [round(succeeded / attempted, 2) if attempted > 0 else 0.0].  The
    quotient of the two integers is a float, the binary64 number nearest
    to the exact quotient, and [round] rounds the exact value of that
    float: [round(3 / 40, 2)] is 0.07, the float [3 / 40] being just
    below 0.075. *)
Definition first_pass_rate (succeeded attempted : Z) : Q :=
  if 0 <? attempted
  then py_round (binary64 (inject_Z succeeded / inject_Z attempted)) 2
  else 0.0%Q.

(** A [set] of strings.  Python leaves the iteration order of a set open;
    the elements are listed here in the order of first insertion, and no
    statement below depends on that order. *)
Definition set_add (x : string) (s : list string) : list string :=
  if existsb (String.eqb x) s then s else s ++ [x].

Definition set_update (s xs : list string) : list string :=
  fold_left (fun acc x => set_add x acc) xs s.

Definition task_types_of (models : dict model_data) : list string :=
  fold_left
    (fun task_types item =>
       set_update task_types (keys (get_or (taskTypes (snd item)) [])))
    models [].

(** One turn of the loop over the models for one task type; the state is
    [(best_model, best_rate)]. *)
Definition best_step (task_type : string) (acc : option string * Q)
    (item : string * model_data) : option string * Q :=
  let (model, data) := item in
  match dict_get task_type (get_or (taskTypes data) []) with
  | Some stats =>
      let rate := get_or (type_firstPassRate stats) 0.0%Q in
      if Qlt_bool (snd acc) rate then (Some model, rate) else acc
  | None => acc
  end.

Definition best_model_for (task_type : string) (models : dict model_data)
    : option string :=
  fst (fold_left (best_step task_type) models (None, 0.0%Q)).

(** Truth value of [None] or a string. *)
Definition truthy (o : option string) : bool :=
  match o with
  | Some s => negb (String.eqb s "")
  | None => false
  end.

(** [o or default] *)
Definition or_else (o : option string) (default : string) : string :=
  if truthy o then get_or o default else default.

Definition best_for_key (task_type : string) : string :=
  ("bestFor_" ++ task_type)%string.

Definition record_best (models : dict model_data)
    (recommendations : dict string) (task_type : string) : dict string :=
  let best_model := best_model_for task_type models in
  if truthy best_model then
    dict_set (best_for_key task_type) (get_or best_model "") recommendations
  else recommendations.

(** The state is [(min_tokens, most_efficient)]; [None] stands for
    [float("inf")] in both the stored average and the running minimum. *)
Definition efficient_step (acc : option Q * option string)
    (item : string * model_data) : option Q * option string :=
  let (model, data) := item in
  match avgTokensUsed data with
  | None => acc
  | Some avg_tokens =>
      if Qlt_bool 0 avg_tokens
         && match fst acc with
            | None => true
            | Some min_tokens => Qlt_bool avg_tokens min_tokens
            end
         && (0 <? get_or (tasksAttempted data) 0)
      then (Some avg_tokens, Some model)
      else acc
  end.

(** The state is [(best_quality, highest_quality)]. *)
Definition quality_step (acc : Q * option string)
    (item : string * model_data) : Q * option string :=
  let (model, data) := item in
  let rate := get_or (firstPassRate data) 0.0%Q in
  if Qlt_bool (fst acc) rate && (5 <? get_or (tasksAttempted data) 0)
  then (rate, Some model)
  else acc.

Definition highest_quality (models : dict model_data) : option string :=
  snd (fold_left quality_step models (0.0%Q, None)).

Definition generate_recommendations (models : dict model_data) : dict string :=
  let recommendations : dict string := [] in
  let task_types := task_types_of models in
  let recommendations :=
    fold_left (record_best models) task_types recommendations in
  let most_efficient := snd (fold_left efficient_step models (None, None)) in
  let recommendations :=
    dict_set "mostTokenEfficient" (or_else most_efficient "insufficient_data")
             recommendations in
  let recommendations :=
    dict_set "highestQuality"
             (or_else (highest_quality models) "insufficient_data")
             recommendations in
  recommendations.

(** *** Aggregating the task log *)

(** One entry of [parse_task_log()]: a line
    [timestamp|model|taskType|status|tokens] of the log, already split. *)
Record task : Type := {
  timestamp : string;
  model : string;
  taskType : string;
  status : string;
  tokens : Z
}.

(** One value of [stats["byTaskType"]]: keys [attempted], [succeeded]. *)
Record type_count : Type := {
  tc_attempted : Z;
  tc_succeeded : Z
}.

(** One value of [model_stats]: keys [attempted], [succeeded],
    [totalTokens], [byTaskType]. *)
Record stats : Type := {
  st_attempted : Z;
  st_succeeded : Z;
  totalTokens : Z;
  byTaskType : dict type_count
}.

(** The values the two [defaultdict]s create on first access. *)
Definition new_type_count : type_count :=
  {| tc_attempted := 0; tc_succeeded := 0 |}.

Definition new_stats : stats :=
  {| st_attempted := 0; st_succeeded := 0; totalTokens := 0; byTaskType := [] |}.

(** One turn of [for task in task_log]. *)
Definition count_task (model_stats : dict stats) (t : task) : dict stats :=
  let stats := get_or (dict_get (model t) model_stats) new_stats in
  let success := if String.eqb (status t) "success" then 1 else 0 in
  let by_type := byTaskType stats in
  let type_stats := get_or (dict_get (taskType t) by_type) new_type_count in
  dict_set (model t)
    {| st_attempted := st_attempted stats + 1;
       st_succeeded := st_succeeded stats + success;
       totalTokens := totalTokens stats + tokens t;
       byTaskType :=
         dict_set (taskType t)
           {| tc_attempted := tc_attempted type_stats + 1;
              tc_succeeded := tc_succeeded type_stats + success |}
           by_type |}
    model_stats.

(** [subagent_data["models"][model]["taskTypes"]] does not exist. *)
Inductive outcome (A : Type) : Type :=
| Done (a : A)
| KeyError (key : string).
Arguments Done {A} a.
Arguments KeyError {A} key.

(** The inner loop [for task_type, type_stats in stats["byTaskType"].items()]. *)
Definition store_task_types (types : dict task_type_stats)
    (by_type : dict type_count) : dict task_type_stats :=
  fold_left
    (fun types item =>
       let type_attempted := tc_attempted (snd item) in
       let type_succeeded := tc_succeeded (snd item) in
       dict_set (fst item)
         {| attempted := Some type_attempted;
            succeeded := Some type_succeeded;
            type_firstPassRate :=
              Some (first_pass_rate type_succeeded type_attempted) |}
         types)
    by_type types.

(** The entry created for a model that is not stored yet. *)
Definition new_model : model_data :=
  {| tasksAttempted := Some 0; tasksSucceeded := Some 0;
     taskTypes := Some []; commonFailures := [];
     firstPassRate := None; avgTokensUsed := None; totalTokensUsed := None |}.

(** One turn of [for model, stats in model_stats.items()]. *)
Definition store_model (models : dict model_data) (item : string * stats)
    : outcome (dict model_data) :=
  let (model, stats) := item in
  let models :=
    if dict_mem model models then models else dict_set model new_model models in
  let entry := get_or (dict_get model models) new_model in
  let attempted := st_attempted stats in
  let succeeded := st_succeeded stats in
  let avg_tokens :=
    if 0 <? attempted
    then round_half_even
           (binary64 (inject_Z (totalTokens stats) / inject_Z attempted))
    else 0 in
  match byTaskType stats, taskTypes entry with
  | _ :: _, None => KeyError "taskTypes"
  | by_type, types =>
      Done
        (dict_set model
           {| tasksAttempted := Some attempted;
              tasksSucceeded := Some succeeded;
              taskTypes :=
                match types with
                | Some types => Some (store_task_types types by_type)
                | None => None
                end;
              commonFailures := commonFailures entry;
              firstPassRate := Some (first_pass_rate succeeded attempted);
              avgTokensUsed := Some (inject_Z avg_tokens);
              totalTokensUsed := Some (totalTokens stats) |}
           models)
  end.

Definition store_models (models : dict model_data) (model_stats : dict stats)
    : outcome (dict model_data) :=
  fold_left
    (fun acc item =>
       match acc with
       | Done models => store_model models item
       | KeyError key => KeyError key
       end)
    model_stats (Done models).

(** The content of [subagent-effectiveness.json]. *)
Record subagent_data : Type := {
  models : dict model_data;
  comparisonMetrics : option (dict string);
  lastUpdated : option string
}.

(** The file is [None] when it does not exist. *)
Definition load_subagent_data (file : option subagent_data) : subagent_data :=
  match file with
  | None =>
      {| models := [("deepseek", new_model); ("qwen", new_model);
                    ("claude", new_model)];
         comparisonMetrics := None; lastUpdated := None |}
  | Some data => data
  end.

(** [analyze_effectiveness()], from the parsed task log on.  The
    delegation history and the fix commits are loaded by the script and
    not used.  The result is what is written to the file; nothing is
    written when the call raises. *)
Definition analyze_effectiveness (now : string) (file : option subagent_data)
    (task_log : list task) : outcome subagent_data :=
  let subagent_data := load_subagent_data file in
  let model_stats := fold_left count_task task_log [] in
  match store_models (models subagent_data) model_stats with
  | KeyError key => KeyError key
  | Done stored =>
      Done {| models := stored;
              comparisonMetrics := Some (generate_recommendations stored);
              lastUpdated := Some (now ++ "Z")%string |}
  end.

End Subagent.

(** ** Vocabulary of the statements *)

Import Maturity.

(** The sum of [score * weight] over the scored dimensions of a report. *)
Definition weighted_sum (results : list dimension_result) : Q :=
  fold_right (fun r acc => (inject_Z (r_score r) * r_weight r + acc)%Q) 0%Q results.

Definition total_weight (dims : list dimension) : Q :=
  fold_right (fun d acc => (weight d + acc)%Q) 0%Q dims.

(** What one dimension contributes to [results]. *)
Definition scored (env : sources) (d : dimension) (r : dimension_result) : Prop :=
  r_weight r = weight d
  /\ score_dimension (fst (getValue d env)) (thresholds d) = Ok (r_score r).

Import CommandUsage.

(** The invocation count stored for a command, 0 when there is none. *)
Definition stored_invocations (command : string) (file : option usage_data) : Z :=
  match dict_get command (commands (load_command_data file)) with
  | Some info => get_or (invocations info) 0
  | None => 0
  end.

(** The success rate stored for a command, if any. *)
Definition stored_rate (command : string) (file : option usage_data) : option Q :=
  match dict_get command (commands (load_command_data file)) with
  | Some info => avgSuccessRate info
  | None => None
  end.

(** The rate an update starts from: the stored one, 0.5 for a stored entry
    without a rate, 0.0 for a command not stored yet. *)
Definition prior_rate (command : string) (file : option usage_data) : Q :=
  match dict_get command (commands (load_command_data file)) with
  | Some info => get_or (avgSuccessRate info) 0.5%Q
  | None => 0.0%Q
  end.

Definition outcome_value (success : bool) : Q :=
  if success then 1.0%Q else 0.0%Q.

(** The number of successful outcomes of a list. *)
Definition successes (outcomes : list bool) : Z :=
  Z.of_nat (List.length (filter (fun s => s) outcomes)).

(** The mean of the outcomes with one pseudo-observation of 0.5 added:
    [(0.5 + successes) / (n + 1)]. *)
Definition seeded_mean (outcomes : list bool) : Q :=
  ((0.5 + inject_Z (successes outcomes))
   / inject_Z (Z.of_nat (List.length outcomes) + 1))%Q.

(** The plain mean of the outcomes: [successes / n]. *)
Definition plain_mean (outcomes : list bool) : Q :=
  (inject_Z (successes outcomes) / inject_Z (Z.of_nat (List.length outcomes)))%Q.

Definition priority_rank (p : string) : Z :=
  if String.eqb p "high" then 3
  else if String.eqb p "medium" then 2
  else if String.eqb p "low" then 1
  else 0.

(** High before medium before low. *)
Definition priority_descending (recs : list recommendation) : Prop :=
  StronglySorted
    (fun a b => priority_rank (priority b) <= priority_rank (priority a)) recs.

(** The state of a tracked command after [k] recorded outcomes of which
    [succ] succeeded: the stored count is [k], and [k] times the stored
    rate is within [k (k + 1) / 400] of [succ] (each call rounds to two
    decimals, and the deviations add up). *)
Definition tracked (command : string) (k succ : Z)
    (file : option usage_data) : Prop :=
  stored_invocations command file = k
  /\ exists r,
       stored_rate command file = Some r
       /\ (Qabs (inject_Z k * r - inject_Z succ)
           <= inject_Z k * (inject_Z k + 1) / 400)%Q.

(** Some command was never invoked. *)
Definition never_used (cmds : dict cmd_info) : bool :=
  existsb (fun item => get_or (invocations (snd item)) 0 =? 0) cmds.

(** The advice of /route was given and followed less than 30% of the time. *)
Definition route_ignored (cmds : dict cmd_info) : bool :=
  let route_cmd := get_or (dict_get "/route" cmds) no_info in
  (0 <? get_or (recommendationsMade route_cmd) 0)
  && Qlt_bool (get_or (adoptionRate route_cmd) 0.0%Q) 0.3.

(** The priorities in generation order: cleanup, one consolidation per
    redundancy cluster, adoption, one promotion per underused command. *)
Definition generation_order (cmds : dict cmd_info) : list string :=
  (if never_used cmds then ["low"] else [])
  ++ repeat "medium" (List.length (find_redundant_commands cmds))
  ++ (if route_ignored cmds then ["high"] else [])
  ++ repeat "medium"
       (List.length (filter (fun item => underused (snd item)) cmds)).

(** The recommendations of a run, entry by entry, from the commands
    mapping: a cleanup entry naming the commands never invoked, if any;
    a consolidation entry per redundancy cluster; an adoption entry if
    /route made recommendations followed less than 30% of the time; a
    promotion entry per command with fewer than 5 invocations and a
    success rate above 0.8, in the order of the mapping. *)
Definition expected_recommendations (cmds : dict cmd_info)
    : list recommendation :=
  let unused :=
    keys (filter (fun item => get_or (invocations (snd item)) 0 =? 0) cmds) in
  let route_cmd := get_or (dict_get "/route" cmds) no_info in
  let adoption := get_or (adoptionRate route_cmd) 0.0%Q in
  let promoted :=
    keys (filter (fun item =>
                    (get_or (invocations (snd item)) 0 <? 5)
                    && Qlt_bool 0.8 (get_or (avgSuccessRate (snd item)) 0.0%Q))
                 cmds) in
  match unused with
  | [] => []
  | _ :: _ =>
      [ {| priority := "low";
           category := "cleanup";
           issue := (str_of_Z (Z.of_nat (List.length unused))
                     ++ " commands never used in 30 days")%string;
           rec_commands := Some unused;
           suggestion := "Review for deprecation or better promotion" |} ]
  end
  ++ map (fun cluster =>
            {| priority := "medium";
               category := "consolidation";
               issue := red_reason cluster;
               rec_commands := Some (red_commands cluster);
               suggestion := red_suggestion cluster |})
         (find_redundant_commands cmds)
  ++ (if (0 <? get_or (recommendationsMade route_cmd) 0)
         && Qlt_bool adoption 0.3
      then
        [ {| priority := "high";
             category := "adoption";
             issue := ("/route recommendations only followed "
                       ++ format_0f (adoption * 100) ++ "% of time")%string;
             rec_commands := None;
             suggestion :=
               "Improve specificity of routing advice or reduce noise" |} ]
      else [])
  ++ map (fun cmd =>
            {| priority := "medium";
               category := "promotion";
               issue := (cmd ++ " highly successful but rarely used")%string;
               rec_commands := None;
               suggestion := "Better documentation or automatic suggestions" |})
         promoted.

(** An entry that records an invocation count and nothing else. *)
Definition invoked (n : Z) : cmd_info :=
  {| invocations := Some n; lastUsed := None; avgSuccessRate := None;
     recommendationsMade := None; adoptionRate := None |}.

Definition snapshot (cmds : dict cmd_info) : usage_data :=
  {| commands := cmds; insights := no_insights; recommendations := [];
     trackingPeriod := None; lastUpdated := None |}.

(** A model entry as [analyze_effectiveness] writes it. *)
Definition model_entry (attempted_ succeeded_ : Z)
    (types : dict Subagent.task_type_stats) : Subagent.model_data :=
  {| Subagent.tasksAttempted := Some attempted_;
     Subagent.tasksSucceeded := Some succeeded_;
     Subagent.taskTypes := Some types;
     Subagent.commonFailures := [];
     Subagent.firstPassRate :=
       Some (Subagent.first_pass_rate succeeded_ attempted_);
     Subagent.avgTokensUsed := None;
     Subagent.totalTokensUsed := None |}.

Definition type_entry (attempted_ succeeded_ : Z) : Subagent.task_type_stats :=
  {| Subagent.attempted := Some attempted_;
     Subagent.succeeded := Some succeeded_;
     Subagent.type_firstPassRate :=
       Some (Subagent.first_pass_rate succeeded_ attempted_) |}.

(** The first-pass rate a model has on a task type, if it attempted it. *)
Definition rate_on (task_type : string) (data : Subagent.model_data) : option Q :=
  match dict_get task_type (get_or (Subagent.taskTypes data) []) with
  | Some stats => Some (get_or (Subagent.type_firstPassRate stats) 0.0%Q)
  | None => None
  end.

(** A valid threshold table: bounds strictly ascending, scores nondecreasing. *)
Definition valid_table (table : threshold_table) : Prop :=
  Sorted (fun p q => (fst p < fst q)%Q /\ snd p <= snd q) table.

(** What a dimension copies into its result, score apart. *)
Definition result_header (r : dimension_result) : string * Q * Q * string :=
  (r_dimension r, r_value r, r_weight r, r_detail r).

Definition dimension_header (env : sources) (d : dimension)
    : string * Q * Q * string :=
  (name d, fst (getValue d env), weight d, snd (getValue d env)).

(** The ages of the context files whose last commit is known. *)
Definition known_ages (context_files : list (option Z)) : list Z :=
  flat_map (fun f => match f with Some age => [age] | None => [] end)
           context_files.

(** Their average, in days. *)
Definition average_age (context_files : list (option Z)) : Q :=
  (inject_Z (sum_Z (known_ages context_files))
   / inject_Z (Z.of_nat (List.length (known_ages context_files))))%Q.

(** The maturity score of the context by average age. *)
Definition freshness_score (avg_age_days : Q) : Z :=
  if Qlt_bool avg_age_days 3 then 10
  else if Qlt_bool avg_age_days 8 then 8
  else if Qlt_bool avg_age_days 15 then 6
  else if Qlt_bool avg_age_days 30 then 4
  else 2.

(** Collector results used as a running example. *)
Definition sample_sources : sources :=
  {| delegation_compliance := (0.5%Q, "5/10 tasks delegated (50%)");
     error_recurrence_rate := (0.0%Q, "No fix commits in last 30 days");
     documentation_coverage := (0.82%Q, "41/50 exports documented (82%)");
     test_coverage := (1.07%Q, "Test coverage: 107.0%");
     context_freshness := (0.8%Q, "Context files avg 5 days old");
     hook_adoption_rate := (0.0%Q, "No hook advice given yet") |}.

(** A dimension whose threshold table is empty. *)
Definition untabled : dimension :=
  {| name := "Untabled"; weight := 0.5%Q;
     getValue := hook_adoption_rate; thresholds := [] |}.

(** A command with its invocation count, an absent count read as 0. *)
Definition usage_count (item : string * cmd_info) : string * Z :=
  (fst item, get_or (invocations (snd item)) 0).

(** The loops of the model comparison keep the first item with the
    highest score among the eligible ones, starting from score 0.0.
    [pick] is their common turn. *)
Definition pick (eligible : Subagent.model_data -> bool)
    (score : Subagent.model_data -> Q) (acc : Q * option string)
    (item : string * Subagent.model_data) : Q * option string :=
  if eligible (snd item) && Qlt_bool (fst acc) (score (snd item))
  then (score (snd item), Some (fst item))
  else acc.

(** [m] is the first item of [models] with the highest score among the
    eligible ones, and that score is above 0. *)
Definition first_maximum (eligible : Subagent.model_data -> bool)
    (score : Subagent.model_data -> Q)
    (models : dict Subagent.model_data) (m : string) : Prop :=
  exists before data after,
    models = before ++ (m, data) :: after
    /\ eligible data = true
    /\ (0 < score data)%Q
    /\ (forall x, In x before -> eligible (snd x) = true ->
          (score (snd x) < score data)%Q)
    /\ (forall x, In x after -> eligible (snd x) = true ->
          (score (snd x) <= score data)%Q).

(** The state of such a loop after the items [done]: no eligible item
    of [done] has a score above the one held, and the item held, if any,
    is the first with that score. *)
Definition picked (eligible : Subagent.model_data -> bool)
    (score : Subagent.model_data -> Q)
    (done : dict Subagent.model_data) (acc : Q * option string) : Prop :=
  (forall x, In x done -> eligible (snd x) = true ->
     (score (snd x) <= fst acc)%Q)
  /\ match snd acc with
     | None => (fst acc == 0)%Q
     | Some m =>
         exists before data after,
           done = before ++ (m, data) :: after
           /\ eligible data = true
           /\ fst acc = score data
           /\ (0 < score data)%Q
           /\ (forall x, In x before -> eligible (snd x) = true ->
                 (score (snd x) < score data)%Q)
     end.

(** Whether a model attempted a task type, and its rate on it. *)
Definition attempted_type (task_type : string) (data : Subagent.model_data)
    : bool :=
  match rate_on task_type data with
  | Some _ => true
  | None => false
  end.

Definition rate_or_zero (task_type : string) (data : Subagent.model_data) : Q :=
  get_or (rate_on task_type data) 0.0%Q.

Definition swap {A B : Type} (p : A * B) : B * A := (snd p, fst p).

(** The model held at the end of the token-efficiency loop. *)
Definition most_efficient (models : dict Subagent.model_data) : option string :=
  snd (fold_left Subagent.efficient_step models (None, None)).

(** A model counts for token efficiency with average [avg]: the average
    is stored and positive and the model attempted a task. *)
Definition counted (data : Subagent.model_data) (avg : Q) : Prop :=
  Subagent.avgTokensUsed data = Some avg
  /\ (0 < avg)%Q
  /\ 0 < get_or (Subagent.tasksAttempted data) 0.

(** The state of the token-efficiency loop after the items [done]. *)
Definition cheapest (done : dict Subagent.model_data)
    (acc : option Q * option string) : Prop :=
  match acc with
  | (None, None) => forall x avg, In x done -> ~ counted (snd x) avg
  | (Some min_tokens, Some m) =>
      exists before data after,
        done = before ++ (m, data) :: after
        /\ counted data min_tokens
        /\ (forall x avg, In x before -> counted (snd x) avg ->
              (min_tokens < avg)%Q)
        /\ (forall x avg, In x after -> counted (snd x) avg ->
              (min_tokens <= avg)%Q)
  | _ => False
  end.

(** The tasks of a model in the log, and what they add up to. *)
Definition tasks_of (m : string) (log : list Subagent.task)
    : list Subagent.task :=
  filter (fun t => String.eqb (Subagent.model t) m) log.

Definition attempts_of (m : string) (log : list Subagent.task) : Z :=
  Z.of_nat (List.length (tasks_of m log)).

Definition successes_of (m : string) (log : list Subagent.task) : Z :=
  Z.of_nat
    (List.length
       (filter (fun t => String.eqb (Subagent.status t) "success")
               (tasks_of m log))).

Definition tokens_of (m : string) (log : list Subagent.task) : Z :=
  sum_Z (map Subagent.tokens (tasks_of m log)).

(** The statistics of a model, those of a new one if it has none. *)
Definition stats_of (m : string) (model_stats : dict Subagent.stats)
    : Subagent.stats :=
  get_or (dict_get m model_stats) Subagent.new_stats.

(** Every stored model has a [taskTypes] object, as all the entries the
    script itself writes. *)
Definition with_task_types (stored : dict Subagent.model_data) : Prop :=
  forall m e, dict_get m stored = Some e -> Subagent.taskTypes e <> None.

(** The entry of a model agrees with its statistics. *)
Definition summarizes (e : Subagent.model_data) (st : Subagent.stats) : Prop :=
  Subagent.tasksAttempted e = Some (Subagent.st_attempted st)
  /\ Subagent.tasksSucceeded e = Some (Subagent.st_succeeded st)
  /\ Subagent.totalTokensUsed e = Some (Subagent.totalTokens st)
  /\ Subagent.firstPassRate e
     = Some (Subagent.first_pass_rate (Subagent.st_succeeded st)
                                      (Subagent.st_attempted st)).

(** A task log and a stored file used as running examples. *)
Definition sample_log : list Subagent.task :=
  [ {| Subagent.timestamp := "2025-01-01T10:00:00"; Subagent.model := "deepseek";
       Subagent.taskType := "refactor"; Subagent.status := "success";
       Subagent.tokens := 120 |};
    {| Subagent.timestamp := "2025-01-01T11:00:00"; Subagent.model := "deepseek";
       Subagent.taskType := "refactor"; Subagent.status := "failure";
       Subagent.tokens := 200 |};
    {| Subagent.timestamp := "2025-01-01T12:00:00"; Subagent.model := "qwen";
       Subagent.taskType := "tests"; Subagent.status := "success";
       Subagent.tokens := 90 |} ].

(** A stored file in which the entry of deepseek has no [taskTypes]. *)
Definition file_without_task_types : Subagent.subagent_data :=
  {| Subagent.models :=
       [("deepseek",
         {| Subagent.tasksAttempted := Some 1;
            Subagent.tasksSucceeded := Some 1;
            Subagent.taskTypes := None;
            Subagent.commonFailures := [];
            Subagent.firstPassRate := Some 1.0%Q;
            Subagent.avgTokensUsed := None;
            Subagent.totalTokensUsed := None |})];
     Subagent.comparisonMetrics := None;
     Subagent.lastUpdated := None |}.

(** The tasks of a model on one task type, counted. *)
Definition type_tasks (m t : string) (log : list Subagent.task)
    : list Subagent.task :=
  filter (fun x => String.eqb (Subagent.taskType x) t) (tasks_of m log).

Definition type_attempts (m t : string) (log : list Subagent.task) : Z :=
  Z.of_nat (List.length (type_tasks m t log)).

Definition type_successes (m t : string) (log : list Subagent.task) : Z :=
  Z.of_nat
    (List.length
       (filter (fun x => String.eqb (Subagent.status x) "success")
               (type_tasks m t log))).

(** The counts of a model on a task type in the statistics, those of a
    new pair if there are none. *)
Definition type_count_of (m t : string) (model_stats : dict Subagent.stats)
    : Subagent.type_count :=
  get_or (dict_get t (Subagent.byTaskType (stats_of m model_stats)))
         Subagent.new_type_count.

(** The task types of an entry agree with those of the statistics. *)
Definition summarizes_types (e : Subagent.model_data) (st : Subagent.stats)
    : Prop :=
  exists tts,
    Subagent.taskTypes e = Some tts
    /\ forall t tc,
         dict_get t (Subagent.byTaskType st) = Some tc ->
         dict_get t tts
         = Some (type_entry (Subagent.tc_attempted tc)
                            (Subagent.tc_succeeded tc)).

(** The task types of every model of the statistics have distinct names. *)
Definition distinct_types (model_stats : dict Subagent.stats) : Prop :=
  forall m st,
    dict_get m model_stats = Some st -> NoDup (keys (Subagent.byTaskType st)).

(** The gate and the score of the quality comparison. *)
Definition enough_tasks (data : Subagent.model_data) : bool :=
  5 <? get_or (Subagent.tasksAttempted data) 0.

Definition overall_rate (data : Subagent.model_data) : Q :=
  get_or (Subagent.firstPassRate data) 0.0%Q.

(** ** Comparisons and rounding *)

Lemma Qlt_bool_iff (x y : Q) : Qlt_bool x y = true <-> (x < y)%Q.
Proof.
  unfold Qlt_bool. rewrite negb_true_iff.
  split; intro H.
  - apply Qnot_le_lt. intro Hle. apply Qle_bool_iff in Hle. congruence.
  - destruct (Qle_bool y x) eqn:E; [|reflexivity].
    apply Qle_bool_iff in E. exfalso. apply (Qlt_not_le _ _ H E).
Qed.

Lemma Qlt_bool_false_iff (x y : Q) : Qlt_bool x y = false <-> (y <= x)%Q.
Proof.
  unfold Qlt_bool. rewrite negb_false_iff. apply Qle_bool_iff.
Qed.

Lemma Qle_bool_false_iff (x y : Q) : Qle_bool x y = false <-> (y < x)%Q.
Proof.
  rewrite <- Qlt_bool_iff. unfold Qlt_bool.
  destruct (Qle_bool x y); simpl; split; congruence.
Qed.

Lemma round_half_even_cases (q : Q) :
  round_half_even q = Qfloor q \/ round_half_even q = Qfloor q + 1.
Proof.
  unfold round_half_even.
  destruct (q - inject_Z (Qfloor q) ?= 1 # 2)%Q; auto.
  destruct (Z.even (Qfloor q)); auto.
Qed.

(** Rounding moves a number by at most one half. *)
Lemma round_half_even_close (q : Q) :
  (q - (1 # 2) <= inject_Z (round_half_even q) <= q + (1 # 2))%Q.
Proof.
  pose proof (Qfloor_le q) as Hlo.
  pose proof (Qlt_floor q) as Hhi.
  rewrite inject_Z_plus in Hhi. change (inject_Z 1) with 1%Q in Hhi.
  unfold round_half_even.
  destruct (q - inject_Z (Qfloor q) ?= 1 # 2)%Q eqn:E.
  - apply Qeq_alt in E.
    destruct (Z.even (Qfloor q));
      [|rewrite inject_Z_plus; change (inject_Z 1) with 1%Q]; lra.
  - apply Qlt_alt in E. lra.
  - apply Qgt_alt in E.
    rewrite inject_Z_plus. change (inject_Z 1) with 1%Q. lra.
Qed.

(** Rounding does not cross an integer. *)
Lemma round_half_even_lower (a : Z) (q : Q) :
  (inject_Z a <= q)%Q -> a <= round_half_even q.
Proof.
  intro H. apply Qfloor_resp_le in H. rewrite Qfloor_Z in H.
  destruct (round_half_even_cases q) as [-> | ->]; lia.
Qed.

Lemma round_half_even_upper (b : Z) (q : Q) :
  (q <= inject_Z b)%Q -> round_half_even q <= b.
Proof.
  intro H.
  pose proof (Qfloor_resp_le _ _ H) as Hf. rewrite Qfloor_Z in Hf.
  destruct (Z.eq_dec (Qfloor q) b) as [Heq | Hne].
  - pose proof (Qfloor_le q) as Hlo.
    unfold round_half_even.
    destruct (q - inject_Z (Qfloor q) ?= 1 # 2)%Q eqn:E; try lia.
    + apply Qeq_alt in E. rewrite Heq in E. lra.
    + apply Qgt_alt in E. rewrite Heq in E. lra.
  - destruct (round_half_even_cases q) as [-> | ->]; lia.
Qed.

Lemma pow10_inject (n : nat) (z : Z) :
  (Qmake z (pow10 n) * inject_Z (Zpos (pow10 n)) == inject_Z z)%Q.
Proof.
  unfold Qeq, Qmult, inject_Z. simpl. lia.
Qed.

(** [round(q, n)] is within half a unit of the [n]-th decimal of [q]. *)
Lemma py_round_close (q : Q) (n : nat) :
  (Qabs (py_round q n - q) <= 1 # (2 * pow10 n))%Q.
Proof.
  unfold py_round.
  set (p := pow10 n).
  pose proof (round_half_even_close (q * inject_Z (Zpos p))) as [Hlo Hhi].
  set (z := round_half_even (q * inject_Z (Zpos p))) in *.
  set (P := inject_Z (Zpos p)) in *.
  assert (Hp : (0 < P)%Q) by (unfold P, Qlt, inject_Z; simpl; lia).
  assert (Hc : (0 <= / P)%Q) by (apply Qlt_le_weak, Qinv_lt_0_compat, Hp).
  assert (Hz : (z # p == inject_Z z * / P)%Q).
  { unfold P, Qeq, Qmult, Qinv, inject_Z. simpl. lia. }
  assert (Hh : (1 # (2 * p) == (1 # 2) * / P)%Q).
  { unfold P, Qeq, Qmult, Qinv, inject_Z. simpl. lia. }
  assert (Hd : ((z # p) - q == (inject_Z z - q * P) * / P)%Q).
  { rewrite Hz. field. lra. }
  rewrite Hd, Hh.
  apply Qabs_Qle_condition. split.
  - setoid_replace (- ((1 # 2) * / P))%Q with ((- (1 # 2)) * / P)%Q by ring.
    apply Qmult_le_compat_r; [lra | exact Hc].
  - apply Qmult_le_compat_r; [lra | exact Hc].
Qed.

(** ** Threshold scoring *)

Lemma last_item_last {A : Type} (l : list A) (d : A) :
  l <> [] -> last_item l = Ok (last l d).
Proof.
  induction l as [|a [|b rest] IH]; intro Hne.
  - congruence.
  - reflexivity.
  - change (last_item (a :: b :: rest)) with (last_item (b :: rest)).
    change (last (a :: b :: rest) d) with (last (b :: rest) d).
    apply IH. discriminate.
Qed.

(** The loop returns on the first pair that admits the value. *)
Lemma scan_thresholds_first (v : Q) (before after : threshold_table)
    (bound : Q) (score : Z) :
  (forall p, In p before -> ~ (v <= fst p)%Q) ->
  (v <= bound)%Q ->
  scan_thresholds v (before ++ (bound, score) :: after) = Some score.
Proof.
  intros Hbefore Hle.
  induction before as [|[b s] rest IH]; simpl.
  - apply Qle_bool_iff in Hle. now rewrite Hle.
  - destruct (Qle_bool v b) eqn:E.
    + apply Qle_bool_iff in E. exfalso.
      apply (Hbefore (b, s)); [now left | exact E].
    + apply IH. intros p Hp. apply Hbefore. now right.
Qed.

(** The loop falls through when the value is above every bound. *)
Lemma scan_thresholds_none (v : Q) (table : threshold_table) :
  (forall p, In p table -> (fst p < v)%Q) ->
  scan_thresholds v table = None.
Proof.
  induction table as [|[b s] rest IH]; intro Habove; simpl.
  - reflexivity.
  - assert (Hb : (b < v)%Q) by (apply (Habove (b, s)); now left).
    apply Qle_bool_false_iff in Hb. rewrite Hb.
    apply IH. intros p Hp. apply Habove. now right.
Qed.

Lemma scan_thresholds_in (v : Q) (table : threshold_table) (s : Z) :
  scan_thresholds v table = Some s -> exists b, In (b, s) table.
Proof.
  induction table as [|[b s'] rest IH]; simpl; intro H.
  - discriminate.
  - destruct (Qle_bool v b).
    + injection H as ->. exists b. now left.
    + destruct (IH H) as [b' Hb']. exists b'. now right.
Qed.

Lemma score_dimension_returns (v : Q) (table : threshold_table) :
  table <> [] -> exists s, score_dimension v table = Ok s.
Proof.
  intro Hne. unfold score_dimension.
  destruct (scan_thresholds v table) as [s|].
  - now exists s.
  - rewrite (last_item_last table (0%Q, 0) Hne). simpl. eauto.
Qed.

(** C1. On a non-empty threshold table and for every raw value (negative
    values and values above 1.0 included), [score_dimension] does not
    raise; it returns the score of the first pair whose bound is at
    least the value, and the score of the last pair when the value is
    above every bound of the table. *)
Theorem score_dimension_first_match_or_ceiling
    (v : Q) (table : threshold_table) :
  table <> [] ->
  exists s,
    score_dimension v table = Ok s
    /\ (forall before bound score after,
          table = before ++ (bound, score) :: after ->
          (forall p, In p before -> ~ (v <= fst p)%Q) ->
          (v <= bound)%Q ->
          s = score)
    /\ ((forall p, In p table -> (fst p < v)%Q) ->
        s = snd (last table (0%Q, 0))).
Proof.
  intro Hne.
  destruct (score_dimension_returns v table Hne) as [s Hs].
  exists s. split; [exact Hs|]. split.
  - intros before bound score after -> Hbefore Hle.
    unfold score_dimension in Hs.
    rewrite (scan_thresholds_first v before after bound score Hbefore Hle) in Hs.
    congruence.
  - intro Habove.
    unfold score_dimension in Hs.
    rewrite (scan_thresholds_none v table Habove) in Hs.
    rewrite (last_item_last table (0%Q, 0) Hne) in Hs.
    simpl in Hs. congruence.
Qed.

Lemma score_dimension_first_match_or_ceiling_witness :
  exists s,
    score_dimension 1.07%Q [(0.60%Q, 2); (0.70%Q, 4); (1.00%Q, 10)] = Ok s
    /\ s = 10.
Proof.
  destruct (score_dimension_first_match_or_ceiling 1.07%Q
              [(0.60%Q, 2); (0.70%Q, 4); (1.00%Q, 10)])
    as [s [Hs [_ Hlast]]].
  - discriminate.
  - exists s. split; [exact Hs|].
    apply Hlast. intros p [<- | [<- | [<- | []]]]; reflexivity.
Defined.

(** The spec's example: test coverage 0.82 scores 8. *)
Example score_dimension_test_coverage :
  score_dimension 0.82%Q
    [(0.60%Q, 2); (0.70%Q, 4); (0.80%Q, 6); (0.90%Q, 8); (1.00%Q, 10)] = Ok 8.
Proof. reflexivity. Qed.

(** An empty table makes [thresholds[-1]] raise. *)
Example score_dimension_empty_table (v : Q) :
  score_dimension v [] = Raise IndexError.
Proof. reflexivity. Qed.

Lemma valid_table_scores (table : threshold_table) :
  valid_table table ->
  StronglySorted (fun p q => snd p <= snd q) table.
Proof.
  intro Hv.
  apply Sorted_StronglySorted in Hv.
  - induction Hv as [|p l Hl IH Hall]; constructor.
    + exact IH.
    + eapply Forall_impl; [|exact Hall]. intros q [_ Hq]. exact Hq.
  - intros p q r [Hb1 Hs1] [Hb2 Hs2]. split; [lra | lia].
Qed.

Lemma sorted_scores_last (table : threshold_table) (p d : Q * Z) :
  StronglySorted (fun p q => snd p <= snd q) table ->
  In p table -> snd p <= snd (last table d).
Proof.
  intro Hs. revert p.
  induction Hs as [|a l Hl IH Hall]; intros p Hin.
  - destruct Hin.
  - destruct l as [|b l'].
    + destruct Hin as [<- | []]. simpl. lia.
    + change (last (a :: b :: l') d) with (last (b :: l') d).
      destruct Hin as [<- | Hin].
      * rewrite Forall_forall in Hall.
        transitivity (snd b).
        -- apply Hall. now left.
        -- apply IH. now left.
      * apply IH. exact Hin.
Qed.

(** The loop alone is monotone: a larger value returns later or not at all. *)
Lemma scan_thresholds_monotone (v1 v2 : Q) (table : threshold_table) :
  StronglySorted (fun p q => snd p <= snd q) table ->
  (v1 <= v2)%Q ->
  match scan_thresholds v1 table, scan_thresholds v2 table with
  | Some s1, Some s2 => s1 <= s2
  | None, Some _ => False
  | _, None => True
  end.
Proof.
  intros Hs Hle.
  induction Hs as [|[b s] l Hl IH Hall]; simpl.
  - exact I.
  - destruct (Qle_bool v1 b) eqn:E1.
    + destruct (Qle_bool v2 b) eqn:E2.
      * lia.
      * destruct (scan_thresholds v2 l) as [s2|] eqn:E; [|exact I].
        destruct (scan_thresholds_in _ _ _ E) as [b2 Hin].
        rewrite Forall_forall in Hall. apply (Hall (b2, s2) Hin).
    + apply Qle_bool_false_iff in E1.
      assert (E2 : Qle_bool v2 b = false) by (apply Qle_bool_false_iff; lra).
      rewrite E2. exact IH.
Qed.

(** C5. On a valid threshold table (bounds strictly ascending, scores
    nondecreasing) the score is monotonically nondecreasing in the raw
    value. *)
Theorem score_dimension_monotone (v1 v2 : Q) (table : threshold_table) :
  table <> [] ->
  valid_table table ->
  (v1 <= v2)%Q ->
  exists s1 s2,
    score_dimension v1 table = Ok s1
    /\ score_dimension v2 table = Ok s2
    /\ s1 <= s2.
Proof.
  intros Hne Hv Hle.
  apply valid_table_scores in Hv.
  pose proof (scan_thresholds_monotone v1 v2 table Hv Hle) as Hm.
  unfold score_dimension.
  rewrite (last_item_last table (0%Q, 0) Hne). simpl.
  destruct (scan_thresholds v1 table) as [s1|] eqn:E1;
    destruct (scan_thresholds v2 table) as [s2|] eqn:E2.
  - exists s1, s2. auto.
  - exists s1, (snd (last table (0%Q, 0))). repeat split.
    destruct (scan_thresholds_in _ _ _ E1) as [b1 Hin].
    apply (sorted_scores_last table (b1, s1) (0%Q, 0) Hv Hin).
  - destruct Hm.
  - exists (snd (last table (0%Q, 0))), (snd (last table (0%Q, 0))).
    repeat split. lia.
Qed.

Lemma score_dimension_monotone_witness :
  exists s1 s2,
    score_dimension 0.65%Q [(0.60%Q, 2); (0.70%Q, 4); (1.00%Q, 10)] = Ok s1
    /\ score_dimension 1.20%Q [(0.60%Q, 2); (0.70%Q, 4); (1.00%Q, 10)] = Ok s2
    /\ s1 <= s2.
Proof.
  apply (score_dimension_monotone 0.65%Q 1.20%Q
           [(0.60%Q, 2); (0.70%Q, 4); (1.00%Q, 10)]).
  - discriminate.
  - unfold valid_table.
    repeat constructor; simpl; try reflexivity; discriminate.
  - discriminate.
Defined.

(** ** Maturity bands *)

(** C3. The level is Critical below 2.0, Poor from 2.0 and below 4.0, Fair
    from 4.0 and below 6.0, Good from 6.0 and below 8.0, Excellent from
    8.0 on; a score on a boundary belongs to the higher band, so 2.0 is
    Poor.  This holds for every score, those of [0,10] among them. *)
Theorem get_maturity_level_bands (x : Q) :
  (fst (get_maturity_level x) = "Critical" <-> (x < 2)%Q)
  /\ (fst (get_maturity_level x) = "Poor" <-> (2 <= x < 4)%Q)
  /\ (fst (get_maturity_level x) = "Fair" <-> (4 <= x < 6)%Q)
  /\ (fst (get_maturity_level x) = "Good" <-> (6 <= x < 8)%Q)
  /\ (fst (get_maturity_level x) = "Excellent" <-> (8 <= x)%Q)
  /\ fst (get_maturity_level 2.0%Q) = "Poor".
Proof.
  unfold get_maturity_level.
  destruct (Qlt_bool x 2.0) eqn:E2;
    [apply Qlt_bool_iff in E2 | apply Qlt_bool_false_iff in E2;
     destruct (Qlt_bool x 4.0) eqn:E4;
     [apply Qlt_bool_iff in E4 | apply Qlt_bool_false_iff in E4;
      destruct (Qlt_bool x 6.0) eqn:E6;
      [apply Qlt_bool_iff in E6 | apply Qlt_bool_false_iff in E6;
       destruct (Qlt_bool x 8.0) eqn:E8;
       [apply Qlt_bool_iff in E8 | apply Qlt_bool_false_iff in E8]]]];
    simpl;
    repeat split; intros; try discriminate; try reflexivity; lra.
Qed.

(** ** The weighted composite *)

Lemma weighted_sum_app (xs ys : list dimension_result) :
  (weighted_sum (xs ++ ys) == weighted_sum xs + weighted_sum ys)%Q.
Proof.
  induction xs as [|x xs IH]; simpl.
  - ring.
  - rewrite IH. ring.
Qed.

(** Invariant of the loop: the running total is the weighted sum of the
    results appended so far, one result per dimension, in order. *)
Lemma score_loop_spec (env : sources) (dims : list dimension) :
  forall total results acc,
    score_loop env dims total results = Ok acc ->
    exists new,
      snd acc = results ++ new
      /\ (fst acc == total + weighted_sum new)%Q
      /\ Forall2 (scored env) dims new.
Proof.
  induction dims as [|d dims IH]; intros total results acc H; simpl in H.
  - injection H as <-. exists []. simpl. repeat split.
    + now rewrite app_nil_r.
    + ring.
    + constructor.
  - destruct (getValue d env) as [value detail] eqn:Ev.
    destruct (score_dimension value (thresholds d)) as [score|e] eqn:Es;
      simpl in H; [|discriminate].
    destruct (IH _ _ _ H) as [new [Hsnd [Hfst Hall]]].
    eexists (_ :: new). repeat split.
    + rewrite Hsnd, <- app_assoc. reflexivity.
    + rewrite Hfst. simpl. ring.
    + constructor; [|exact Hall].
      split; simpl; [reflexivity | now rewrite Ev].
Qed.

Lemma score_loop_returns (env : sources) (dims : list dimension) :
  (forall d, In d dims -> thresholds d <> []) ->
  forall total results, exists acc, score_loop env dims total results = Ok acc.
Proof.
  induction dims as [|d dims IH]; intros Hne total results; simpl.
  - eauto.
  - destruct (getValue d env) as [value detail].
    destruct (score_dimension_returns value (thresholds d)) as [s ->].
    + apply Hne. now left.
    + simpl. apply IH. intros d' Hd'. apply Hne. now right.
Qed.

(** A weighted sum of scores of [0,10] lies between 0 and ten times the
    total weight, when no weight is negative. *)
Lemma weighted_sum_bounds (env : sources) (dims : list dimension)
    (results : list dimension_result) :
  Forall2 (scored env) dims results ->
  (forall d s, In d dims ->
     score_dimension (fst (getValue d env)) (thresholds d) = Ok s ->
     0 <= s <= 10) ->
  (forall d, In d dims -> (0 <= weight d)%Q) ->
  (0 <= weighted_sum results <= 10 * total_weight dims)%Q.
Proof.
  induction 1 as [|d r dims results [Hw Hs] Hrest IH];
    intros Hscore Hweight; simpl.
  - lra.
  - destruct IH as [IHlo IHhi].
    + intros d' s Hd'. apply Hscore. now right.
    + intros d' Hd'. apply Hweight. now right.
    + assert (Hr : 0 <= r_score r <= 10) by (apply (Hscore d); [now left | exact Hs]).
      assert (Hwd : (0 <= weight d)%Q) by (apply Hweight; now left).
      rewrite Hw.
      assert (H0 : (0 <= inject_Z (r_score r))%Q).
      { change 0%Q with (inject_Z 0). rewrite <- Zle_Qle. lia. }
      assert (H10 : (inject_Z (r_score r) <= 10)%Q).
      { change 10%Q with (inject_Z 10). rewrite <- Zle_Qle. lia. }
      pose proof (Qmult_le_0_compat _ _ H0 Hwd) as Hlo.
      pose proof (Qmult_le_compat_r _ _ (weight d) H10 Hwd) as Hhi.
      lra.
Qed.

(** Rounding to [n] decimals keeps a number between two integers that
    bound it. *)
Lemma py_round_between (a b : Z) (q : Q) (n : nat) :
  (inject_Z a <= q <= inject_Z b)%Q ->
  (inject_Z a <= py_round q n <= inject_Z b)%Q.
Proof.
  intros [Hlo Hhi]. unfold py_round.
  set (p := pow10 n).
  assert (Hp : (0 <= inject_Z (Zpos p))%Q) by (unfold Qle, inject_Z; simpl; lia).
  pose proof (Qmult_le_compat_r _ _ _ Hlo Hp) as Hlo'.
  pose proof (Qmult_le_compat_r _ _ _ Hhi Hp) as Hhi'.
  rewrite <- inject_Z_mult in Hlo', Hhi'.
  apply round_half_even_lower in Hlo'.
  apply round_half_even_upper in Hhi'.
  fold p in Hlo', Hhi'.
  split; unfold Qle; cbn [Qnum Qden inject_Z]; lia.
Qed.

(** Rounding depends on the value of the rational, not on its fraction. *)
Lemma py_round_compat (x y : Q) (n : nat) :
  (x == y)%Q -> py_round x n = py_round y n.
Proof.
  intro H. unfold py_round, round_half_even.
  set (P := inject_Z (Zpos (pow10 n))).
  assert (Hm : (x * P == y * P)%Q) by now rewrite H.
  assert (Hf : Qfloor (x * P) = Qfloor (y * P)).
  { apply Z.le_antisymm; apply Qfloor_resp_le; rewrite Hm; apply Qle_refl. }
  rewrite Hf.
  assert (Hc : (x * P - inject_Z (Qfloor (y * P)) ?= 1 # 2)%Q
               = (y * P - inject_Z (Qfloor (y * P)) ?= 1 # 2)%Q).
  { now rewrite Hm. }
  now rewrite Hc.
Qed.

(** The report of [calculate_maturity] over a list of dimensions: one
    scored dimension per dimension, the overall score the rounded weighted
    sum, and its range under the invariants of the data model. *)
Lemma calculate_maturity_on_spec
    (dims : list dimension) (env : sources) (now : string) :
  (forall d, In d dims -> thresholds d <> []) ->
  exists r,
    calculate_maturity_on dims env now = Ok r
    /\ Forall2 (scored env) dims (report_dimensions r)
    /\ overallScore r = py_round (weighted_sum (report_dimensions r)) 1
    /\ ((forall d s, In d dims ->
           score_dimension (fst (getValue d env)) (thresholds d) = Ok s ->
           0 <= s <= 10) ->
        (forall d, In d dims -> (0 <= weight d)%Q) ->
        (total_weight dims == 1)%Q ->
        (0 <= overallScore r <= 10)%Q).
Proof.
  intro Hne.
  destruct (score_loop_returns env dims Hne 0%Q []) as [acc Hacc].
  destruct (score_loop_spec env dims _ _ _ Hacc) as [new [Hsnd [Hfst Hall]]].
  simpl in Hsnd.
  unfold calculate_maturity_on. rewrite Hacc. simpl.
  eexists. split; [reflexivity|]. simpl.
  rewrite Hsnd.
  assert (Hsum : (fst acc == weighted_sum new)%Q) by (rewrite Hfst; ring).
  split; [exact Hall|]. split.
  - apply py_round_compat. exact Hsum.
  - intros Hscore Hweight Htotal.
    pose proof (weighted_sum_bounds env dims new Hall Hscore Hweight) as Hb.
    rewrite Htotal in Hb.
    rewrite (py_round_compat _ _ 1 Hsum).
    apply (py_round_between 0 10).
    change (inject_Z 0) with 0%Q. change (inject_Z 10) with 10%Q. lra.
Qed.


Lemma last_in {A : Type} (l : list A) (d : A) :
  l <> [] -> In (last l d) l.
Proof.
  induction l as [|a [|b rest] IH]; intro Hne.
  - congruence.
  - now left.
  - change (last (a :: b :: rest) d) with (last (b :: rest) d).
    right. apply IH. discriminate.
Qed.

(** Every score returned is a score of the table. *)
Lemma score_dimension_in (v : Q) (table : threshold_table) (s : Z) :
  score_dimension v table = Ok s -> exists b, In (b, s) table.
Proof.
  unfold score_dimension.
  destruct (scan_thresholds v table) as [s'|] eqn:E.
  - intro H. injection H as <-. apply (scan_thresholds_in _ _ _ E).
  - destruct table as [|p table]; [discriminate|].
    rewrite (last_item_last (p :: table) (0%Q, 0)) by discriminate.
    simpl bind. intro H. injection H as <-.
    exists (fst (last (p :: table) (0%Q, 0))).
    rewrite <- surjective_pairing.
    apply (last_in (p :: table) (0%Q, 0)). discriminate.
Qed.

(** Case analysis on membership in the six dimensions of the script. *)
Ltac each_dimension H :=
  destruct H as [<- | [<- | [<- | [<- | [<- | [<- | []]]]]]].

Lemma dimensions_tables_nonempty (d : dimension) :
  In d dimensions -> thresholds d <> [].
Proof.
  intro Hd. each_dimension Hd; discriminate.
Qed.

Lemma dimensions_scores_in_range (env : sources) (d : dimension) (s : Z) :
  In d dimensions ->
  score_dimension (fst (getValue d env)) (thresholds d) = Ok s ->
  0 <= s <= 10.
Proof.
  intros Hd Hs. apply score_dimension_in in Hs. destruct Hs as [b Hb].
  each_dimension Hd;
    simpl in Hb;
    repeat (destruct Hb as [Hb | Hb]; [injection Hb as _ <-; lia|]);
    destruct Hb.
Qed.

Lemma dimensions_weights (d : dimension) :
  In d dimensions -> (0 <= weight d)%Q.
Proof.
  intro Hd. each_dimension Hd; discriminate.
Qed.

(** The weights of the script sum to 1. *)
Example dimensions_total_weight : (total_weight dimensions == 1)%Q.
Proof. reflexivity. Qed.

(** With the six dimensions of the script, whatever the collectors
    return, a report is produced and its overall score lies in [0,10]. *)
Corollary calculate_maturity_in_range (env : sources) (now : string) :
  exists r,
    calculate_maturity env now = Ok r
    /\ (0 <= overallScore r <= 10)%Q.
Proof.
  destruct (calculate_maturity_on_spec dimensions env now
              dimensions_tables_nonempty) as [r [Hr [_ [_ Hrange]]]].
  exists r. split; [exact Hr|].
  apply Hrange.
  - intros d s. apply dimensions_scores_in_range.
  - apply dimensions_weights.
  - reflexivity.
Qed.

(** C4. Whenever every threshold table is non-empty, [calculate_maturity]
    run over a list of dimensions returns a report whose [overallScore]
    is the sum of [score * weight] over its scored dimensions rounded to
    one decimal; the overall score lies in [0,10] when every score lies
    in [0,10] and the weights, none negative, sum to 1. *)
Theorem overall_score_is_rounded_weighted_sum
    (dims : list dimension) (env : sources) (now : string) :
  (forall d, In d dims -> thresholds d <> []) ->
  exists r,
    calculate_maturity_on dims env now = Ok r
    /\ Forall2 (scored env) dims (report_dimensions r)
    /\ overallScore r = py_round (weighted_sum (report_dimensions r)) 1
    /\ ((forall d s, In d dims ->
           score_dimension (fst (getValue d env)) (thresholds d) = Ok s ->
           0 <= s <= 10) ->
        (forall d, In d dims -> (0 <= weight d)%Q) ->
        (total_weight dims == 1)%Q ->
        (0 <= overallScore r <= 10)%Q).
Proof.
  exact (calculate_maturity_on_spec dims env now).
Qed.

Lemma overall_score_is_rounded_weighted_sum_witness :
  exists r,
    calculate_maturity
      {| delegation_compliance := (0.5%Q, "5/10 tasks delegated (50%)");
         error_recurrence_rate := (0.0%Q, "No fix commits in last 30 days");
         documentation_coverage := (0.82%Q, "41/50 exports documented (82%)");
         test_coverage := (1.07%Q, "Test coverage: 107.0%");
         context_freshness := (0.8%Q, "Context files avg 5 days old");
         hook_adoption_rate := (0.0%Q, "No hook advice given yet") |}
      "2025-01-01T00:00:00" = Ok r
    /\ overallScore r = py_round (weighted_sum (report_dimensions r)) 1
    /\ (0 <= overallScore r <= 10)%Q.
Proof.
  unfold calculate_maturity.
  match goal with
  | |- exists r, calculate_maturity_on dimensions ?env ?now = _ /\ _ =>
      destruct (overall_score_is_rounded_weighted_sum dimensions env now)
        as [r [Hr [_ [Hsum Hrange]]]]
  end.
  - intros d Hd. each_dimension Hd; discriminate.
  - exists r. split; [exact Hr|]. split; [exact Hsum|].
    apply Hrange.
    + intros d s. apply dimensions_scores_in_range.
    + apply dimensions_weights.
    + reflexivity.
Defined.

(** ** Dictionaries *)

Lemma dict_get_set_same {V : Type} (k : string) (v : V) (d : dict V) :
  dict_get k (dict_set k v d) = Some v.
Proof.
  induction d as [|[k' v'] rest IH]; simpl.
  - now rewrite String.eqb_refl.
  - destruct (String.eqb k k') eqn:E; simpl; rewrite E; [reflexivity | exact IH].
Qed.

Lemma dict_get_set_other {V : Type} (k k0 : string) (v : V) (d : dict V) :
  k0 <> k -> dict_get k0 (dict_set k v d) = dict_get k0 d.
Proof.
  intro Hne.
  induction d as [|[k' v'] rest IH]; simpl.
  - apply String.eqb_neq in Hne. now rewrite Hne.
  - destruct (String.eqb k k') eqn:E; simpl.
    + apply String.eqb_eq in E. subst k'.
      apply String.eqb_neq in Hne. now rewrite Hne.
    + now rewrite IH.
Qed.

Lemma dict_mem_get {V : Type} (k : string) (d : dict V) :
  dict_mem k d = false <-> dict_get k d = None.
Proof.
  unfold dict_mem. destruct (dict_get k d); split; congruence.
Qed.

(** ** Recording one outcome *)

(** What one call writes: the other entries as they were, and for the
    command a count one higher and the rounded running average. *)
Lemma update_command_usage_entry (now : nat -> string) (command : string)
    (success : bool) (file : option usage_data) :
  stored_invocations command file + 1 <> 0 ->
  exists data',
    update_command_usage now command success file = Ok data'
    /\ (forall other, other <> command ->
          dict_get other (commands data')
          = dict_get other (commands (load_command_data file)))
    /\ stored_invocations command (Some data')
       = stored_invocations command file + 1
    /\ stored_rate command (Some data')
       = Some (py_round
                 ((prior_rate command file
                   * inject_Z (stored_invocations command file)
                   + outcome_value success)
                  / inject_Z (stored_invocations command file + 1)) 2).
Proof.
  unfold stored_invocations, stored_rate, prior_rate, update_command_usage.
  set (data := load_command_data file).
  unfold dict_mem.
  destruct (dict_get command (commands data)) as [info|] eqn:Eget.
  - rewrite Eget. cbn [get_or].
    intro Hnz. apply Z.eqb_neq in Hnz. rewrite Hnz.
    rewrite Z.add_simpl_r.
    eexists. split; [reflexivity|].
    cbn [commands load_command_data]. split; [|split].
    + intros other Hother. now apply dict_get_set_other.
    + now rewrite dict_get_set_same.
    + now rewrite dict_get_set_same.
  - rewrite dict_get_set_same. cbn [get_or invocations avgSuccessRate].
    intros _. cbn [Z.add Z.eqb Pos.add Z.sub Z.opp Z.pos_sub].
    eexists. split; [reflexivity|].
    cbn [commands load_command_data]. split; [|split].
    + intros other Hother.
      rewrite !dict_get_set_other by exact Hother. reflexivity.
    + now rewrite dict_get_set_same.
    + now rewrite dict_get_set_same.
Qed.

(** C10. A call [update_command_usage(command, success)] on stored data
    (invocation counts are counts, so not negative) completes, leaves
    every entry of the commands mapping other than the command's as it
    was, and raises the command's invocation count by exactly 1. *)
Theorem update_command_usage_frame (now : nat -> string) (command : string)
    (success : bool) (file : option usage_data) :
  0 <= stored_invocations command file ->
  exists data',
    update_command_usage now command success file = Ok data'
    /\ (forall other, other <> command ->
          dict_get other (commands data')
          = dict_get other (commands (load_command_data file)))
    /\ stored_invocations command (Some data')
       = stored_invocations command file + 1.
Proof.
  intro Hcount.
  destruct (update_command_usage_entry now command success file)
    as [data' [Hok [Hframe [Hinv _]]]]; [lia|].
  exists data'. auto.
Qed.

Lemma update_command_usage_frame_witness :
  exists data',
    update_command_usage (fun _ => "2025-01-01T00:00:00") "/review" true
      (Some (snapshot [("/route", invoked 7); ("/review", invoked 2)]))
    = Ok data'
    /\ dict_get "/route" (commands data') = Some (invoked 7)
    /\ stored_invocations "/review" (Some data') = 3.
Proof.
  destruct (update_command_usage_frame (fun _ => "2025-01-01T00:00:00")
              "/review" true
              (Some (snapshot [("/route", invoked 7); ("/review", invoked 2)])))
    as [data' [Hok [Hframe Hinv]]].
  - vm_compute. discriminate.
  - exists data'. split; [exact Hok|]. split.
    + rewrite Hframe by discriminate. reflexivity.
    + exact Hinv.
Defined.

(** A stored count of -1 is outside the data model: the division by the
    new count raises and nothing is written. *)
Example update_command_usage_negative_count :
  update_command_usage (fun _ => "2025-01-01T00:00:00") "/review" true
    (Some (snapshot [("/review", invoked (-1))]))
  = Raise ZeroDivisionError.
Proof. reflexivity. Qed.

(** ** Usage patterns *)

(** C8. For the entities /a and /b with 0 invocations, /local-x with 3 and
    /local-y with 2, the analysis reports the least used commands /a, /b,
    the most used ones (top 5 by invocations, descending, without the
    zero-invocation entities) /local-x, /local-y, and exactly one
    redundancy cluster, whose members are /local-x and /local-y. *)
Theorem analyze_usage_patterns_example :
  let data :=
    analyze_usage_patterns
      (snapshot [("/a", invoked 0); ("/b", invoked 0);
                 ("/local-x", invoked 3); ("/local-y", invoked 2)]) in
  leastUsedCommands (insights data) = ["/a"; "/b"]
  /\ mostUsedCommands (insights data) = ["/local-x"; "/local-y"]
  /\ map red_commands (redundantCommands (insights data))
     = [["/local-x"; "/local-y"]]
  /\ redundantCommands (insights data)
     = find_redundant_commands
         [("/a", invoked 0); ("/b", invoked 0);
          ("/local-x", invoked 3); ("/local-y", invoked 2)].
Proof.
  repeat split.
Qed.

(** ** Recommendations of the usage analysis *)

Lemma insert_desc_perm (x : string * Z) (l : list (string * Z)) :
  Permutation (insert_desc x l) (x :: l).
Proof.
  induction l as [|y rest IH]; simpl.
  - reflexivity.
  - destruct (snd x <? snd y).
    + rewrite IH. apply perm_swap.
    + reflexivity.
Qed.

Lemma sort_desc_perm (l : list (string * Z)) : Permutation (sort_desc l) l.
Proof.
  induction l as [|x rest IH]; simpl.
  - reflexivity.
  - rewrite insert_desc_perm. now constructor.
Qed.

Lemma filter_nil_iff {A : Type} (f : A -> bool) (l : list A) :
  filter f l = [] <-> existsb f l = false.
Proof.
  induction l as [|a rest IH]; simpl.
  - tauto.
  - destruct (f a); simpl; [split; discriminate | exact IH].
Qed.

Lemma existsb_perm {A : Type} (f : A -> bool) (l l' : list A) :
  Permutation l l' -> existsb f l = existsb f l'.
Proof.
  induction 1; simpl.
  - reflexivity.
  - now rewrite IHPermutation.
  - destruct (f x), (f y); reflexivity.
  - congruence.
Qed.

Lemma existsb_map_compose {A B : Type} (f : B -> bool) (g : A -> B)
    (l : list A) :
  existsb f (map g l) = existsb (fun a => f (g a)) l.
Proof.
  induction l as [|a rest IH]; simpl; [reflexivity | now rewrite IH].
Qed.

(** The list of least used commands is empty exactly when every command
    has been invoked. *)
Lemma least_used_never_used (data : usage_data) :
  leastUsedCommands (insights (analyze_usage_patterns data)) = []
  <-> never_used (commands data) = false.
Proof.
  unfold analyze_usage_patterns, never_used.
  cbn [insights with_insights leastUsedCommands].
  set (counts := map _ (commands data)).
  assert (E : existsb (fun x : string * Z => snd x =? 0) (sort_desc counts)
              = existsb (fun item => get_or (invocations (snd item)) 0 =? 0)
                        (commands data)).
  { rewrite (existsb_perm _ _ _ (sort_desc_perm counts)).
    unfold counts. now rewrite existsb_map_compose. }
  split.
  - intro H. apply map_eq_nil in H. apply filter_nil_iff in H.
    now rewrite <- E.
  - intro H. rewrite <- E in H. apply filter_nil_iff in H. now rewrite H.
Qed.

Lemma priority_consolidations (l : list redundancy) :
  map priority (map consolidation l) = repeat "medium" (List.length l).
Proof.
  induction l as [|r rest IH]; simpl; [reflexivity | now rewrite IH].
Qed.

Lemma priority_promotions (cmds : dict cmd_info) :
  map priority
    (flat_map (fun item => if underused (snd item) then [promotion (fst item)]
                           else [])
              cmds)
  = repeat "medium"
      (List.length (filter (fun item => underused (snd item)) cmds)).
Proof.
  induction cmds as [|item rest IH]; simpl.
  - reflexivity.
  - destruct (underused (snd item)); simpl; now rewrite IH.
Qed.

(** The priorities of the recommendations of one run, in the order in
    which the run produces them. *)
Lemma analyze_command_usage_priorities (now : string)
    (file : option usage_data) :
  map priority (recommendations (analyze_command_usage now file))
  = generation_order (commands (load_command_data file)).
Proof.
  unfold analyze_command_usage, generation_order.
  set (data := load_command_data file).
  cbn [recommendations].
  pose proof (least_used_never_used data) as Hleast.
  unfold generate_recommendations.
  cbn [recommendations with_recommendations].
  replace (commands (analyze_usage_patterns data)) with (commands data)
    by reflexivity.
  replace (redundantCommands (insights (analyze_usage_patterns data)))
    with (find_redundant_commands (commands data)) by reflexivity.
  assert (Hlow : map priority
                   match leastUsedCommands (insights (analyze_usage_patterns data)) with
                   | [] => []
                   | _ :: _ =>
                       [] ++ [cleanup (leastUsedCommands
                                         (insights (analyze_usage_patterns data)))]
                   end
                 = if never_used (commands data) then ["low"] else []).
  { destruct (leastUsedCommands (insights (analyze_usage_patterns data)))
      as [|c rest] eqn:E.
    - destruct Hleast as [-> _]; reflexivity.
    - destruct (never_used (commands data)) eqn:En; [reflexivity|].
      destruct Hleast as [_ H]. discriminate (H eq_refl). }
  unfold route_ignored.
  destruct (0 <? get_or (recommendationsMade
                (get_or (dict_get "/route" (commands data)) no_info)) 0);
    cbn [andb]; [destruct (Qlt_bool _ _)|];
    rewrite !map_app, priority_consolidations, priority_promotions, Hlow;
    rewrite <- ?app_assoc; reflexivity.
Qed.

(** C7, as stated, fails: with an unused command and an ignored /route the
    run yields the low cleanup entry before the high adoption entry. *)
Lemma usage_recommendations_not_priority_descending :
  ~ priority_descending
      (recommendations
         (analyze_command_usage "2025-01-01T00:00:00"
            (Some (snapshot
                     [("/a", invoked 0);
                      ("/route",
                       {| invocations := Some 12; lastUsed := None;
                          avgSuccessRate := None;
                          recommendationsMade := Some 10;
                          adoptionRate := Some 0.1%Q |})])))).
Proof.
  intro H. unfold priority_descending in H.
  vm_compute in H.
  inversion H as [|a l Hl Hall]; subst.
  inversion Hall as [|b l' Hb Hrest]; subst.
  apply Hb. reflexivity.
Qed.

(** ** The running success rate *)

Lemma successes_cons (s : bool) (outcomes : list bool) :
  successes (s :: outcomes) = (if s then 1 else 0) + successes outcomes.
Proof.
  unfold successes. destruct s; cbn [filter List.length]; lia.
Qed.

Lemma outcome_value_inject (s : bool) :
  (outcome_value s == inject_Z (if s then 1 else 0))%Q.
Proof. destruct s; reflexivity. Qed.

Lemma stored_rate_prior (command : string) (file : option usage_data) (r : Q) :
  stored_rate command file = Some r -> prior_rate command file = r.
Proof.
  unfold stored_rate, prior_rate.
  destruct (dict_get command (commands (load_command_data file))) as [info|];
    [|discriminate].
  intros ->. reflexivity.
Qed.

(** The deviation of one more rounded average. *)
Lemma running_average_step (K S o r r' : Q) :
  (0 <= K)%Q ->
  (Qabs (K * r - S) <= K * (K + 1) / 400)%Q ->
  (Qabs (r' - (r * K + o) / (K + 1)) <= 1 # 200)%Q ->
  (Qabs ((K + 1) * r' - (S + o)) <= (K + 1) * (K + 1 + 1) / 400)%Q.
Proof.
  intros HK Hprev Hround.
  apply Qabs_Qle_condition in Hprev. destruct Hprev as [Hp1 Hp2].
  apply Qabs_Qle_condition in Hround. destruct Hround as [Hr1 Hr2].
  set (x := ((r * K + o) / (K + 1))%Q) in *.
  assert (Hx : (x * (K + 1) == r * K + o)%Q) by (unfold x; field; lra).
  assert (HK1 : (0 <= K + 1)%Q) by lra.
  assert (Hlo : (0 <= (K + 1) * (r' - x + (1 # 200)))%Q)
    by (apply Qmult_le_0_compat; lra).
  assert (Hhi : (0 <= (K + 1) * ((1 # 200) - (r' - x)))%Q)
    by (apply Qmult_le_0_compat; lra).
  clearbody x.
  apply Qabs_Qle_condition.
  unfold Qdiv in *. change (/ 400)%Q with (1 # 400)%Q in *.
  split; lra.
Qed.

Section RunningRate.

Variable now : nat -> string.
Variable command : string.

(** One call keeps the command tracked.  The premise is on the rate the
    call starts from, so it covers the first call for a command not
    stored yet ([k = 0], rate 0.0). *)
Lemma tracked_step (success : bool) (k succ : Z) (file : option usage_data) :
  0 <= k ->
  stored_invocations command file = k ->
  (Qabs (inject_Z k * prior_rate command file - inject_Z succ)
   <= inject_Z k * (inject_Z k + 1) / 400)%Q ->
  exists data',
    update_command_usage now command success file = Ok data'
    /\ tracked command (k + 1) (succ + (if success then 1 else 0)) (Some data').
Proof.
  intros Hk Hinv Hprior.
  destruct (update_command_usage_entry now command success file)
    as [data' [Hok [_ [Hinv' Hrate]]]]; [lia|].
  exists data'. split; [exact Hok|].
  split; [lia|].
  rewrite Hinv in Hrate.
  set (r := prior_rate command file) in *.
  set (K := inject_Z k) in *.
  assert (Hx : ((r * K + outcome_value success) / inject_Z (k + 1)
                == (r * K + inject_Z (if success then 1 else 0)) / (K + 1))%Q).
  { rewrite inject_Z_plus, outcome_value_inject. reflexivity. }
  rewrite (py_round_compat _ _ 2 Hx) in Hrate.
  eexists. split; [exact Hrate|].
  rewrite !inject_Z_plus. fold K. change (inject_Z 1) with 1%Q.
  apply (running_average_step K (inject_Z succ) _ r).
  - unfold K. change 0%Q with (inject_Z 0). rewrite <- Zle_Qle. exact Hk.
  - exact Hprior.
  - apply (py_round_close _ 2).
Qed.

Lemma tracked_prior (k succ : Z) (file : option usage_data) :
  tracked command k succ file ->
  stored_invocations command file = k
  /\ (Qabs (inject_Z k * prior_rate command file - inject_Z succ)
      <= inject_Z k * (inject_Z k + 1) / 400)%Q.
Proof.
  intros [Hinv [r [Hr Hb]]]. split; [exact Hinv|].
  now rewrite (stored_rate_prior _ _ _ Hr).
Qed.

(** A run of calls keeps the command tracked. *)
Lemma record_outcomes_tracked (outcomes : list bool) :
  forall (k succ : Z) (file : option usage_data),
    outcomes <> [] ->
    0 <= k ->
    stored_invocations command file = k ->
    (Qabs (inject_Z k * prior_rate command file - inject_Z succ)
     <= inject_Z k * (inject_Z k + 1) / 400)%Q ->
    tracked command (k + Z.of_nat (List.length outcomes))
      (succ + successes outcomes)
      (record_outcomes now command outcomes file).
Proof.
  induction outcomes as [|s rest IH]; intros k succ file Hne Hk Hinv Hprior.
  - congruence.
  - destruct (tracked_step s k succ file Hk Hinv Hprior)
      as [data' [Hok Htracked]].
    cbn [record_outcomes]. rewrite Hok.
    rewrite successes_cons.
    destruct rest as [|s' rest'].
    + cbn [record_outcomes List.length].
      replace (k + Z.of_nat 1) with (k + 1) by lia.
      replace (succ + ((if s then 1 else 0) + successes []))
        with (succ + (if s then 1 else 0)) by (unfold successes; simpl; lia).
      exact Htracked.
    + destruct (tracked_prior _ _ _ Htracked) as [Hinv' Hprior'].
      replace (k + Z.of_nat (List.length (s :: s' :: rest')))
        with (k + 1 + Z.of_nat (List.length (s' :: rest')))
        by (cbn [List.length]; lia).
      rewrite Z.add_assoc.
      apply IH; [discriminate | lia | exact Hinv' | exact Hprior'].
Qed.

End RunningRate.

(** From the scaled deviation to the deviation of the rate. *)
Lemma mean_deviation (N S r : Q) :
  (0 < N)%Q ->
  (Qabs (N * r - S) <= N * (N + 1) / 400)%Q ->
  (Qabs (r - S / N) <= (N + 1) / 400)%Q.
Proof.
  intros HN Hb.
  apply Qabs_Qle_condition in Hb. destruct Hb as [Hlo Hhi].
  assert (Hc : (0 <= / N)%Q) by (apply Qlt_le_weak, Qinv_lt_0_compat, HN).
  assert (Hd : (r - S / N == (N * r - S) * / N)%Q) by (field; lra).
  assert (He : ((N + 1) / 400 == (N * (N + 1) / 400) * / N)%Q) by (field; lra).
  rewrite Hd, He.
  apply Qabs_Qle_condition. split.
  - setoid_replace (- (N * (N + 1) / 400 * / N))%Q
      with ((- (N * (N + 1) / 400)) * / N)%Q by ring.
    apply Qmult_le_compat_r; assumption.
  - apply Qmult_le_compat_r; assumption.
Qed.

(** C2, as the code has it.  For a command not stored yet, recording the
    outcomes [s1..sn] (n at least 1) one call at a time stores the count
    n and a rate that is the plain running mean of the outcomes, with no
    0.5 seed: after the first outcome the rate is exactly 1.0 or 0.0, and
    after n outcomes it is within (n + 1) / 400 of (number of successful
    si) / n, the deviation being the two-decimal rounding of each call
    added up. *)
Theorem fresh_entity_running_mean (now : nat -> string) (command : string)
    (outcomes : list bool) (file : option usage_data) :
  dict_get command (commands (load_command_data file)) = None ->
  outcomes <> [] ->
  exists rate,
    stored_rate command (record_outcomes now command outcomes file) = Some rate
    /\ stored_invocations command (record_outcomes now command outcomes file)
       = Z.of_nat (List.length outcomes)
    /\ (Qabs (rate - plain_mean outcomes)
        <= (inject_Z (Z.of_nat (List.length outcomes)) + 1) / 400)%Q
    /\ (forall s, outcomes = [s] -> (rate == outcome_value s)%Q).
Proof.
  intros Hfresh Hne.
  assert (Hinv : stored_invocations command file = 0)
    by (unfold stored_invocations; now rewrite Hfresh).
  assert (Hprior : prior_rate command file = 0.0%Q)
    by (unfold prior_rate; now rewrite Hfresh).
  destruct (record_outcomes_tracked now command outcomes 0 0 file Hne)
    as [Hcount [rate [Hrate Hbound]]]; [lia | exact Hinv | |].
  { rewrite Hprior. discriminate. }
  rewrite !Z.add_0_l in *.
  exists rate. split; [exact Hrate|]. split; [exact Hcount|]. split.
  - unfold plain_mean. apply mean_deviation; [|exact Hbound].
    destruct outcomes; [congruence|].
    change 0%Q with (inject_Z 0). rewrite <- Zlt_Qlt.
    cbn [List.length]. lia.
  - intros s ->.
    destruct (update_command_usage_entry now command s file)
      as [data' [Hok [_ [_ Hrate']]]]; [lia|].
    cbn [record_outcomes] in Hrate. rewrite Hok in Hrate.
    rewrite Hrate' in Hrate. injection Hrate as <-.
    rewrite Hinv, Hprior. destruct s; reflexivity.
Qed.

Lemma fresh_entity_running_mean_witness :
  exists rate,
    stored_rate "/review"
      (record_outcomes (fun _ => "2025-01-01T00:00:00") "/review"
         [true; false; true] None) = Some rate
    /\ (Qabs (rate - plain_mean [true; false; true]) <= 4 / 400)%Q.
Proof.
  destruct (fresh_entity_running_mean (fun _ => "2025-01-01T00:00:00")
              "/review" [true; false; true] None)
    as [rate [Hrate [_ [Hbound _]]]].
  - reflexivity.
  - discriminate.
  - exists rate. split; [exact Hrate | exact Hbound].
Defined.

(** C2, as stated, fails: after one successful outcome for a new command
    the stored rate is 1.0, while the seeded formula gives
    (0.5 + 1) / 2 = 0.75. *)
Lemma fresh_entity_not_seeded_mean :
  exists rate,
    stored_rate "/review"
      (record_outcomes (fun _ => "2025-01-01T00:00:00") "/review" [true] None)
    = Some rate
    /\ (rate == 1)%Q
    /\ ~ (Qabs (rate - seeded_mean [true]) <= 0.005)%Q.
Proof.
  eexists. split; [reflexivity|]. split; [reflexivity|].
  vm_compute. intro H. apply H. reflexivity.
Qed.

(** The 0.5 default is read only for a stored entry that has no rate. *)
Example update_command_usage_stored_without_rate :
  stored_rate "/review"
    (record_outcomes (fun _ => "2025-01-01T00:00:00") "/review" [true]
       (Some (snapshot [("/review", invoked 3)])))
  = Some (py_round ((0.5 * 3 + 1) / 4) 2).
Proof. reflexivity. Qed.

(** ** Model comparison *)

Import Subagent.

Lemma keys_unique {V : Type} (d : dict V) (k : string) (v v' : V) :
  NoDup (keys d) -> In (k, v) d -> In (k, v') d -> v = v'.
Proof.
  unfold keys.
  induction d as [|[k0 v0] rest IH]; simpl; intros Hnd Hin Hin'.
  - destruct Hin.
  - inversion Hnd as [|? ? Hnotin Hnd']; subst.
    destruct Hin as [Heq | Hin]; destruct Hin' as [Heq' | Hin'].
    + congruence.
    + injection Heq as -> ->. exfalso. apply Hnotin.
      apply (in_map fst) in Hin'. exact Hin'.
    + injection Heq' as -> ->. exfalso. apply Hnotin.
      apply (in_map fst) in Hin. exact Hin.
    + now apply IH.
Qed.

(** The model the quality loop holds at its end was held at its start or
    passed the gate of more than 5 attempted tasks. *)
Lemma quality_loop_gate (models : dict model_data) :
  forall (acc : Q * option string) (m : string),
    snd (fold_left quality_step models acc) = Some m ->
    snd acc = Some m
    \/ exists data, In (m, data) models /\ 5 < get_or (tasksAttempted data) 0.
Proof.
  induction models as [|[model data] rest IH]; intros acc m H; simpl in H.
  - now left.
  - destruct (IH _ _ H) as [Hacc | [data' [Hin Hgate]]].
    + unfold quality_step in Hacc.
      destruct (Qlt_bool (fst acc) (get_or (firstPassRate data) 0.0%Q)
                && (5 <? get_or (tasksAttempted data) 0)) eqn:E.
      * simpl in Hacc. injection Hacc as <-.
        apply andb_true_iff in E. destruct E as [_ E].
        apply Z.ltb_lt in E.
        right. exists data. split; [now left | exact E].
      * now left.
    + right. exists data'. split; [now right | exact Hgate].
Qed.

Lemma highest_quality_gate (models : dict model_data) (m : string) :
  highest_quality models = Some m ->
  exists data, In (m, data) models /\ 5 < get_or (tasksAttempted data) 0.
Proof.
  intro H. unfold highest_quality in H.
  destruct (quality_loop_gate models _ _ H) as [Hacc | Hgate].
  - discriminate.
  - exact Hgate.
Qed.

(** C6. The model chosen as [highestQuality] is never one with 5 attempted
    tasks or fewer (the gate is strict); and when no model passes the
    gate the result is the string insufficient_data, not an exception. *)
Theorem highest_quality_strict_gate (models : dict model_data) :
  NoDup (keys models) ->
  dict_get "highestQuality" (Subagent.generate_recommendations models)
  = Some (or_else (highest_quality models) "insufficient_data")
  /\ (forall m data,
        In (m, data) models ->
        get_or (tasksAttempted data) 0 <= 5 ->
        highest_quality models <> Some m)
  /\ ((forall m data,
         In (m, data) models -> get_or (tasksAttempted data) 0 <= 5) ->
      dict_get "highestQuality" (Subagent.generate_recommendations models)
      = Some "insufficient_data").
Proof.
  intro Hnd.
  assert (Hget : dict_get "highestQuality" (Subagent.generate_recommendations models)
                 = Some (or_else (highest_quality models) "insufficient_data")).
  { unfold Subagent.generate_recommendations. apply dict_get_set_same. }
  split; [exact Hget|]. split.
  - intros m data Hin Hfew Hsel.
    destruct (highest_quality_gate models m Hsel) as [data' [Hin' Hgate]].
    rewrite (keys_unique models m data data' Hnd Hin Hin') in Hfew. lia.
  - intro Hall. rewrite Hget.
    destruct (highest_quality models) as [m|] eqn:Hsel; [|reflexivity].
    destruct (highest_quality_gate models m Hsel) as [data [Hin Hgate]].
    specialize (Hall m data Hin). lia.
Qed.

Lemma highest_quality_strict_gate_witness :
  dict_get "highestQuality"
    (Subagent.generate_recommendations
       [("deepseek", model_entry 5 4 [("refactor", type_entry 5 4)]);
        ("qwen", model_entry 4 3 [("refactor", type_entry 4 3)])])
  = Some "insufficient_data".
Proof.
  apply (highest_quality_strict_gate
           [("deepseek", model_entry 5 4 [("refactor", type_entry 5 4)]);
            ("qwen", model_entry 4 3 [("refactor", type_entry 4 3)])]).
  - repeat constructor; simpl; intuition discriminate.
  - intros m data [H | [H | []]]; injection H as <- <-; simpl; lia.
Defined.

(** With more than 5 attempts the better model is chosen. *)
Example highest_quality_chosen :
  dict_get "highestQuality"
    (Subagent.generate_recommendations
       [("deepseek", model_entry 10 8 [("refactor", type_entry 10 8)]);
        ("qwen", model_entry 6 3 [("refactor", type_entry 6 3)])])
  = Some "deepseek".
Proof. reflexivity. Qed.

Lemma best_for_key_inj (t t' : string) :
  best_for_key t = best_for_key t' -> t = t'.
Proof.
  unfold best_for_key. simpl. intro H. now injection H.
Qed.

(** The loop over the models for one task type: the rate it holds never
    goes below 0, and a model it holds was held at the start or has a
    rate above 0 on the task type. *)
Lemma best_loop_positive (task_type : string) (models : dict model_data) :
  forall (acc : option string * Q),
    (0 <= snd acc)%Q ->
    (0 <= snd (fold_left (best_step task_type) models acc))%Q
    /\ forall m,
         fst (fold_left (best_step task_type) models acc) = Some m ->
         fst acc = Some m
         \/ exists data rate,
              In (m, data) models
              /\ rate_on task_type data = Some rate
              /\ (0 < rate)%Q.
Proof.
  induction models as [|[model data] rest IH]; intros acc Hacc; simpl.
  - split; [exact Hacc | now left].
  - assert (Hstep : (0 <= snd (best_step task_type acc (model, data)))%Q
                    /\ forall m,
                         fst (best_step task_type acc (model, data)) = Some m ->
                         fst acc = Some m
                         \/ exists rate,
                              m = model
                              /\ rate_on task_type data = Some rate
                              /\ (0 < rate)%Q).
    { unfold best_step, rate_on.
      destruct (dict_get task_type (get_or (taskTypes data) [])) as [stats|];
        [|split; [exact Hacc | now left]].
      destruct (Qlt_bool (snd acc) (get_or (type_firstPassRate stats) 0.0%Q))
        eqn:E; [|split; [exact Hacc | now left]].
      apply Qlt_bool_iff in E. simpl. split; [lra|].
      intros m Hm. injection Hm as <-. right.
      eexists. split; [reflexivity|]. split; [reflexivity | lra]. }
    destruct Hstep as [Hpos Hheld].
    destruct (IH _ Hpos) as [Hpos' Hheld'].
    split; [exact Hpos'|].
    intros m Hm.
    destruct (Hheld' m Hm) as [Hprev | [data' [rate [Hin [Hrate Hlt]]]]].
    + destruct (Hheld m Hprev) as [Hstart | [rate [-> [Hrate Hlt]]]].
      * now left.
      * right. exists data, rate. split; [now left | auto].
    + right. exists data', rate. split; [now right | auto].
Qed.

Lemma best_model_for_positive (task_type : string) (models : dict model_data)
    (m : string) :
  best_model_for task_type models = Some m ->
  exists data rate,
    In (m, data) models /\ rate_on task_type data = Some rate /\ (0 < rate)%Q.
Proof.
  intro H. unfold best_model_for in H.
  destruct (best_loop_positive task_type models (None, 0.0%Q)) as [_ Hheld].
  - discriminate.
  - destruct (Hheld m H) as [Hstart | Hfound]; [discriminate | exact Hfound].
Qed.

Lemma best_for_key_not_fixed (t : string) :
  best_for_key t <> "mostTokenEfficient" /\ best_for_key t <> "highestQuality".
Proof.
  unfold best_for_key. simpl. split; discriminate.
Qed.

(** An entry [bestFor_<task type>] is written only by the turn of that
    task type, and holds the model its loop found. *)
Lemma record_best_entry (models : dict model_data) (task_type : string)
    (task_types : list string) :
  forall (acc : dict string) (m : string),
    dict_get (best_for_key task_type)
      (fold_left (record_best models) task_types acc) = Some m ->
    dict_get (best_for_key task_type) acc = Some m
    \/ best_model_for task_type models = Some m.
Proof.
  induction task_types as [|t rest IH]; intros acc m H; simpl in H.
  - now left.
  - destruct (IH _ _ H) as [Hacc | Hbest]; [|now right].
    unfold record_best in Hacc.
    destruct (truthy (best_model_for t models)) eqn:Et; [|now left].
    destruct (String.eqb_spec task_type t) as [<- | Hne].
    + rewrite dict_get_set_same in Hacc. right.
      destruct (best_model_for task_type models) as [b|]; [|discriminate].
      simpl in Hacc. exact Hacc.
    + rewrite dict_get_set_other in Hacc; [now left|].
      intro Heq. apply best_for_key_inj in Heq. contradiction.
Qed.

Lemma best_for_entry (models : dict model_data) (task_type m : string) :
  dict_get (best_for_key task_type) (Subagent.generate_recommendations models)
  = Some m ->
  best_model_for task_type models = Some m.
Proof.
  unfold Subagent.generate_recommendations.
  destruct (best_for_key_not_fixed task_type) as [Hne1 Hne2].
  rewrite !dict_get_set_other by assumption.
  intro H.
  destruct (record_best_entry models task_type _ _ _ H) as [Hnil | Hbest].
  - discriminate.
  - exact Hbest.
Qed.

(** C9. If every model that attempted a task type has first-pass rate 0.0
    on it, no [bestFor_<task type>] entry is emitted; and a model whose
    rate on a task type is 0.0 (no recorded success) is never named best
    for it, whatever the other models, in particular when it is the only
    one that attempted it. *)
Theorem zero_rate_never_best (models : dict model_data) (task_type : string) :
  ((forall m data rate,
      In (m, data) models ->
      rate_on task_type data = Some rate ->
      (rate == 0)%Q) ->
   dict_get (best_for_key task_type) (Subagent.generate_recommendations models)
   = None)
  /\ (NoDup (keys models) ->
      forall m data rate,
        In (m, data) models ->
        rate_on task_type data = Some rate ->
        (rate == 0)%Q ->
        dict_get (best_for_key task_type)
          (Subagent.generate_recommendations models) <> Some m).
Proof.
  split.
  - intro Hzero.
    destruct (dict_get (best_for_key task_type)
                (Subagent.generate_recommendations models)) as [m|] eqn:E;
      [|reflexivity].
    apply best_for_entry, best_model_for_positive in E.
    destruct E as [data [rate [Hin [Hrate Hpos]]]].
    specialize (Hzero m data rate Hin Hrate). lra.
  - intros Hnd m data rate Hin Hrate Hzero E.
    apply best_for_entry, best_model_for_positive in E.
    destruct E as [data' [rate' [Hin' [Hrate' Hpos]]]].
    rewrite (keys_unique models m data' data Hnd Hin' Hin) in Hrate'.
    rewrite Hrate in Hrate'. injection Hrate' as <-. lra.
Qed.

Lemma zero_rate_never_best_witness :
  dict_get (best_for_key "refactor")
    (Subagent.generate_recommendations
       [("deepseek", model_entry 3 0 [("refactor", type_entry 3 0)])])
  = None.
Proof.
  apply (zero_rate_never_best
           [("deepseek", model_entry 3 0 [("refactor", type_entry 3 0)])]
           "refactor").
  intros m data rate [H | []] Hrate.
  injection H as <- <-. vm_compute in Hrate. injection Hrate as <-.
  reflexivity.
Defined.

(** The rate stored for a task type without a recorded success is 0.0. *)
Lemma first_pass_rate_no_success (attempted : Z) :
  (first_pass_rate 0 attempted == 0)%Q.
Proof.
  unfold first_pass_rate. destruct (0 <? attempted); reflexivity.
Qed.

(** The spec's example: deepseek 8 of 10 and qwen 6 of 10 on refactor. *)
Example best_for_refactor :
  dict_get (best_for_key "refactor")
    (Subagent.generate_recommendations
       [("deepseek", model_entry 10 8 [("refactor", type_entry 10 8)]);
        ("qwen", model_entry 10 6 [("refactor", type_entry 10 6)])])
  = Some "deepseek".
Proof. reflexivity. Qed.

(** * Further properties *)

(** ** The maturity report *)

Lemma score_dimension_raises (v : Q) (table : threshold_table) (e : exn) :
  score_dimension v table = Raise e -> e = IndexError /\ table = [].
Proof.
  destruct table as [|p rest]; [intro H; injection H as <-; auto|].
  intro H.
  destruct (score_dimension_returns v (p :: rest)) as [s Hs]; [discriminate|].
  congruence.
Qed.

(** X1. Whenever [score_dimension] returns, the score is the score of one
    of the pairs of the table: no score is interpolated or invented. *)
Theorem score_dimension_returns_table_score
    (v : Q) (table : threshold_table) (s : Z) :
  score_dimension v table = Ok s -> exists bound, In (bound, s) table.
Proof.
  exact (score_dimension_in v table s).
Qed.

Lemma score_dimension_returns_table_score_witness :
  exists bound, In (bound, 6) [(0.40%Q, 2); (0.75%Q, 6); (1.00%Q, 10)].
Proof.
  apply (score_dimension_returns_table_score 0.5%Q
           [(0.40%Q, 2); (0.75%Q, 6); (1.00%Q, 10)] 6).
  reflexivity.
Defined.

Lemma score_loop_headers (env : sources) (dims : list dimension) :
  forall total results acc,
    score_loop env dims total results = Ok acc ->
    map result_header (snd acc)
    = map result_header results ++ map (dimension_header env) dims.
Proof.
  induction dims as [|d dims IH]; intros total results acc H; simpl in H.
  - injection H as <-. simpl. now rewrite app_nil_r.
  - unfold dimension_header at 1. simpl.
    destruct (getValue d env) as [value detail] eqn:Ev.
    destruct (score_dimension value (thresholds d)) as [score|e];
      simpl in H; [|discriminate].
    rewrite (IH _ _ _ H), map_app, <- app_assoc. reflexivity.
Qed.

(** X2. A report that is produced has exactly one result per dimension,
    in the order of the dimensions, each with the name and the weight of
    its dimension and the value and the detail its collector returned. *)
Theorem report_covers_every_dimension (dims : list dimension)
    (env : sources) (now : string) (r : report) :
  calculate_maturity_on dims env now = Ok r ->
  map result_header (report_dimensions r) = map (dimension_header env) dims.
Proof.
  unfold calculate_maturity_on.
  destruct (score_loop env dims 0%Q []) as [acc|e] eqn:E; simpl;
    [|discriminate].
  intro H. injection H as <-. simpl.
  apply (score_loop_headers env dims _ _ _ E).
Qed.

Lemma score_loop_empty_table (env : sources) (dims : list dimension)
    (d : dimension) :
  In d dims -> thresholds d = [] ->
  forall total results,
    score_loop env dims total results = Raise IndexError.
Proof.
  induction dims as [|d0 dims IH]; intros Hin Hempty total results.
  - destruct Hin.
  - simpl. destruct (getValue d0 env) as [value detail].
    destruct (score_dimension value (thresholds d0)) as [score|e] eqn:Es.
    + simpl. destruct Hin as [-> | Hin].
      * rewrite Hempty in Es. discriminate.
      * now apply IH.
    + apply score_dimension_raises in Es. destruct Es as [-> _]. reflexivity.
Qed.

(** X3. One dimension with an empty threshold table makes the whole
    calculation raise [IndexError]: no report is produced, whatever the
    other dimensions are. *)
Theorem empty_table_aborts_report (dims : list dimension) (d : dimension)
    (env : sources) (now : string) :
  In d dims -> thresholds d = [] ->
  calculate_maturity_on dims env now = Raise IndexError.
Proof.
  intros Hin Hempty. unfold calculate_maturity_on.
  now rewrite (score_loop_empty_table env dims d Hin Hempty).
Qed.

Lemma report_covers_every_dimension_witness :
  exists r,
    calculate_maturity sample_sources "2025-01-01T00:00:00" = Ok r
    /\ map r_dimension (report_dimensions r) = map name dimensions.
Proof.
  destruct (calculate_maturity_on_spec dimensions sample_sources
              "2025-01-01T00:00:00" dimensions_tables_nonempty)
    as [r [Hr _]].
  exists r. split; [exact Hr|].
  pose proof (report_covers_every_dimension dimensions sample_sources
                "2025-01-01T00:00:00" r Hr) as H.
  apply (f_equal (map (fun h => fst (fst (fst h))))) in H.
  rewrite !map_map in H. exact H.
Defined.

Lemma empty_table_aborts_report_witness :
  calculate_maturity_on (dimensions ++ [untabled]) sample_sources
    "2025-01-01T00:00:00" = Raise IndexError.
Proof.
  apply (empty_table_aborts_report (dimensions ++ [untabled]) untabled).
  - apply in_or_app. right. now left.
  - reflexivity.
Defined.

(** A weighted sum of scores of [lo, hi] lies between [lo] and [hi] times
    the total weight, when no weight is negative. *)
Lemma weighted_sum_range (lo hi : Z) (env : sources) (dims : list dimension)
    (results : list dimension_result) :
  Forall2 (scored env) dims results ->
  (forall d s, In d dims ->
     score_dimension (fst (getValue d env)) (thresholds d) = Ok s ->
     lo <= s <= hi) ->
  (forall d, In d dims -> (0 <= weight d)%Q) ->
  (inject_Z lo * total_weight dims <= weighted_sum results
   <= inject_Z hi * total_weight dims)%Q.
Proof.
  induction 1 as [|d r dims results [Hw Hs] Hrest IH];
    intros Hscore Hweight; simpl.
  - lra.
  - destruct IH as [IHlo IHhi].
    + intros d' s Hd'. apply Hscore. now right.
    + intros d' Hd'. apply Hweight. now right.
    + assert (Hr : lo <= r_score r <= hi) by (apply (Hscore d); [now left | exact Hs]).
      assert (Hwd : (0 <= weight d)%Q) by (apply Hweight; now left).
      rewrite Hw.
      assert (Hlo : (inject_Z lo <= inject_Z (r_score r))%Q)
        by (rewrite <- Zle_Qle; lia).
      assert (Hhi : (inject_Z (r_score r) <= inject_Z hi)%Q)
        by (rewrite <- Zle_Qle; lia).
      pose proof (Qmult_le_compat_r _ _ (weight d) Hlo Hwd) as Hlo'.
      pose proof (Qmult_le_compat_r _ _ (weight d) Hhi Hwd) as Hhi'.
      lra.
Qed.

Lemma dimensions_scores_at_least_two (env : sources) (d : dimension) (s : Z) :
  In d dimensions ->
  score_dimension (fst (getValue d env)) (thresholds d) = Ok s ->
  2 <= s <= 10.
Proof.
  intros Hd Hs. apply score_dimension_in in Hs. destruct Hs as [b Hb].
  each_dimension Hd;
    simpl in Hb;
    repeat (destruct Hb as [Hb | Hb]; [injection Hb as _ <-; lia|]);
    destruct Hb.
Qed.

(** X4. With the six dimensions of the script the overall score is never
    below 2.0, even when every collector reports missing data (value
    0.0), because the lowest score of every table is 2; so the level
    printed with the report is never Critical. *)
Theorem calculate_maturity_never_critical (env : sources) (now : string) :
  exists r,
    calculate_maturity env now = Ok r
    /\ (2 <= overallScore r <= 10)%Q
    /\ fst (get_maturity_level (overallScore r)) <> "Critical".
Proof.
  destruct (calculate_maturity_on_spec dimensions env now
              dimensions_tables_nonempty) as [r [Hr [Hall [Hsum _]]]].
  exists r. split; [exact Hr|].
  assert (Hrange : (2 <= overallScore r <= 10)%Q).
  { rewrite Hsum.
    apply (py_round_between 2 10).
    pose proof (weighted_sum_range 2 10 env dimensions _ Hall
                  (dimensions_scores_at_least_two env) dimensions_weights) as Hb.
    rewrite dimensions_total_weight in Hb.
    change (inject_Z 2) with 2%Q in *. change (inject_Z 10) with 10%Q in *.
    lra. }
  split; [exact Hrange|].
  unfold get_maturity_level.
  destruct (Qlt_bool (overallScore r) 2.0) eqn:E.
  - apply Qlt_bool_iff in E. lra.
  - destruct (Qlt_bool _ 4.0); [discriminate|].
    destruct (Qlt_bool _ 6.0); [discriminate|].
    destruct (Qlt_bool _ 8.0); discriminate.
Qed.

(** With missing data everywhere the report is at the floor: 2.0, Poor. *)
Example calculate_maturity_all_missing :
  exists r,
    calculate_maturity
      {| delegation_compliance := get_delegation_compliance None;
         error_recurrence_rate := (0.0%Q, "No fix commits in last 30 days");
         documentation_coverage := (0.0%Q, "No exported functions found");
         test_coverage := (0.0%Q, "No source files found");
         context_freshness := get_context_freshness [];
         hook_adoption_rate := get_hook_adoption_rate None |}
      "2025-01-01T00:00:00" = Ok r
    /\ (overallScore r == 2)%Q
    /\ fst (get_maturity_level (overallScore r)) = "Poor".
Proof.
  eexists. split; [reflexivity|]. split; reflexivity.
Qed.

(** ** Collectors *)

(** X5. The context freshness dimension scores by the average age of the
    context files with a known last commit: 10 below 3 days, 8 below 8,
    6 below 15, 4 below 30, 2 from 30 days on, and 2 also when there is
    no context file or no known age (the bands of the collector and the
    thresholds of the dimension line up). *)
Theorem context_freshness_dimension_score (d : dimension)
    (context_files : list (option Z)) :
  In d dimensions ->
  name d = "Context Freshness" ->
  score_dimension (fst (get_context_freshness context_files)) (thresholds d)
  = Ok (match known_ages context_files with
        | [] => 2
        | _ :: _ => freshness_score (average_age context_files)
        end).
Proof.
  intros Hd Hname.
  each_dimension Hd; simpl in Hname; try discriminate.
  cbn [thresholds].
  unfold get_context_freshness, average_age.
  destruct context_files as [|f rest]; [reflexivity|].
  change (flat_map _ (f :: rest)) with (known_ages (f :: rest)).
  destruct (known_ages (f :: rest)) as [|a ages]; [reflexivity|].
  cbn [fst].
  set (avg := (inject_Z (sum_Z (a :: ages))
               / inject_Z (Z.of_nat (List.length (a :: ages))))%Q).
  unfold freshness_band, freshness_score.
  destruct (Qlt_bool avg 3); [reflexivity|].
  destruct (Qlt_bool avg 8); [reflexivity|].
  destruct (Qlt_bool avg 15); [reflexivity|].
  destruct (Qlt_bool avg 30); reflexivity.
Qed.

Lemma context_freshness_dimension_score_witness :
  exists d,
    In d dimensions
    /\ score_dimension (fst (get_context_freshness [Some 2; None; Some 11]))
         (thresholds d) = Ok 8.
Proof.
  exists (nth 4 dimensions untabled). split.
  - simpl. tauto.
  - apply (context_freshness_dimension_score (nth 4 dimensions untabled)
             [Some 2; None; Some 11]).
    + simpl. tauto.
    + reflexivity.
Defined.

(** X6. An older average age never gives a higher freshness value. *)
Theorem freshness_band_antitone (a b : Q) :
  (a <= b)%Q -> (freshness_band b <= freshness_band a)%Q.
Proof.
  intro Hle. unfold freshness_band.
  destruct (Qlt_bool a 3) eqn:A3; destruct (Qlt_bool b 3) eqn:B3;
  destruct (Qlt_bool a 8) eqn:A8; destruct (Qlt_bool b 8) eqn:B8;
  destruct (Qlt_bool a 15) eqn:A15; destruct (Qlt_bool b 15) eqn:B15;
  destruct (Qlt_bool a 30) eqn:A30; destruct (Qlt_bool b 30) eqn:B30;
  try discriminate;
  repeat match goal with
         | H : Qlt_bool _ _ = true |- _ => apply Qlt_bool_iff in H
         | H : Qlt_bool _ _ = false |- _ => apply Qlt_bool_false_iff in H
         end;
  lra.
Qed.

Lemma freshness_band_antitone_witness :
  (freshness_band 20 <= freshness_band 5)%Q.
Proof.
  apply (freshness_band_antitone 5 20). discriminate.
Defined.

Lemma ratio_in_unit_interval (a b : Z) :
  0 <= a <= b -> b <> 0 -> (0 <= inject_Z a / inject_Z b <= 1)%Q.
Proof.
  intros [Ha Hab] Hb.
  assert (Hpos : (0 < inject_Z b)%Q).
  { change 0%Q with (inject_Z 0). rewrite <- Zlt_Qlt. lia. }
  split.
  - apply Qle_shift_div_l; [exact Hpos|].
    rewrite Qmult_0_l. change 0%Q with (inject_Z 0). rewrite <- Zle_Qle. lia.
  - apply Qle_shift_div_r; [exact Hpos|].
    rewrite Qmult_1_l. rewrite <- Zle_Qle. lia.
Qed.

(** X7. The delegation compliance value is 0.0 when the file is missing
    and when it records no delegable task (an absent count reads as 0),
    so the division is never by zero; and it lies in [0,1] whenever the
    file records no more delegated tasks than delegable ones and no
    negative count. *)
Theorem delegation_compliance_in_unit_interval (file : option delegation_file) :
  ((forall data, file = Some data ->
      0 <= get_or (tasksDelegated data) 0
        <= get_or (totalDelegableTasks data) 0) ->
   (0 <= fst (get_delegation_compliance file) <= 1)%Q)
  /\ fst (get_delegation_compliance None) = 0.0%Q
  /\ (forall data,
        get_or (totalDelegableTasks data) 0 = 0 ->
        fst (get_delegation_compliance (Some data)) = 0.0%Q).
Proof.
  split; [|split; [reflexivity|]].
  - intro Hcounts. unfold get_delegation_compliance.
    destruct file as [data|]; [|simpl; lra].
    specialize (Hcounts data eq_refl).
    destruct (get_or (totalDelegableTasks data) 0 =? 0) eqn:E; [simpl; lra|].
    apply Z.eqb_neq in E. cbn [fst].
    now apply ratio_in_unit_interval.
  - intros data Hzero. unfold get_delegation_compliance.
    rewrite Hzero. reflexivity.
Qed.

Lemma delegation_compliance_in_unit_interval_witness :
  (0 <= fst (get_delegation_compliance
               (Some {| totalDelegableTasks := Some 8%Z;
                        tasksDelegated := Some 6%Z |})) <= 1)%Q.
Proof.
  apply (proj1 (delegation_compliance_in_unit_interval
                  (Some {| totalDelegableTasks := Some 8%Z;
                           tasksDelegated := Some 6%Z |}))).
  intros data H. injection H as <-. simpl. lia.
Defined.

(** X8. The hook adoption value is 0.0 when the file is missing, when it
    has no [aggregateMetrics] object and when no advice was given (an
    absent count reads as 0), so the division is never by zero; and it
    lies in [0,1] whenever no more advice was followed than given and no
    count is negative. *)
Theorem hook_adoption_in_unit_interval (file : option hook_file) :
  ((forall data, file = Some data ->
      0 <= get_or (totalAdviceFollowed
                     (get_or (aggregateMetrics data) no_metrics)) 0
        <= get_or (totalAdviceGiven
                     (get_or (aggregateMetrics data) no_metrics)) 0) ->
   (0 <= fst (get_hook_adoption_rate file) <= 1)%Q)
  /\ fst (get_hook_adoption_rate None) = 0.0%Q
  /\ fst (get_hook_adoption_rate (Some {| aggregateMetrics := None |}))
     = 0.0%Q
  /\ (forall metrics,
        get_or (totalAdviceGiven metrics) 0 = 0 ->
        fst (get_hook_adoption_rate
               (Some {| aggregateMetrics := Some metrics |})) = 0.0%Q).
Proof.
  split; [|split; [reflexivity|split; [reflexivity|]]].
  - intro Hcounts. unfold get_hook_adoption_rate.
    destruct file as [data|]; [|simpl; lra].
    specialize (Hcounts data eq_refl).
    destruct (get_or (totalAdviceGiven
                        (get_or (aggregateMetrics data) no_metrics)) 0 =? 0)
      eqn:E; [simpl; lra|].
    apply Z.eqb_neq in E. cbn [fst].
    now apply ratio_in_unit_interval.
  - intros metrics Hzero. unfold get_hook_adoption_rate.
    cbn [aggregateMetrics get_or]. rewrite Hzero. reflexivity.
Qed.

Lemma hook_adoption_in_unit_interval_witness :
  (0 <= fst (get_hook_adoption_rate
               (Some {| aggregateMetrics :=
                          Some {| totalAdviceGiven := Some 4%Z;
                                  totalAdviceFollowed := Some 1%Z |} |})) <= 1)%Q.
Proof.
  apply (proj1 (hook_adoption_in_unit_interval
                  (Some {| aggregateMetrics :=
                             Some {| totalAdviceGiven := Some 4%Z;
                                     totalAdviceFollowed := Some 1%Z |} |}))).
  intros data H. injection H as <-. simpl. lia.
Defined.

(** ** Usage patterns, in general *)

(** The stable sort keeps the order of the entries with a given count. *)
Lemma insert_desc_stable (c : Z) (x : string * Z) (l : list (string * Z)) :
  filter (fun y => snd y =? c) (insert_desc x l)
  = filter (fun y => snd y =? c) (x :: l).
Proof.
  induction l as [|y rest IH]; [reflexivity|].
  cbn [insert_desc].
  destruct (snd x <? snd y) eqn:E; [|reflexivity].
  apply Z.ltb_lt in E.
  cbn [filter] in *. rewrite IH.
  destruct (snd x =? c) eqn:Ex; destruct (snd y =? c) eqn:Ey; try reflexivity.
  apply Z.eqb_eq in Ex. apply Z.eqb_eq in Ey. lia.
Qed.

Lemma sort_desc_stable (c : Z) (l : list (string * Z)) :
  filter (fun y => snd y =? c) (sort_desc l) = filter (fun y => snd y =? c) l.
Proof.
  induction l as [|x rest IH]; [reflexivity|].
  unfold sort_desc in *. cbn [fold_right].
  rewrite insert_desc_stable. cbn [filter]. now rewrite IH.
Qed.

Lemma insert_desc_sorted (x : string * Z) (l : list (string * Z)) :
  StronglySorted (fun a b => snd b <= snd a) l ->
  StronglySorted (fun a b => snd b <= snd a) (insert_desc x l).
Proof.
  induction 1 as [|y rest Hs IH Hall]; cbn [insert_desc].
  - repeat constructor.
  - destruct (snd x <? snd y) eqn:E.
    + apply Z.ltb_lt in E. constructor; [exact IH|].
      rewrite Forall_forall in *. intros z Hz.
      apply (Permutation_in _ (insert_desc_perm x rest)) in Hz.
      destruct Hz as [<- | Hz]; [lia | now apply Hall].
    + apply Z.ltb_ge in E. constructor.
      * now constructor.
      * constructor; [exact E|].
        rewrite Forall_forall in *. intros z Hz.
        specialize (Hall z Hz). lia.
Qed.

Lemma sort_desc_sorted (l : list (string * Z)) :
  StronglySorted (fun a b => snd b <= snd a) (sort_desc l).
Proof.
  induction l as [|x rest IH]; [constructor|].
  apply insert_desc_sorted. exact IH.
Qed.

Lemma filter_map_commute {A B : Type} (f : B -> bool) (g : A -> B)
    (l : list A) :
  filter f (map g l) = map g (filter (fun a => f (g a)) l).
Proof.
  induction l as [|a rest IH]; simpl; [reflexivity|].
  destruct (f (g a)); simpl; now rewrite IH.
Qed.

Lemma least_used_keys (data : usage_data) :
  leastUsedCommands (insights (analyze_usage_patterns data))
  = keys (filter (fun item => get_or (invocations (snd item)) 0 =? 0)
                 (commands data)).
Proof.
  unfold analyze_usage_patterns, keys.
  cbn [insights with_insights leastUsedCommands].
  rewrite sort_desc_stable, filter_map_commute, map_map. reflexivity.
Qed.

Lemma flat_map_filter {A B : Type} (f : A -> bool) (g : A -> B)
    (l : list A) :
  flat_map (fun a => if f a then [g a] else []) l = map g (filter f l).
Proof.
  induction l as [|a rest IH]; simpl; [reflexivity|].
  destruct (f a); simpl; now rewrite IH.
Qed.

(** The recommendations of one run, entry by entry. *)
Lemma analyze_command_usage_recommendations (now : string)
    (file : option usage_data) :
  recommendations (analyze_command_usage now file)
  = expected_recommendations (commands (load_command_data file)).
Proof.
  unfold analyze_command_usage, CommandUsage.generate_recommendations,
    expected_recommendations.
  set (data := load_command_data file).
  cbn [recommendations with_recommendations].
  rewrite least_used_keys.
  replace (commands (analyze_usage_patterns data)) with (commands data)
    by reflexivity.
  replace (redundantCommands (insights (analyze_usage_patterns data)))
    with (find_redundant_commands (commands data)) by reflexivity.
  assert (Hpromo :
            flat_map (fun item => if underused (snd item)
                                  then [promotion (fst item)] else [])
                     (commands data)
            = map promotion
                (keys (filter (fun item => underused (snd item))
                              (commands data)))).
  { rewrite (flat_map_filter (fun item => underused (snd item))
               (fun item => promotion (fst item))).
    unfold keys. now rewrite map_map. }
  rewrite Hpromo.
  destruct (keys (filter (fun item => get_or (invocations (snd item)) 0 =? 0)
                         (commands data))) as [|c rest];
    (destruct (0 <? get_or (recommendationsMade
                   (get_or (dict_get "/route" (commands data)) no_info)) 0);
     cbn [andb]; [destruct (Qlt_bool _ 0.3)|]);
    rewrite <- ?app_assoc; reflexivity.
Qed.

(** C7, as the code has it.  The recommendations of a run come in
    generation order and are not sorted by priority.  The list is, entry
    by entry: a low cleanup entry naming the commands with no invocation,
    if there is one; then one medium consolidation entry per redundancy
    cluster, naming its members; then a high adoption entry if /route
    made recommendations and its adoption rate is below 0.3; then one
    medium promotion entry, naming the command in its issue text, per
    command with fewer than 5 invocations and a success rate above 0.8,
    in the order of the commands mapping.  The priorities therefore read
    low, medium.., high, medium... *)
Theorem usage_recommendations_generation_order (now : string)
    (file : option usage_data) :
  recommendations (analyze_command_usage now file)
  = expected_recommendations (commands (load_command_data file))
  /\ map priority (recommendations (analyze_command_usage now file))
     = generation_order (commands (load_command_data file)).
Proof.
  split.
  - exact (analyze_command_usage_recommendations now file).
  - exact (analyze_command_usage_priorities now file).
Qed.

(** X9. The least used commands are exactly the commands of the mapping
    with no invocation (an absent count reads as 0), listed in the order
    of the mapping: the sort by count does not reorder them. *)
Theorem least_used_are_never_invoked (data : usage_data) :
  leastUsedCommands (insights (analyze_usage_patterns data))
  = keys (filter (fun item => get_or (invocations (snd item)) 0 =? 0)
                 (commands data)).
Proof.
  exact (least_used_keys data).
Qed.

Lemma strongly_sorted_app {A : Type} (R : A -> A -> Prop) (l1 l2 : list A) :
  StronglySorted R (l1 ++ l2) ->
  StronglySorted R l1 /\ (forall x y, In x l1 -> In y l2 -> R x y).
Proof.
  induction l1 as [|a l1 IH]; simpl; intro H.
  - split; [constructor | intros x y []].
  - inversion H as [|? ? Hs Hall]; subst.
    destruct (IH Hs) as [Hs1 Hcross].
    rewrite Forall_forall in Hall.
    split.
    + constructor; [exact Hs1|].
      rewrite Forall_forall. intros x Hx. apply Hall, in_or_app. now left.
    + intros x y [<- | Hx] Hy.
      * apply Hall, in_or_app. now right.
      * now apply Hcross.
Qed.

Lemma strongly_sorted_filter {A : Type} (R : A -> A -> Prop) (f : A -> bool)
    (l : list A) :
  StronglySorted R l -> StronglySorted R (filter f l).
Proof.
  induction 1 as [|a l Hs IH Hall]; simpl; [constructor|].
  destruct (f a); [|exact IH].
  constructor; [exact IH|].
  rewrite Forall_forall in *. intros x Hx.
  apply filter_In in Hx. apply Hall. tauto.
Qed.

Lemma filter_length_bound {A : Type} (f : A -> bool) (l : list A) :
  (List.length (filter f l) <= List.length l)%nat.
Proof.
  induction l as [|a l IH]; simpl; [lia|].
  destruct (f a); simpl; lia.
Qed.

(** X10. The most used commands are the top five by invocation count
    without the uninvoked ones: at most 5 commands, each stored with a
    positive count, listed by nonincreasing count, and no command left
    out has a higher count than a listed one. *)
Theorem most_used_top_five (data : usage_data) :
  exists ranked : list (string * Z),
    mostUsedCommands (insights (analyze_usage_patterns data)) = map fst ranked
    /\ (List.length ranked <= 5)%nat
    /\ (forall x, In x ranked ->
          In x (map usage_count (commands data)) /\ 0 < snd x)
    /\ StronglySorted (fun a b => snd b <= snd a) ranked
    /\ (forall x y,
          In x (map usage_count (commands data)) ->
          In y ranked -> ~ In x ranked -> snd x <= snd y).
Proof.
  set (counts := map usage_count (commands data)).
  set (sorted := sort_desc counts).
  exists (filter (fun x => 0 <? snd x) (firstn 5 sorted)).
  assert (Hsplit : firstn 5 sorted ++ skipn 5 sorted = sorted)
    by apply firstn_skipn.
  pose proof (sort_desc_sorted counts) as Hsorted. fold sorted in Hsorted.
  rewrite <- Hsplit in Hsorted.
  destruct (strongly_sorted_app _ _ _ Hsorted) as [Hfirst Hcross].
  assert (Hin : forall x, In x (firstn 5 sorted) -> In x counts).
  { intros x Hx. apply (Permutation_in _ (sort_desc_perm counts)).
    fold sorted. rewrite <- Hsplit. apply in_or_app. now left. }
  split; [reflexivity|]. split; [|split; [|split]].
  - etransitivity; [apply filter_length_bound|]. apply firstn_le_length.
  - intros x Hx. apply filter_In in Hx. destruct Hx as [Hx Hpos].
    apply Z.ltb_lt in Hpos. split; [now apply Hin | exact Hpos].
  - now apply strongly_sorted_filter.
  - intros x y Hx Hy Hout.
    apply filter_In in Hy. destruct Hy as [Hy Hpos]. apply Z.ltb_lt in Hpos.
    apply (Permutation_in _ (Permutation_sym (sort_desc_perm counts))) in Hx.
    fold sorted in Hx. rewrite <- Hsplit in Hx.
    apply in_app_or in Hx. destruct Hx as [Hx | Hx].
    + destruct (0 <? snd x) eqn:E.
      * exfalso. apply Hout. apply filter_In. now split.
      * apply Z.ltb_ge in E. lia.
    + now apply Hcross.
Qed.

Lemma low_usage_family_members (prefix : string) (bound : Z)
    (cmds : dict cmd_info) (c : string) :
  In c (keys (low_usage_family prefix bound cmds)) ->
  exists info,
    In (c, info) cmds
    /\ String.prefix prefix c = true
    /\ get_or (invocations info) 0 < bound.
Proof.
  unfold keys, low_usage_family. intro H.
  apply in_map_iff in H. destruct H as [[c' info] [<- Hin]].
  apply filter_In in Hin. destruct Hin as [Hin Hcond].
  apply andb_true_iff in Hcond. destruct Hcond as [Hp Hb].
  apply Z.ltb_lt in Hb. exists info. auto.
Qed.

(** X11. Every redundancy cluster reported has at least two members, and
    its members are stored commands of one family with low usage: names
    starting with /local- and fewer than 5 invocations, or at least
    three names starting with /process- and fewer than 3 invocations. *)
Theorem redundancy_clusters_shape (cmds : dict cmd_info) (r : redundancy) :
  In r (find_redundant_commands cmds) ->
  (2 <= List.length (red_commands r))%nat
  /\ ((forall c, In c (red_commands r) ->
         exists info, In (c, info) cmds
                      /\ String.prefix "/local-" c = true
                      /\ get_or (invocations info) 0 < 5)
      \/ ((3 <= List.length (red_commands r))%nat
          /\ forall c, In c (red_commands r) ->
               exists info, In (c, info) cmds
                            /\ String.prefix "/process-" c = true
                            /\ get_or (invocations info) 0 < 3)).
Proof.
  unfold find_redundant_commands.
  destruct (2 <=? List.length (low_usage_family "/local-" 5 cmds))%nat eqn:El;
    destruct (3 <=? List.length (low_usage_family "/process-" 3 cmds))%nat eqn:Ep;
    cbn [app]; intro Hin;
    repeat (destruct Hin as [<- | Hin]); try destruct Hin;
    cbn [red_commands]; unfold keys; rewrite length_map;
    try apply Nat.leb_le in El; try apply Nat.leb_le in Ep.
  - split; [exact El|]. left. apply low_usage_family_members.
  - split; [lia|]. right. split; [exact Ep|]. apply low_usage_family_members.
  - split; [exact El|]. left. apply low_usage_family_members.
  - split; [lia|]. right. split; [exact Ep|]. apply low_usage_family_members.
Qed.

Lemma redundancy_clusters_shape_witness :
  (2 <= List.length ["/local-x"; "/local-y"])%nat.
Proof.
  apply (redundancy_clusters_shape
           [("/a", invoked 0); ("/local-x", invoked 3); ("/local-y", invoked 2)]
           {| red_commands := ["/local-x"; "/local-y"];
              red_reason := "Multiple /local-* commands with low usage, consider consolidation";
              red_suggestion := "Merge into /delegate-auto with auto-routing" |}).
  left. reflexivity.
Defined.

(** Running the analysis on its own result changes nothing but the time
    stamp of the run: insights and recommendations are recomputed from
    the commands mapping and never accumulate. *)
Remark analyze_command_usage_idempotent (now1 now2 : string)
    (file : option usage_data) :
  analyze_command_usage now2 (Some (analyze_command_usage now1 file))
  = analyze_command_usage now2 file.
Proof.
  reflexivity.
Qed.

(** X12. When some command has no invocation, the first recommendation
    of a run is the cleanup entry, and it lists exactly the commands
    with no invocation, in the order of the mapping, with their number
    in its issue text. *)
Theorem cleanup_lists_never_invoked (now : string) (file : option usage_data) :
  keys (filter (fun item => get_or (invocations (snd item)) 0 =? 0)
               (commands (load_command_data file))) <> [] ->
  hd_error (recommendations (analyze_command_usage now file))
  = Some (cleanup
            (keys (filter (fun item => get_or (invocations (snd item)) 0 =? 0)
                          (commands (load_command_data file))))).
Proof.
  intro Hne.
  unfold analyze_command_usage, CommandUsage.generate_recommendations.
  cbn [recommendations with_recommendations].
  rewrite least_used_keys.
  set (data := load_command_data file) in *.
  destruct (keys (filter (fun item => get_or (invocations (snd item)) 0 =? 0)
                         (commands data))) as [|c rest] eqn:E;
    [congruence|].
  destruct (0 <? _); [destruct (Qlt_bool _ _)|]; reflexivity.
Qed.

Lemma cleanup_lists_never_invoked_witness :
  hd_error
    (recommendations
       (analyze_command_usage "2025-01-02T00:00:00"
          (Some (snapshot [("/review", invoked 9); ("/a", invoked 0);
                           ("/b", invoked 0)]))))
  = Some (cleanup ["/a"; "/b"]).
Proof.
  apply (cleanup_lists_never_invoked "2025-01-02T00:00:00"
           (Some (snapshot [("/review", invoked 9); ("/a", invoked 0);
                            ("/b", invoked 0)]))).
  discriminate.
Defined.

(** ** Recording outcomes, in general *)

Lemma dict_set_keys {V : Type} (k : string) (v : V) (d : dict V) :
  keys (dict_set k v d) = if dict_mem k d then keys d else keys d ++ [k].
Proof.
  unfold keys, dict_mem.
  induction d as [|[k' v'] rest IH]; simpl; [reflexivity|].
  destruct (String.eqb k k') eqn:E; simpl; [reflexivity|].
  rewrite IH. destruct (dict_get k rest); reflexivity.
Qed.

Lemma dict_get_in {V : Type} (k : string) (v : V) (d : dict V) :
  dict_get k d = Some v -> In (k, v) d.
Proof.
  induction d as [|[k' v'] rest IH]; simpl; [discriminate|].
  destruct (String.eqb_spec k k') as [<- | Hne].
  - intro H. injection H as <-. now left.
  - intro H. right. now apply IH.
Qed.

(** X13. A call for a command that is already stored leaves the order of
    the commands mapping as it was; a call for a new command appends the
    command at the end. *)
Theorem update_command_usage_key_order (now : nat -> string)
    (command : string) (success : bool) (file : option usage_data) :
  0 <= stored_invocations command file ->
  exists data',
    update_command_usage now command success file = Ok data'
    /\ keys (commands data')
       = if dict_mem command (commands (load_command_data file))
         then keys (commands (load_command_data file))
         else keys (commands (load_command_data file)) ++ [command].
Proof.
  unfold stored_invocations, update_command_usage.
  set (data := load_command_data file).
  destruct (dict_get command (commands data)) as [info|] eqn:Eget.
  - assert (Hmem : dict_mem command (commands data) = true)
      by (unfold dict_mem; now rewrite Eget).
    rewrite Hmem, Eget. cbn [get_or]. intro Hcount.
    assert (Hnz : (get_or (invocations info) 0 + 1 =? 0) = false)
      by (apply Z.eqb_neq; lia).
    rewrite Hnz. eexists. split; [reflexivity|].
    cbn [commands]. now rewrite dict_set_keys, Hmem.
  - assert (Hmem : dict_mem command (commands data) = false)
      by (unfold dict_mem; now rewrite Eget).
    rewrite Hmem, dict_get_set_same. cbn [get_or invocations]. intros _.
    cbn [Z.add Z.eqb Pos.add].
    eexists. split; [reflexivity|].
    cbn [commands]. rewrite !dict_set_keys, Hmem.
    unfold dict_mem. now rewrite dict_get_set_same.
Qed.

Lemma update_command_usage_key_order_witness :
  exists data',
    update_command_usage (fun _ => "2025-01-01T00:00:00") "/review" true
      (Some (snapshot [("/route", invoked 7); ("/review", invoked 2);
                       ("/gen-tests", invoked 1)]))
    = Ok data'
    /\ keys (commands data') = ["/route"; "/review"; "/gen-tests"].
Proof.
  apply (update_command_usage_key_order (fun _ => "2025-01-01T00:00:00")
           "/review" true
           (Some (snapshot [("/route", invoked 7); ("/review", invoked 2);
                            ("/gen-tests", invoked 1)]))).
  vm_compute. discriminate.
Defined.

Lemma prior_rate_in_unit_interval (command : string)
    (file : option usage_data) :
  (forall r, stored_rate command file = Some r -> (0 <= r <= 1)%Q) ->
  (0 <= prior_rate command file <= 1)%Q.
Proof.
  unfold stored_rate, prior_rate.
  destruct (dict_get command (commands (load_command_data file))) as [info|].
  - destruct (avgSuccessRate info) as [r|]; cbn [get_or]; intro H.
    + now apply H.
    + lra.
  - intros _. lra.
Qed.

(** X14. If the stored success rate of a command lies in [0,1] (or there
    is none) and its count is not negative, the rate stored by the call
    lies in [0,1] again: the rounded running average never leaves the
    unit interval. *)
Theorem update_command_usage_rate_in_unit_interval (now : nat -> string)
    (command : string) (success : bool) (file : option usage_data) :
  0 <= stored_invocations command file ->
  (forall r, stored_rate command file = Some r -> (0 <= r <= 1)%Q) ->
  exists data' rate,
    update_command_usage now command success file = Ok data'
    /\ stored_rate command (Some data') = Some rate
    /\ (0 <= rate <= 1)%Q.
Proof.
  intros Hcount Hstored.
  apply prior_rate_in_unit_interval in Hstored.
  destruct (update_command_usage_entry now command success file)
    as [data' [Hok [_ [_ Hrate]]]]; [lia|].
  eexists data', _. split; [exact Hok|]. split; [exact Hrate|].
  set (r := prior_rate command file) in *.
  set (k := stored_invocations command file) in *.
  apply (py_round_between 0 1).
  change (inject_Z 0) with 0%Q. change (inject_Z 1) with 1%Q.
  assert (HK : (0 <= inject_Z k)%Q)
    by (change 0%Q with (inject_Z 0); rewrite <- Zle_Qle; exact Hcount).
  assert (Ho : (0 <= outcome_value success <= 1)%Q)
    by (destruct success; simpl; lra).
  rewrite inject_Z_plus. change (inject_Z 1) with 1%Q.
  assert (Hlo : (0 <= r * inject_Z k)%Q) by (apply Qmult_le_0_compat; lra).
  assert (Hhi : (0 <= (1 - r) * inject_Z k)%Q)
    by (apply Qmult_le_0_compat; lra).
  split.
  - apply Qle_shift_div_l; [lra|]. lra.
  - apply Qle_shift_div_r; [lra|]. lra.
Qed.

Lemma update_command_usage_rate_in_unit_interval_witness :
  exists data' rate,
    update_command_usage (fun _ => "2025-01-01T00:00:00") "/review" false
      (Some (snapshot [("/review", invoked 2)])) = Ok data'
    /\ stored_rate "/review" (Some data') = Some rate
    /\ (0 <= rate <= 1)%Q.
Proof.
  apply (update_command_usage_rate_in_unit_interval
           (fun _ => "2025-01-01T00:00:00") "/review" false
           (Some (snapshot [("/review", invoked 2)]))).
  - vm_compute. discriminate.
  - intros r H. vm_compute in H. discriminate.
Defined.

Section Unanimous.

Variable now : nat -> string.
Variable command : string.
Variable b : bool.

(** One more outcome equal to all the earlier ones keeps the rate exact. *)
Lemma unanimous_step (k : Z) (file : option usage_data) :
  0 <= k ->
  stored_invocations command file = k ->
  (inject_Z k * prior_rate command file == inject_Z k * outcome_value b)%Q ->
  exists data' rate,
    update_command_usage now command b file = Ok data'
    /\ stored_invocations command (Some data') = k + 1
    /\ stored_rate command (Some data') = Some rate
    /\ (rate == outcome_value b)%Q.
Proof.
  intros Hk Hinv Hprior.
  destruct (update_command_usage_entry now command b file)
    as [data' [Hok [_ [Hinv' Hrate]]]]; [lia|].
  rewrite Hinv in *.
  assert (HK : (0 <= inject_Z k)%Q)
    by (change 0%Q with (inject_Z 0); rewrite <- Zle_Qle; exact Hk).
  assert (Hx : ((prior_rate command file * inject_Z k + outcome_value b)
                / inject_Z (k + 1) == outcome_value b)%Q).
  { rewrite inject_Z_plus. change (inject_Z 1) with 1%Q.
    rewrite (Qmult_comm (prior_rate command file)), Hprior.
    field. lra. }
  rewrite (py_round_compat _ _ 2 Hx) in Hrate.
  eexists data', _. split; [exact Hok|]. split; [exact Hinv'|].
  split; [exact Hrate|].
  destruct b; reflexivity.
Qed.

Lemma unanimous_run (outcomes : list bool) :
  forall (k : Z) (file : option usage_data),
    outcomes <> [] ->
    Forall (eq b) outcomes ->
    0 <= k ->
    stored_invocations command file = k ->
    (inject_Z k * prior_rate command file == inject_Z k * outcome_value b)%Q ->
    exists rate,
      stored_rate command (record_outcomes now command outcomes file) = Some rate
      /\ (rate == outcome_value b)%Q
      /\ stored_invocations command (record_outcomes now command outcomes file)
         = k + Z.of_nat (List.length outcomes).
Proof.
  induction outcomes as [|s rest IH]; intros k file Hne Hall Hk Hinv Hprior.
  - congruence.
  - pose proof (Forall_inv Hall) as Hb.
    pose proof (Forall_inv_tail Hall) as Hall'.
    subst s.
    destruct (unanimous_step k file Hk Hinv Hprior)
      as [data' [rate [Hok [Hinv' [Hrate Heq]]]]].
    cbn [record_outcomes]. rewrite Hok.
    destruct rest as [|s' rest'].
    + cbn [record_outcomes List.length]. exists rate.
      split; [exact Hrate|]. split; [exact Heq|]. lia.
    + destruct (IH (k + 1) (Some data')) as [rate' [Hrate' [Heq' Hinv'']]].
      * discriminate.
      * exact Hall'.
      * lia.
      * exact Hinv'.
      * rewrite (stored_rate_prior _ _ _ Hrate), Heq. reflexivity.
      * exists rate'. split; [exact Hrate'|]. split; [exact Heq'|].
        rewrite Hinv''. cbn [List.length]. lia.
Qed.

End Unanimous.

(** X15. For a command not stored yet, when all the recorded outcomes
    are successes the stored rate is exactly 1.0, and when all are
    failures it is exactly 0.0, however many there are: the rounding of
    each call does not drift. *)
Theorem unanimous_outcomes_exact (now : nat -> string) (command : string)
    (b : bool) (outcomes : list bool) (file : option usage_data) :
  dict_get command (commands (load_command_data file)) = None ->
  outcomes <> [] ->
  Forall (eq b) outcomes ->
  exists rate,
    stored_rate command (record_outcomes now command outcomes file) = Some rate
    /\ (rate == outcome_value b)%Q.
Proof.
  intros Hfresh Hne Hall.
  destruct (unanimous_run now command b outcomes 0 file Hne Hall)
    as [rate [Hrate [Heq _]]].
  - lia.
  - unfold stored_invocations. now rewrite Hfresh.
  - change (inject_Z 0) with 0%Q. ring.
  - exists rate. auto.
Qed.

Lemma unanimous_outcomes_exact_witness :
  exists rate,
    stored_rate "/review"
      (record_outcomes (fun _ => "2025-01-01T00:00:00") "/review"
         [true; true; true] None) = Some rate
    /\ (rate == 1)%Q.
Proof.
  destruct (unanimous_outcomes_exact (fun _ => "2025-01-01T00:00:00")
              "/review" true [true; true; true] None)
    as [rate [Hrate Heq]].
  - reflexivity.
  - discriminate.
  - repeat constructor.
  - exists rate. split; [exact Hrate|]. rewrite Heq. reflexivity.
Defined.

(** X16. A new command whose first outcomes, at most four, are all
    successes is at once reported by the analysis as highly successful
    but rarely used: the promotion recommendation needs no minimum number
    of invocations. *)
Theorem early_successes_trigger_promotion (now : nat -> string)
    (now' : string) (command : string) (outcomes : list bool)
    (file : option usage_data) :
  dict_get command (commands (load_command_data file)) = None ->
  outcomes <> [] ->
  Forall (eq true) outcomes ->
  (List.length outcomes <= 4)%nat ->
  In (promotion command)
     (recommendations
        (analyze_command_usage now'
           (record_outcomes now command outcomes file))).
Proof.
  intros Hfresh Hne Hall Hlen.
  destruct (unanimous_run now command true outcomes 0 file Hne Hall)
    as [rate [Hrate [Heq Hinv]]].
  - lia.
  - unfold stored_invocations. now rewrite Hfresh.
  - change (inject_Z 0) with 0%Q. ring.
  - set (f := record_outcomes now command outcomes file) in *.
    unfold stored_rate in Hrate. unfold stored_invocations in Hinv.
    destruct (dict_get command (commands (load_command_data f)))
      as [info|] eqn:Eget; [|discriminate].
    apply dict_get_in in Eget.
    unfold analyze_command_usage, CommandUsage.generate_recommendations.
    cbn [recommendations with_recommendations].
    apply in_or_app. right.
    apply in_flat_map. exists (command, info). split; [exact Eget|].
    cbn [fst snd].
    assert (Hunder : underused info = true).
    { unfold underused. rewrite Hinv, Hrate. cbn [get_or].
      apply andb_true_iff. split.
      - apply Z.ltb_lt. lia.
      - apply Qlt_bool_iff. rewrite Heq. reflexivity. }
    rewrite Hunder. now left.
Qed.

Lemma early_successes_trigger_promotion_witness :
  In (promotion "/review")
     (recommendations
        (analyze_command_usage "2025-01-02T00:00:00"
           (record_outcomes (fun _ => "2025-01-01T00:00:00") "/review"
              [true] None))).
Proof.
  apply early_successes_trigger_promotion.
  - reflexivity.
  - discriminate.
  - repeat constructor.
  - simpl. lia.
Defined.

(** ** Model comparison, in general *)

Section FirstMaximum.

Variable eligible : model_data -> bool.
Variable score : model_data -> Q.

Lemma picked_step (done : dict model_data) (acc : Q * option string)
    (item : string * model_data) :
  picked eligible score done acc ->
  picked eligible score (done ++ [item]) (pick eligible score acc item).
Proof.
  intros [Hmax Hheld]. unfold pick.
  destruct (eligible (snd item)) eqn:Ee; cbn [andb];
    [destruct (Qlt_bool (fst acc) (score (snd item))) eqn:El|].
  - apply Qlt_bool_iff in El. split.
    + intros x Hx Hex. cbn [fst]. apply in_app_or in Hx.
      destruct Hx as [Hx | [<- | []]].
      * specialize (Hmax x Hx Hex). lra.
      * lra.
    + cbn [snd fst].
      exists done, (snd item), []. rewrite <- surjective_pairing.
      split; [reflexivity|]. split; [exact Ee|]. split; [reflexivity|].
      split.
      * destruct (snd acc) as [m|].
        -- destruct Hheld as [before [data [after [_ [_ [Hfst [Hpos _]]]]]]].
           rewrite Hfst in El. lra.
        -- lra.
      * intros x Hx Hex. specialize (Hmax x Hx Hex). lra.
  - apply Qlt_bool_false_iff in El. split.
    + intros x Hx Hex. apply in_app_or in Hx.
      destruct Hx as [Hx | [<- | []]]; [now apply Hmax | exact El].
    + destruct (snd acc) as [m|]; [|exact Hheld].
      destruct Hheld as [before [data [after [-> Hrest]]]].
      exists before, data, (after ++ [item]).
      split; [now rewrite <- app_assoc|]. exact Hrest.
  - split.
    + intros x Hx Hex. apply in_app_or in Hx.
      destruct Hx as [Hx | [<- | []]]; [now apply Hmax | congruence].
    + destruct (snd acc) as [m|]; [|exact Hheld].
      destruct Hheld as [before [data [after [-> Hrest]]]].
      exists before, data, (after ++ [item]).
      split; [now rewrite <- app_assoc|]. exact Hrest.
Qed.

Lemma picked_loop (rest : dict model_data) :
  forall (done : dict model_data) (acc : Q * option string),
    picked eligible score done acc ->
    picked eligible score (done ++ rest)
      (fold_left (pick eligible score) rest acc).
Proof.
  induction rest as [|item rest IH]; intros done acc H; cbn [fold_left].
  - now rewrite app_nil_r.
  - replace (done ++ item :: rest) with ((done ++ [item]) ++ rest)
      by (now rewrite <- app_assoc).
    apply IH. now apply picked_step.
Qed.

(** The loop holds the first maximum, and holds nothing only if no
    eligible item has a score above 0. *)
Lemma pick_first_maximum (models : dict model_data) :
  match snd (fold_left (pick eligible score) models (0.0%Q, None)) with
  | Some m => first_maximum eligible score models m
  | None =>
      forall x, In x models -> eligible (snd x) = true ->
        (score (snd x) <= 0)%Q
  end.
Proof.
  pose proof (picked_loop models [] (0.0%Q, None)) as H.
  cbn [app] in H.
  destruct H as [Hmax Hheld].
  - split; [intros x [] | reflexivity].
  - destruct (snd (fold_left (pick eligible score) models (0.0%Q, None)))
      as [m|].
    + destruct Hheld as [before [data [after [Heq [He [Hfst [Hpos Hbefore]]]]]]].
      exists before, data, after.
      split; [exact Heq|]. split; [exact He|]. split; [exact Hpos|].
      split; [exact Hbefore|].
      intros x Hx Hex. rewrite <- Hfst. apply Hmax; [|exact Hex].
      rewrite Heq. apply in_or_app. right. now right.
    + intros x Hx Hex. rewrite <- Hheld. now apply Hmax.
Qed.

End FirstMaximum.

Lemma best_step_pick (task_type : string) (acc : option string * Q)
    (item : string * model_data) :
  best_step task_type acc item
  = swap (pick (attempted_type task_type) (rate_or_zero task_type)
               (swap acc) item).
Proof.
  destruct acc as [held best], item as [model data].
  unfold best_step, pick, attempted_type, rate_or_zero, rate_on, swap.
  cbn [fst snd].
  destruct (dict_get task_type (get_or (taskTypes data) [])) as [stats|];
    cbn [andb get_or]; [|reflexivity].
  destruct (Qlt_bool best (get_or (type_firstPassRate stats) 0.0%Q));
    reflexivity.
Qed.

Lemma best_loop_pick (task_type : string) (models : dict model_data) :
  forall acc,
    fold_left (best_step task_type) models acc
    = swap (fold_left (pick (attempted_type task_type)
                            (rate_or_zero task_type))
                      models (swap acc)).
Proof.
  induction models as [|item rest IH]; intro acc; cbn [fold_left].
  - now destruct acc.
  - rewrite IH, best_step_pick. f_equal. f_equal.
    now destruct (pick _ _ (swap acc) item).
Qed.

Lemma best_model_for_pick (task_type : string) (models : dict model_data) :
  best_model_for task_type models
  = snd (fold_left (pick (attempted_type task_type) (rate_or_zero task_type))
                   models (0.0%Q, None)).
Proof.
  unfold best_model_for. now rewrite best_loop_pick.
Qed.

(** X17. The model named in [bestFor_<task type>] has the highest
    first-pass rate on the task type among the models that attempted it,
    a rate above 0, and on a tie it is the first of the tied models in
    the order of the mapping. *)
Theorem best_for_is_first_maximum (models : dict model_data)
    (task_type m : string) :
  dict_get (best_for_key task_type) (Subagent.generate_recommendations models)
  = Some m ->
  first_maximum (attempted_type task_type) (rate_or_zero task_type) models m.
Proof.
  intro H. apply best_for_entry in H.
  rewrite best_model_for_pick in H.
  pose proof (pick_first_maximum (attempted_type task_type)
                (rate_or_zero task_type) models) as Hpick.
  now rewrite H in Hpick.
Qed.

Lemma best_for_is_first_maximum_witness :
  first_maximum (attempted_type "refactor") (rate_or_zero "refactor")
    [("deepseek", model_entry 10 8 [("refactor", type_entry 10 8)]);
     ("qwen", model_entry 5 4 [("refactor", type_entry 5 4)])]
    "deepseek".
Proof.
  apply best_for_is_first_maximum. reflexivity.
Defined.

Lemma quality_step_pick (acc : Q * option string)
    (item : string * model_data) :
  quality_step acc item = pick enough_tasks overall_rate acc item.
Proof.
  destruct item as [model data].
  unfold quality_step, pick, enough_tasks, overall_rate. cbn [fst snd].
  now rewrite andb_comm.
Qed.

Lemma quality_loop_pick (models : dict model_data) :
  forall acc,
    fold_left quality_step models acc
    = fold_left (pick enough_tasks overall_rate) models acc.
Proof.
  induction models as [|item rest IH]; intro acc; cbn [fold_left];
    [reflexivity|].
  now rewrite IH, quality_step_pick.
Qed.

(** X18. The model chosen as [highestQuality] has the highest overall
    first-pass rate among the models with more than 5 attempted tasks, a
    rate above 0, and on a tie it is the first in the order of the
    mapping; no model is chosen only if no such model has a rate above
    0. *)
Theorem highest_quality_is_first_maximum (models : dict model_data) :
  match highest_quality models with
  | Some m => first_maximum enough_tasks overall_rate models m
  | None =>
      forall x, In x models -> enough_tasks (snd x) = true ->
        (overall_rate (snd x) <= 0)%Q
  end.
Proof.
  unfold highest_quality. rewrite quality_loop_pick.
  apply pick_first_maximum.
Qed.

Lemma set_add_in (x y : string) (s : list string) :
  In x (set_add y s) <-> x = y \/ In x s.
Proof.
  unfold set_add.
  destruct (existsb (String.eqb y) s) eqn:E.
  - split; [now right|]. intros [-> | H]; [|exact H].
    apply existsb_exists in E. destruct E as [z [Hz Heq]].
    apply String.eqb_eq in Heq. now subst.
  - rewrite in_app_iff. simpl. intuition.
Qed.

Lemma set_update_in (x : string) (xs : list string) :
  forall s, In x (set_update s xs) <-> In x s \/ In x xs.
Proof.
  unfold set_update.
  induction xs as [|y rest IH]; intro s; cbn [fold_left].
  - simpl. tauto.
  - rewrite IH, set_add_in. simpl. intuition.
Qed.

Lemma task_types_loop_in (t : string) (models : dict model_data) :
  forall s,
    In t (fold_left
            (fun task_types item =>
               set_update task_types (keys (get_or (taskTypes (snd item)) [])))
            models s)
    <-> In t s
        \/ exists x, In x models /\ In t (keys (get_or (taskTypes (snd x)) [])).
Proof.
  induction models as [|item rest IH]; intro s; cbn [fold_left].
  - split; [now left|]. intros [H | [x [[] _]]]. exact H.
  - rewrite IH, set_update_in. split.
    + intros [[H | H] | [x [Hx Ht]]].
      * now left.
      * right. exists item. split; [now left | exact H].
      * right. exists x. split; [now right | exact Ht].
    + intros [H | [x [[<- | Hx] Ht]]].
      * left. now left.
      * left. now right.
      * right. exists x. auto.
Qed.

Lemma attempted_type_listed (t : string) (models : dict model_data)
    (x : string * model_data) :
  In x models -> attempted_type t (snd x) = true ->
  In t (task_types_of models).
Proof.
  intros Hx Ht. unfold task_types_of.
  apply task_types_loop_in. right. exists x. split; [exact Hx|].
  unfold attempted_type, rate_on in Ht.
  destruct (dict_get t (get_or (taskTypes (snd x)) [])) as [stats|] eqn:E;
    [|discriminate].
  apply dict_get_in in E. unfold keys.
  apply (in_map fst) in E. exact E.
Qed.

(** Once its turn has come, the entry of a task type stays as written. *)
Lemma record_best_written (models : dict model_data) (t : string)
    (task_types : list string) :
  truthy (best_model_for t models) = true ->
  forall acc,
    In t task_types
    \/ dict_get (best_for_key t) acc = Some (get_or (best_model_for t models) "") ->
    dict_get (best_for_key t) (fold_left (record_best models) task_types acc)
    = Some (get_or (best_model_for t models) "").
Proof.
  intro Htruthy.
  induction task_types as [|t' rest IH]; intros acc H; cbn [fold_left].
  - destruct H as [[] | H]. exact H.
  - apply IH.
    destruct (String.eqb_spec t t') as [<- | Hne].
    + right. unfold record_best. rewrite Htruthy. apply dict_get_set_same.
    + destruct H as [[Heq | Hin] | Hacc].
      * congruence.
      * now left.
      * right. unfold record_best.
        destruct (truthy (best_model_for t' models)); [|exact Hacc].
        rewrite dict_get_set_other; [exact Hacc|].
        intro Heq. apply best_for_key_inj in Heq. contradiction.
Qed.

(** X19. When some model has a first-pass rate above 0 on a task type
    and no model has the empty name, an entry [bestFor_<task type>] is
    emitted; with the empty name the entry of a task type that model
    wins is left out, because the empty string counts as false. *)
Theorem best_for_emitted_when_positive (models : dict model_data)
    (task_type : string) :
  (exists x, In x models
             /\ attempted_type task_type (snd x) = true
             /\ (0 < rate_or_zero task_type (snd x))%Q) ->
  (forall x, In x models -> fst x <> "") ->
  exists m,
    dict_get (best_for_key task_type)
      (Subagent.generate_recommendations models) = Some m
    /\ best_model_for task_type models = Some m.
Proof.
  intros [x [Hx [Hatt Hpos]]] Hnames.
  pose proof (pick_first_maximum (attempted_type task_type)
                (rate_or_zero task_type) models) as Hpick.
  rewrite <- best_model_for_pick in Hpick.
  destruct (best_model_for task_type models) as [m|] eqn:Hbest.
  - destruct Hpick as [before [data [after [Heq _]]]].
    assert (Hm : m <> "").
    { apply (Hnames (m, data)). rewrite Heq.
      apply in_or_app. right. now left. }
    assert (Htruthy : truthy (best_model_for task_type models) = true).
    { rewrite Hbest. cbn [truthy]. apply negb_true_iff.
      now apply String.eqb_neq. }
    exists m. split; [|reflexivity].
    unfold Subagent.generate_recommendations.
    destruct (best_for_key_not_fixed task_type) as [Hne1 Hne2].
    rewrite !dict_get_set_other by assumption.
    rewrite (record_best_written models task_type _ Htruthy).
    + now rewrite Hbest.
    + left. now apply (attempted_type_listed task_type models x).
  - specialize (Hpick x Hx Hatt). lra.
Qed.

Lemma best_for_emitted_when_positive_witness :
  exists m,
    dict_get (best_for_key "refactor")
      (Subagent.generate_recommendations
         [("deepseek", model_entry 3 0 [("refactor", type_entry 3 0)]);
          ("qwen", model_entry 4 1 [("refactor", type_entry 4 1)])])
    = Some m.
Proof.
  destruct (best_for_emitted_when_positive
              [("deepseek", model_entry 3 0 [("refactor", type_entry 3 0)]);
               ("qwen", model_entry 4 1 [("refactor", type_entry 4 1)])]
              "refactor") as [m [Hm _]].
  - eexists. split; [right; left; reflexivity|]. split; reflexivity.
  - intros x [<- | [<- | []]]; discriminate.
  - exists m. exact Hm.
Defined.

(** A model with the empty name wins no entry. *)
Example best_for_empty_name :
  dict_get (best_for_key "refactor")
    (Subagent.generate_recommendations
       [("", model_entry 10 8 [("refactor", type_entry 10 8)])])
  = None.
Proof. reflexivity. Qed.

Lemma cheapest_step (done : dict model_data) (acc : option Q * option string)
    (item : string * model_data) :
  cheapest done acc -> cheapest (done ++ [item]) (efficient_step acc item).
Proof.
  destruct item as [model data]. unfold efficient_step.
  destruct (avgTokensUsed data) as [avg|] eqn:Eavg.
  - destruct (Qlt_bool 0 avg
              && match fst acc with
                 | Some min_tokens => Qlt_bool avg min_tokens
                 | None => true
                 end
              && (0 <? get_or (tasksAttempted data) 0)) eqn:Econd.
    + apply andb_true_iff in Econd. destruct Econd as [Econd Hatt].
      apply andb_true_iff in Econd. destruct Econd as [Hpos Hlt].
      apply Qlt_bool_iff in Hpos. apply Z.ltb_lt in Hatt.
      intro H. cbn [cheapest].
      exists done, data, [].
      split; [reflexivity|]. split; [now repeat split|].
      split; [|intros x avg' []].
      intros x avg' Hx Hc.
      destruct acc as [[mn|] [m|]]; cbn [cheapest fst] in H, Hlt;
        try contradiction.
      * apply Qlt_bool_iff in Hlt.
        destruct H as [before [data' [after [-> [Hheld [Hbefore Hafter]]]]]].
        apply in_app_or in Hx. destruct Hx as [Hx | [<- | Hx]].
        -- specialize (Hbefore x avg' Hx Hc). lra.
        -- destruct Hheld as [Hh _], Hc as [Hc' _]. cbn [snd] in Hc'.
           rewrite Hh in Hc'. injection Hc' as <-. exact Hlt.
        -- specialize (Hafter x avg' Hx Hc). lra.
      * exfalso. now apply (H x avg').
    + intro H.
      assert (Hitem : forall avg', counted data avg' ->
                exists mn, fst acc = Some mn /\ (mn <= avg')%Q).
      { intros avg' [Hs [Hpos Hatt]].
        rewrite Eavg in Hs. injection Hs as <-.
        apply Qlt_bool_iff in Hpos. apply Z.ltb_lt in Hatt.
        rewrite Hpos, Hatt in Econd. cbn [andb] in Econd.
        rewrite andb_true_r in Econd.
        destruct (fst acc) as [mn|]; [|discriminate].
        exists mn. split; [reflexivity|]. now apply Qlt_bool_false_iff. }
      destruct acc as [[mn|] [m|]]; cbn [cheapest fst] in *;
        try contradiction.
      * destruct H as [before [data' [after [-> [Hheld [Hbefore Hafter]]]]]].
        exists before, data', (after ++ [(model, data)]).
        split; [now rewrite <- app_assoc|]. split; [exact Hheld|].
        split; [exact Hbefore|].
        intros x avg' Hx Hc. apply in_app_or in Hx.
        destruct Hx as [Hx | [<- | []]]; [now apply (Hafter x)|].
        destruct (Hitem avg' Hc) as [mn' [Hmn Hle]].
        injection Hmn as <-. exact Hle.
      * intros x avg' Hx Hc. apply in_app_or in Hx.
        destruct Hx as [Hx | [<- | []]]; [now apply (H x avg')|].
        destruct (Hitem avg' Hc) as [mn' [Hmn _]]. discriminate.
  - intro H.
    assert (Hitem : forall avg', ~ counted data avg').
    { intros avg' [Hs _]. congruence. }
    destruct acc as [[mn|] [m|]]; cbn [cheapest] in *; try contradiction.
    + destruct H as [before [data' [after [-> [Hheld [Hbefore Hafter]]]]]].
      exists before, data', (after ++ [(model, data)]).
      split; [now rewrite <- app_assoc|]. split; [exact Hheld|].
      split; [exact Hbefore|].
      intros x avg' Hx Hc. apply in_app_or in Hx.
      destruct Hx as [Hx | [<- | []]]; [now apply (Hafter x)|].
      now apply Hitem in Hc.
    + intros x avg' Hx Hc. apply in_app_or in Hx.
      destruct Hx as [Hx | [<- | []]]; [now apply (H x avg')|].
      now apply Hitem in Hc.
Qed.

Lemma cheapest_loop (rest : dict model_data) :
  forall (done : dict model_data) (acc : option Q * option string),
    cheapest done acc ->
    cheapest (done ++ rest) (fold_left efficient_step rest acc).
Proof.
  induction rest as [|item rest IH]; intros done acc H; cbn [fold_left].
  - now rewrite app_nil_r.
  - replace (done ++ item :: rest) with ((done ++ [item]) ++ rest)
      by (now rewrite <- app_assoc).
    apply IH. now apply cheapest_step.
Qed.

(** X20. [mostTokenEfficient] is always present.  The model chosen has a
    stored positive average token count and at least one attempted task,
    its average is the lowest among such models, and on a tie it is the
    first in the order of the mapping; when no model qualifies the value
    is the string insufficient_data. *)
Theorem most_token_efficient_is_first_minimum (models : dict model_data) :
  dict_get "mostTokenEfficient" (Subagent.generate_recommendations models)
  = Some (or_else (most_efficient models) "insufficient_data")
  /\ cheapest models (fold_left efficient_step models (None, None))
  /\ ((forall x avg, In x models -> ~ counted (snd x) avg) ->
      dict_get "mostTokenEfficient" (Subagent.generate_recommendations models)
      = Some "insufficient_data").
Proof.
  assert (Hget : dict_get "mostTokenEfficient"
                   (Subagent.generate_recommendations models)
                 = Some (or_else (most_efficient models) "insufficient_data")).
  { unfold Subagent.generate_recommendations.
    rewrite dict_get_set_other by discriminate.
    apply dict_get_set_same. }
  pose proof (cheapest_loop models [] (None, None)) as Hloop.
  cbn [app] in Hloop.
  assert (Hinv : cheapest models (fold_left efficient_step models (None, None))).
  { apply Hloop. intros x avg []. }
  split; [exact Hget|]. split; [exact Hinv|].
  intro Hnone. rewrite Hget. unfold most_efficient.
  destruct (fold_left efficient_step models (None, None)) as [[mn|] [m|]];
    cbn [cheapest] in Hinv; try contradiction; [|reflexivity].
  destruct Hinv as [before [data [after [Heq [Hheld _]]]]].
  exfalso. apply (Hnone (m, data) mn); [|exact Hheld].
  rewrite Heq. apply in_or_app. right. now left.
Qed.

(** ** Aggregating the task log *)

Lemma dict_get_none_keys {V : Type} (k : string) (d : dict V) :
  dict_get k d = None <-> ~ In k (keys d).
Proof.
  unfold keys. induction d as [|[k' v] rest IH]; simpl.
  - tauto.
  - destruct (String.eqb_spec k k') as [-> | Hne].
    + split; [discriminate | intro H; exfalso; apply H; now left].
    + rewrite IH. split.
      * intros H [Heq | Hin]; [congruence | contradiction].
      * intros H Hin. apply H. now right.
Qed.

Lemma dict_set_nodup {V : Type} (k : string) (v : V) (d : dict V) :
  NoDup (keys d) -> NoDup (keys (dict_set k v d)).
Proof.
  intro Hnd. rewrite dict_set_keys. unfold dict_mem.
  destruct (dict_get k d) eqn:E; [exact Hnd|].
  apply dict_get_none_keys in E.
  apply NoDup_app; [exact Hnd | repeat constructor; intros [] |].
  - intros x Hx [<- | []]. contradiction.
Qed.

Lemma count_task_other (ms : dict stats) (t : task) (m : string) :
  m <> model t -> dict_get m (count_task ms t) = dict_get m ms.
Proof.
  intro Hne. unfold count_task. now apply dict_get_set_other.
Qed.

Lemma count_task_same (ms : dict stats) (t : task) :
  stats_of (model t) (count_task ms t)
  = {| st_attempted := st_attempted (stats_of (model t) ms) + 1;
       st_succeeded :=
         st_succeeded (stats_of (model t) ms)
         + (if String.eqb (status t) "success" then 1 else 0);
       totalTokens := totalTokens (stats_of (model t) ms) + tokens t;
       byTaskType :=
         dict_set (taskType t)
           {| tc_attempted :=
                tc_attempted
                  (get_or (dict_get (taskType t)
                             (byTaskType (stats_of (model t) ms)))
                          new_type_count) + 1;
              tc_succeeded :=
                tc_succeeded
                  (get_or (dict_get (taskType t)
                             (byTaskType (stats_of (model t) ms)))
                          new_type_count)
                + (if String.eqb (status t) "success" then 1 else 0) |}
           (byTaskType (stats_of (model t) ms)) |}.
Proof.
  unfold stats_of at 1. unfold count_task.
  now rewrite dict_get_set_same.
Qed.

Lemma count_task_nodup (ms : dict stats) (t : task) :
  NoDup (keys ms) -> NoDup (keys (count_task ms t)).
Proof.
  unfold count_task. apply dict_set_nodup.
Qed.

Lemma tasks_of_cons (m : string) (t : task) (log : list task) :
  tasks_of m (t :: log)
  = if String.eqb (model t) m then t :: tasks_of m log else tasks_of m log.
Proof. reflexivity. Qed.

(** The statistics of a model after the loop over the log. *)
Lemma aggregate_counts (m : string) (log : list task) :
  forall ms,
    let st := stats_of m (fold_left count_task log ms) in
    st_attempted st = st_attempted (stats_of m ms) + attempts_of m log
    /\ st_succeeded st = st_succeeded (stats_of m ms) + successes_of m log
    /\ totalTokens st = totalTokens (stats_of m ms) + tokens_of m log.
Proof.
  unfold attempts_of, successes_of, tokens_of.
  induction log as [|t rest IH]; intro ms; cbn [fold_left].
  - cbn. lia.
  - destruct (IH (count_task ms t)) as [Ha [Hs Ht]].
    rewrite Ha, Hs, Ht, tasks_of_cons.
    destruct (String.eqb_spec (model t) m) as [<- | Hne].
    + rewrite count_task_same. cbn [st_attempted st_succeeded totalTokens].
      cbn [filter map sum_Z fold_right List.length].
      destruct (String.eqb (status t) "success");
        cbn [List.length]; unfold sum_Z; lia.
    + unfold stats_of at 1 3 5.
      rewrite count_task_other by congruence.
      fold (stats_of m ms). lia.
Qed.

Lemma aggregate_membership (m : string) (log : list task) :
  forall ms,
    dict_get m (fold_left count_task log ms) = None
    <-> dict_get m ms = None /\ ~ In m (map model log).
Proof.
  induction log as [|t rest IH]; intro ms; cbn [fold_left map].
  - simpl. tauto.
  - rewrite IH.
    destruct (String.eqb_spec m (model t)) as [-> | Hne].
    + unfold count_task at 1. rewrite dict_get_set_same.
      split; [intros [H _]; discriminate|].
      intros [_ H]. exfalso. apply H. now left.
    + rewrite count_task_other by exact Hne.
      simpl. intuition congruence.
Qed.

Lemma aggregate_nodup (log : list task) :
  forall ms, NoDup (keys ms) -> NoDup (keys (fold_left count_task log ms)).
Proof.
  induction log as [|t rest IH]; intros ms H; cbn [fold_left];
    [exact H|].
  apply IH. now apply count_task_nodup.
Qed.

Lemma dict_set_not_nil {V : Type} (k : string) (v : V) (d : dict V) :
  dict_set k v d <> [].
Proof.
  destruct d as [|[k' v'] rest]; simpl; [discriminate|].
  destruct (String.eqb k k'); discriminate.
Qed.

(** Every model of the statistics has at least one task type. *)
Lemma aggregate_types (log : list task) :
  forall ms,
    (forall m st, dict_get m ms = Some st -> byTaskType st <> []) ->
    forall m st,
      dict_get m (fold_left count_task log ms) = Some st ->
      byTaskType st <> [].
Proof.
  induction log as [|t rest IH]; intros ms H; cbn [fold_left];
    [exact H|].
  apply IH. intros m st.
  destruct (String.eqb_spec m (model t)) as [-> | Hne].
  - unfold count_task. rewrite dict_get_set_same.
    intro Hst. injection Hst as <-. cbn [byTaskType]. apply dict_set_not_nil.
  - rewrite count_task_other by exact Hne. apply H.
Qed.

(** One turn of the second loop writes the entry of its model only. *)
Lemma store_model_other (stored stored' : dict model_data) (m m' : string)
    (st : stats) :
  store_model stored (m, st) = Done stored' ->
  m' <> m ->
  dict_get m' stored' = dict_get m' stored.
Proof.
  unfold store_model. intros H Hne.
  set (base := if dict_mem m stored then stored
               else dict_set m new_model stored) in *.
  assert (Hbase : dict_get m' base = dict_get m' stored).
  { unfold base. destruct (dict_mem m stored); [reflexivity|].
    now apply dict_get_set_other. }
  destruct (byTaskType st) as [|c rest];
    destruct (taskTypes (get_or (dict_get m base) new_model)) as [types|];
    try discriminate;
    injection H as <-; rewrite dict_get_set_other by exact Hne; exact Hbase.
Qed.

Lemma store_model_same (stored : dict model_data) (m : string) (st : stats) :
  with_task_types stored ->
  exists stored' e,
    store_model stored (m, st) = Done stored'
    /\ dict_get m stored' = Some e
    /\ summarizes e st
    /\ taskTypes e <> None.
Proof.
  intro Hwf. unfold store_model.
  set (base := if dict_mem m stored then stored
               else dict_set m new_model stored).
  assert (Htypes : taskTypes (get_or (dict_get m base) new_model) <> None).
  { unfold base, dict_mem.
    destruct (dict_get m stored) as [e|] eqn:E.
    - rewrite E. cbn [get_or]. exact (Hwf m e E).
    - rewrite dict_get_set_same. discriminate. }
  destruct (taskTypes (get_or (dict_get m base) new_model)) as [types|] eqn:Et;
    [|congruence].
  destruct (byTaskType st) as [|c rest];
    (eexists _, _; split; [reflexivity|];
     split; [apply dict_get_set_same|];
     split; [repeat split | discriminate]).
Qed.

Lemma store_model_keeps_task_types (stored stored' : dict model_data)
    (m : string) (st : stats) :
  with_task_types stored ->
  store_model stored (m, st) = Done stored' ->
  with_task_types stored'.
Proof.
  intros Hwf H m' e He.
  destruct (String.eqb_spec m' m) as [-> | Hne].
  - destruct (store_model_same stored m st Hwf)
      as [stored'' [e' [H' [He' [_ Ht]]]]].
    rewrite H in H'. injection H' as <-. congruence.
  - rewrite (store_model_other _ _ _ _ _ H Hne) in He. exact (Hwf m' e He).
Qed.

Lemma store_models_raised (items : dict stats) (key : string) :
  fold_left
    (fun acc item =>
       match acc with
       | Done stored => store_model stored item
       | KeyError k => KeyError k
       end)
    items (KeyError key) = KeyError key.
Proof.
  induction items as [|item rest IH]; [reflexivity | exact IH].
Qed.

(** The second loop: every model of the statistics gets an entry that
    agrees with them, and the other entries stay as they were. *)
Lemma store_models_spec (items : dict stats) :
  forall stored,
    with_task_types stored ->
    NoDup (keys items) ->
    exists stored',
      store_models stored items = Done stored'
      /\ with_task_types stored'
      /\ (forall m, dict_get m items = None ->
            dict_get m stored' = dict_get m stored)
      /\ (forall m st, dict_get m items = Some st ->
            exists e, dict_get m stored' = Some e /\ summarizes e st).
Proof.
  unfold store_models.
  induction items as [|[m0 st0] rest IH]; intros stored Hwf Hnd.
  - exists stored. cbn. repeat split; auto. intros m st H. discriminate.
  - cbn [fold_left].
    destruct (store_model_same stored m0 st0 Hwf)
      as [stored1 [e0 [Hstep [He0 [Hsum0 _]]]]].
    rewrite Hstep.
    pose proof (store_model_keeps_task_types _ _ _ _ Hwf Hstep) as Hwf1.
    unfold keys in Hnd. cbn [map fst] in Hnd.
    inversion Hnd as [|? ? Hnotin Hnd']; subst.
    destruct (IH stored1 Hwf1 Hnd') as [stored' [Hrun [Hwf' [Hframe Hentry]]]].
    exists stored'. split; [exact Hrun|]. split; [exact Hwf'|]. split.
    + intros m Hm. cbn [dict_get] in Hm.
      destruct (String.eqb m m0) eqn:E; [discriminate|].
      apply String.eqb_neq in E.
      rewrite (Hframe m Hm).
      now apply (store_model_other _ _ _ _ _ Hstep).
    + intros m st Hm. cbn [dict_get] in Hm.
      destruct (String.eqb m m0) eqn:E.
      * apply String.eqb_eq in E. subst m.
        injection Hm as <-. exists e0. split; [|exact Hsum0].
        rewrite Hframe; [exact He0|].
        now apply dict_get_none_keys.
      * now apply Hentry.
Qed.

Lemma successes_le_attempts (m : string) (log : list task) :
  0 <= successes_of m log <= attempts_of m log.
Proof.
  unfold successes_of, attempts_of.
  pose proof (filter_length_bound
                (fun t => String.eqb (status t) "success") (tasks_of m log)).
  lia.
Qed.

Lemma floor_log2_nonpos (n d : positive) :
  Zpos n <= Zpos d -> floor_log2 n d <= 0.
Proof.
  intro H. unfold floor_log2.
  pose proof (Z.log2_le_mono _ _ H) as Hlog.
  destruct (0 <=? Z.log2 (Zpos n) - Z.log2 (Zpos d));
    match goal with |- (if ?c then _ else _) <= 0 => destruct c end; lia.
Qed.

(** The float nearest to a rational of [0,1] lies in [0,1]. *)
Lemma nearest_binary64_unit (n d : positive) :
  Zpos n <= Zpos d -> (0 <= nearest_binary64 n d <= 1)%Q.
Proof.
  intro H. unfold nearest_binary64.
  pose proof (floor_log2_nonpos n d H) as Hlog.
  destruct (Z.max (floor_log2 n d - 52) (-1074)) as [|p|p] eqn:Eshift;
    try lia.
  cbn [Z.opp scale2].
  set (P := 2 ^ Zpos p).
  assert (HP : 0 < P) by (apply Z.pow_pos_nonneg; lia).
  assert (HPq : (0 < inject_Z P)%Q)
    by (change 0%Q with (inject_Z 0); rewrite <- Zlt_Qlt; exact HP).
  assert (Hq : (0 <= Zpos n # d <= 1)%Q).
  { split; unfold Qle; cbn [Qnum Qden]; lia. }
  assert (Hlo : 0 <= round_half_even ((Zpos n # d) * inject_Z P)).
  { apply round_half_even_lower. change (inject_Z 0) with 0%Q.
    apply Qmult_le_0_compat; lra. }
  assert (Hhi : round_half_even ((Zpos n # d) * inject_Z P) <= P).
  { apply round_half_even_upper.
    setoid_replace (inject_Z P) with (1 * inject_Z P)%Q at 2 by ring.
    apply Qmult_le_compat_r; lra. }
  apply ratio_in_unit_interval; lia.
Qed.

Lemma binary64_unit (q : Q) :
  (0 <= q <= 1)%Q -> (0 <= binary64 q <= 1)%Q.
Proof.
  destruct q as [n d]. intros [Hlo Hhi].
  unfold binary64. cbn [Qnum Qden].
  destruct n as [|n|n].
  - lra.
  - apply nearest_binary64_unit.
    unfold Qle in Hhi. cbn [Qnum Qden] in Hhi. lia.
  - unfold Qle in Hlo. cbn [Qnum Qden] in Hlo. lia.
Qed.

Lemma first_pass_rate_range (succeeded attempted : Z) :
  0 <= succeeded <= attempted ->
  (0 <= first_pass_rate succeeded attempted <= 1)%Q.
Proof.
  intro H. unfold first_pass_rate.
  destruct (0 <? attempted) eqn:E; [|lra].
  apply Z.ltb_lt in E.
  apply (py_round_between 0 1).
  change (inject_Z 0) with 0%Q. change (inject_Z 1) with 1%Q.
  apply binary64_unit.
  apply ratio_in_unit_interval; lia.
Qed.

(** The rounding is that of the float: 3 of 40 is stored as 0.07, the
    float [3 / 40] lying just below 0.075; 1 of 8, a float that is a tie,
    is stored as 0.12. *)
Example first_pass_rate_of_floats :
  (first_pass_rate 3 40 == 0.07)%Q
  /\ (first_pass_rate 1 8 == 0.12)%Q
  /\ (first_pass_rate 2 3 == 0.67)%Q
  /\ (first_pass_rate 5 5 == 1)%Q.
Proof. repeat split. Qed.

(** What a run stores, for stored data in which every model has its
    task types. *)
Lemma analyze_effectiveness_spec (now : string) (file : option subagent_data)
    (log : list task) :
  with_task_types (Subagent.models (load_subagent_data file)) ->
  exists data',
    analyze_effectiveness now file log = Done data'
    /\ (forall m, ~ In m (map model log) ->
          dict_get m (Subagent.models data')
          = dict_get m (Subagent.models (load_subagent_data file)))
    /\ (forall m, In m (map model log) ->
          exists e,
            dict_get m (Subagent.models data') = Some e
            /\ tasksAttempted e = Some (attempts_of m log)
            /\ tasksSucceeded e = Some (successes_of m log)
            /\ totalTokensUsed e = Some (tokens_of m log)
            /\ firstPassRate e
               = Some (first_pass_rate (successes_of m log)
                                       (attempts_of m log))).
Proof.
  intro Hwf. unfold analyze_effectiveness.
  set (ms := fold_left count_task log []).
  destruct (store_models_spec ms _ Hwf) as [stored' [Hrun [_ [Hframe Hentry]]]].
  { apply aggregate_nodup. constructor. }
  rewrite Hrun. eexists. split; [reflexivity|]. cbn [Subagent.models].
  split.
  - intros m Hm. apply Hframe.
    apply aggregate_membership. split; [reflexivity | exact Hm].
  - intros m Hm.
    destruct (dict_get m ms) as [st|] eqn:Est.
    + destruct (Hentry m st Est) as [e [He [Ha [Hs [Ht Hr]]]]].
      pose proof (aggregate_counts m log []) as Hcounts.
      fold ms in Hcounts. unfold stats_of in Hcounts.
      rewrite Est in Hcounts. cbn in Hcounts.
      destruct Hcounts as [Hca [Hcs Hct]].
      exists e. rewrite Ha, Hs, Ht, Hr, Hca, Hcs, Hct. auto.
    + apply aggregate_membership in Est. tauto.
Qed.

(** X21. For stored data in which every model has its task types, a run
    completes and stores, for every model that occurs in the task log,
    the number of its tasks, the number of its tasks with status
    success, the sum of their tokens, and the first-pass rate computed
    from these two counts; what was stored for the model before does not
    enter the result. *)
Theorem analyze_effectiveness_counts (now : string)
    (file : option subagent_data) (log : list task) (m : string) :
  with_task_types (Subagent.models (load_subagent_data file)) ->
  In m (map model log) ->
  exists data' e,
    analyze_effectiveness now file log = Done data'
    /\ dict_get m (Subagent.models data') = Some e
    /\ tasksAttempted e = Some (attempts_of m log)
    /\ tasksSucceeded e = Some (successes_of m log)
    /\ totalTokensUsed e = Some (tokens_of m log)
    /\ firstPassRate e
       = Some (first_pass_rate (successes_of m log) (attempts_of m log)).
Proof.
  intros Hwf Hm.
  destruct (analyze_effectiveness_spec now file log Hwf)
    as [data' [Hrun [_ Hentry]]].
  destruct (Hentry m Hm) as [e He].
  exists data', e. auto.
Qed.

(** X22. A model that does not occur in the task log keeps the entry it
    had in the stored data, rates included: stale figures are carried
    over and still take part in the comparison. *)
Theorem analyze_effectiveness_keeps_absent_models (now : string)
    (file : option subagent_data) (log : list task) (m : string) :
  with_task_types (Subagent.models (load_subagent_data file)) ->
  ~ In m (map model log) ->
  exists data',
    analyze_effectiveness now file log = Done data'
    /\ dict_get m (Subagent.models data')
       = dict_get m (Subagent.models (load_subagent_data file)).
Proof.
  intros Hwf Hm.
  destruct (analyze_effectiveness_spec now file log Hwf)
    as [data' [Hrun [Hframe _]]].
  exists data'. auto.
Qed.

(** X23. For every model of the task log the stored number of succeeded
    tasks is at most the stored number of attempted tasks, and the
    stored first-pass rate lies in [0,1]. *)
Theorem analyze_effectiveness_rate_in_unit_interval (now : string)
    (file : option subagent_data) (log : list task) (m : string) :
  with_task_types (Subagent.models (load_subagent_data file)) ->
  In m (map model log) ->
  exists data' e attempted_ succeeded_ rate,
    analyze_effectiveness now file log = Done data'
    /\ dict_get m (Subagent.models data') = Some e
    /\ tasksAttempted e = Some attempted_
    /\ tasksSucceeded e = Some succeeded_
    /\ firstPassRate e = Some rate
    /\ 0 <= succeeded_ <= attempted_
    /\ (0 <= rate <= 1)%Q.
Proof.
  intros Hwf Hm.
  destruct (analyze_effectiveness_spec now file log Hwf)
    as [data' [Hrun [_ Hentry]]].
  destruct (Hentry m Hm) as [e [He [Ha [Hs [_ Hr]]]]].
  exists data', e, (attempts_of m log), (successes_of m log),
    (first_pass_rate (successes_of m log) (attempts_of m log)).
  pose proof (successes_le_attempts m log) as Hle.
  repeat split; try assumption; try lia;
    now apply first_pass_rate_range.
Qed.

Lemma store_model_key_error (stored : dict model_data) (m : string)
    (st : stats) (e : model_data) :
  dict_get m stored = Some e ->
  taskTypes e = None ->
  byTaskType st <> [] ->
  store_model stored (m, st) = KeyError "taskTypes".
Proof.
  intros He Ht Hby. unfold store_model, dict_mem.
  rewrite He. cbn [get_or]. rewrite He. cbn [get_or]. rewrite Ht.
  destruct (byTaskType st); [congruence | reflexivity].
Qed.

Lemma store_model_raises_only (stored : dict model_data)
    (item : string * stats) (key : string) :
  store_model stored item = KeyError key -> key = "taskTypes".
Proof.
  destruct item as [m st]. unfold store_model.
  destruct (byTaskType st);
    destruct (taskTypes _); try discriminate.
  intro H. now injection H.
Qed.

Lemma store_models_key_error (m : string) (st : stats) (e : model_data)
    (items : dict stats) :
  forall stored,
    NoDup (keys items) ->
    In (m, st) items ->
    byTaskType st <> [] ->
    dict_get m stored = Some e ->
    taskTypes e = None ->
    store_models stored items = KeyError "taskTypes".
Proof.
  unfold store_models.
  induction items as [|[m0 st0] rest IH];
    intros stored Hnd Hin Hby He Ht; [destruct Hin|].
  cbn [fold_left].
  destruct (store_model stored (m0, st0)) as [stored1|key] eqn:Hstep.
  - unfold keys in Hnd. cbn [map fst] in Hnd.
    inversion Hnd as [|? ? Hnotin Hnd']; subst.
    destruct Hin as [Heq | Hin].
    + injection Heq as -> ->.
      rewrite (store_model_key_error stored m st e He Ht Hby) in Hstep.
      discriminate.
    + assert (Hne : m <> m0).
      { intros ->. apply Hnotin. apply (in_map fst) in Hin. exact Hin. }
      apply IH; try assumption.
      now rewrite (store_model_other _ _ _ _ _ Hstep Hne).
  - apply store_model_raises_only in Hstep. subst key.
    apply store_models_raised.
Qed.

(** X24. If a model of the task log is stored without a [taskTypes]
    object, the run raises [KeyError] on that key and nothing is written,
    whatever the other models are. *)
Theorem analyze_effectiveness_key_error (now : string)
    (file : option subagent_data) (log : list task) (m : string)
    (e : model_data) :
  In m (map model log) ->
  dict_get m (Subagent.models (load_subagent_data file)) = Some e ->
  taskTypes e = None ->
  analyze_effectiveness now file log = KeyError "taskTypes".
Proof.
  intros Hm He Ht. unfold analyze_effectiveness.
  set (ms := fold_left count_task log []).
  destruct (dict_get m ms) as [st|] eqn:Est.
  - rewrite (store_models_key_error m st e ms); try assumption;
      [reflexivity | | |].
    + apply aggregate_nodup. constructor.
    + now apply dict_get_in.
    + apply (aggregate_types log []) with (m := m); [|exact Est].
      intros m' st' H. discriminate.
  - apply aggregate_membership in Est. tauto.
Qed.

(** The file the script starts from has task types everywhere. *)
Lemma default_file_with_task_types :
  with_task_types (Subagent.models (load_subagent_data None)).
Proof.
  intros m e H. cbn in H.
  repeat (destruct (String.eqb m _); [injection H as <-; discriminate|]).
  discriminate.
Qed.

Lemma analyze_effectiveness_counts_witness :
  exists data' e,
    analyze_effectiveness "2025-01-02T00:00:00" None sample_log = Done data'
    /\ dict_get "deepseek" (Subagent.models data') = Some e
    /\ tasksAttempted e = Some 2
    /\ tasksSucceeded e = Some 1
    /\ totalTokensUsed e = Some 320.
Proof.
  destruct (analyze_effectiveness_counts "2025-01-02T00:00:00" None
              sample_log "deepseek")
    as [data' [e [Hrun [He [Ha [Hs [Ht _]]]]]]].
  - exact default_file_with_task_types.
  - simpl. tauto.
  - exists data', e. auto.
Defined.

Lemma analyze_effectiveness_keeps_absent_models_witness :
  exists data',
    analyze_effectiveness "2025-01-02T00:00:00" None sample_log = Done data'
    /\ dict_get "claude" (Subagent.models data') = Some new_model.
Proof.
  destruct (analyze_effectiveness_keeps_absent_models "2025-01-02T00:00:00"
              None sample_log "claude") as [data' [Hrun Hkeep]].
  - exact default_file_with_task_types.
  - simpl. intuition discriminate.
  - exists data'. split; [exact Hrun | exact Hkeep].
Defined.

Lemma analyze_effectiveness_rate_in_unit_interval_witness :
  exists data' e rate,
    analyze_effectiveness "2025-01-02T00:00:00" None sample_log = Done data'
    /\ dict_get "qwen" (Subagent.models data') = Some e
    /\ firstPassRate e = Some rate
    /\ (0 <= rate <= 1)%Q.
Proof.
  destruct (analyze_effectiveness_rate_in_unit_interval
              "2025-01-02T00:00:00" None sample_log "qwen")
    as [data' [e [a [s [rate [Hrun [He [_ [_ [Hr [_ Hrange]]]]]]]]]]].
  - exact default_file_with_task_types.
  - simpl. tauto.
  - exists data', e, rate. auto.
Defined.

Lemma analyze_effectiveness_key_error_witness :
  analyze_effectiveness "2025-01-02T00:00:00" (Some file_without_task_types)
    sample_log = KeyError "taskTypes".
Proof.
  eapply (analyze_effectiveness_key_error _ _ _ "deepseek").
  - simpl. tauto.
  - reflexivity.
  - reflexivity.
Defined.

(** The run on the example log, evaluated. *)
Example analyze_effectiveness_sample :
  match analyze_effectiveness "2025-01-02T00:00:00" None sample_log with
  | Done data' =>
      keys (Subagent.models data') = ["deepseek"; "qwen"; "claude"]
      /\ Subagent.comparisonMetrics data'
         = Some [("bestFor_refactor", "deepseek"); ("bestFor_tests", "qwen");
                 ("mostTokenEfficient", "qwen");
                 ("highestQuality", "insufficient_data")]
  | KeyError _ => False
  end.
Proof. split; reflexivity. Qed.

(** ** Task types of the log *)

Lemma type_tasks_cons (m t : string) (x : task) (log : list task) :
  type_tasks m t (x :: log)
  = if String.eqb (model x) m && String.eqb (taskType x) t
    then x :: type_tasks m t log else type_tasks m t log.
Proof.
  unfold type_tasks. rewrite tasks_of_cons.
  destruct (String.eqb (model x) m); cbn [andb filter]; [|reflexivity].
  destruct (String.eqb (taskType x) t); reflexivity.
Qed.

Lemma type_count_of_step (m t : string) (ms : dict stats) (x : task) :
  type_count_of m t (count_task ms x)
  = if String.eqb (model x) m && String.eqb (taskType x) t
    then {| tc_attempted := tc_attempted (type_count_of m t ms) + 1;
            tc_succeeded :=
              tc_succeeded (type_count_of m t ms)
              + (if String.eqb (status x) "success" then 1 else 0) |}
    else type_count_of m t ms.
Proof.
  unfold type_count_of.
  destruct (String.eqb_spec (model x) m) as [<- | Hm]; cbn [andb].
  - rewrite count_task_same. cbn [byTaskType].
    destruct (String.eqb_spec (taskType x) t) as [<- | Ht].
    + now rewrite dict_get_set_same.
    + rewrite dict_get_set_other by congruence. reflexivity.
  - unfold stats_of. rewrite count_task_other by congruence. reflexivity.
Qed.

(** The counts of a model on a task type after the loop over the log. *)
Lemma aggregate_type_counts (m t : string) (log : list task) :
  forall ms,
    tc_attempted (type_count_of m t (fold_left count_task log ms))
    = tc_attempted (type_count_of m t ms) + type_attempts m t log
    /\ tc_succeeded (type_count_of m t (fold_left count_task log ms))
       = tc_succeeded (type_count_of m t ms) + type_successes m t log.
Proof.
  unfold type_attempts, type_successes.
  induction log as [|x rest IH]; intro ms; cbn [fold_left].
  - cbn. lia.
  - destruct (IH (count_task ms x)) as [Ha Hs].
    rewrite Ha, Hs, type_count_of_step, type_tasks_cons.
    destruct (String.eqb (model x) m && String.eqb (taskType x) t);
      [|lia].
    cbn [tc_attempted tc_succeeded filter].
    destruct (String.eqb (status x) "success"); cbn [List.length]; lia.
Qed.

Lemma type_present_step (m t : string) (ms : dict stats) (x : task) :
  dict_get t (byTaskType (stats_of m ms)) <> None
  \/ (model x = m /\ taskType x = t) ->
  dict_get t (byTaskType (stats_of m (count_task ms x))) <> None.
Proof.
  intro H.
  destruct (String.eqb_spec (model x) m) as [<- | Hm].
  - rewrite count_task_same. cbn [byTaskType].
    destruct (String.eqb_spec (taskType x) t) as [<- | Ht].
    + rewrite dict_get_set_same. discriminate.
    + rewrite dict_get_set_other by congruence.
      destruct H as [H | [_ H]]; [exact H | congruence].
  - unfold stats_of in *. rewrite count_task_other by congruence.
    destruct H as [H | [H _]]; [exact H | congruence].
Qed.

Lemma aggregate_type_present (m t : string) (log : list task) :
  forall ms,
    dict_get t (byTaskType (stats_of m ms)) <> None
    \/ In (m, t) (map (fun x => (model x, taskType x)) log) ->
    dict_get t (byTaskType (stats_of m (fold_left count_task log ms))) <> None.
Proof.
  induction log as [|x rest IH]; intros ms H; cbn [fold_left].
  - destruct H as [H | []]. exact H.
  - apply IH. cbn [map] in H.
    destruct H as [H | [H | H]].
    + left. apply type_present_step. now left.
    + left. apply type_present_step. right. now injection H.
    + now right.
Qed.

Lemma aggregate_distinct_types (log : list task) :
  forall ms, distinct_types ms -> distinct_types (fold_left count_task log ms).
Proof.
  induction log as [|x rest IH]; intros ms H; cbn [fold_left];
    [exact H|].
  apply IH. intros m st.
  destruct (String.eqb_spec m (model x)) as [-> | Hne].
  - unfold count_task. rewrite dict_get_set_same.
    intro Hst. injection Hst as <-. cbn [byTaskType].
    apply dict_set_nodup.
    destruct (dict_get (model x) ms) as [st0|] eqn:E; cbn [get_or].
    + exact (H _ _ E).
    + constructor.
  - rewrite count_task_other by exact Hne. apply H.
Qed.

(** The inner loop writes the entry of every task type of the
    statistics. *)
Lemma store_task_types_get (t : string) (by_type : dict type_count) :
  forall types tc,
    NoDup (keys by_type) ->
    dict_get t by_type = Some tc ->
    dict_get t (store_task_types types by_type)
    = Some (type_entry (tc_attempted tc) (tc_succeeded tc)).
Proof.
  unfold store_task_types.
  assert (Hkeep : forall items types v,
            dict_get t items = None ->
            dict_get t types = Some v ->
            dict_get t
              (fold_left
                 (fun types item =>
                    dict_set (fst item)
                      {| attempted := Some (tc_attempted (snd item));
                         succeeded := Some (tc_succeeded (snd item));
                         type_firstPassRate :=
                           Some (first_pass_rate (tc_succeeded (snd item))
                                                 (tc_attempted (snd item))) |}
                      types)
                 items types) = Some v).
  { induction items as [|[t0 tc0] rest IH]; intros types v Hnone Hv;
      cbn [fold_left]; [exact Hv|].
    cbn [dict_get] in Hnone.
    destruct (String.eqb t t0) eqn:E; [discriminate|].
    apply String.eqb_neq in E.
    apply IH; [exact Hnone|].
    cbn [fst]. now rewrite dict_get_set_other. }
  induction by_type as [|[t0 tc0] rest IH]; intros types tc Hnd Hget;
    [discriminate|].
  cbn [fold_left fst snd].
  unfold keys in Hnd. cbn [map fst] in Hnd.
  inversion Hnd as [|? ? Hnotin Hnd']; subst.
  cbn [dict_get] in Hget.
  destruct (String.eqb t t0) eqn:E.
  - apply String.eqb_eq in E. subst t0. injection Hget as <-.
    apply Hkeep.
    + now apply dict_get_none_keys.
    + apply dict_get_set_same.
  - now apply IH.
Qed.

Lemma store_model_types (stored stored' : dict model_data) (m : string)
    (st : stats) :
  with_task_types stored ->
  NoDup (keys (byTaskType st)) ->
  store_model stored (m, st) = Done stored' ->
  exists e, dict_get m stored' = Some e /\ summarizes_types e st.
Proof.
  intros Hwf Hnd. unfold store_model.
  set (base := if dict_mem m stored then stored
               else dict_set m new_model stored).
  assert (Htypes : taskTypes (get_or (dict_get m base) new_model) <> None).
  { unfold base, dict_mem.
    destruct (dict_get m stored) as [e|] eqn:E.
    - rewrite E. cbn [get_or]. exact (Hwf m e E).
    - rewrite dict_get_set_same. discriminate. }
  destruct (taskTypes (get_or (dict_get m base) new_model)) as [types|] eqn:Et;
    [|congruence].
  intro H.
  assert (Hdone : stored'
            = dict_set m
                {| tasksAttempted := Some (st_attempted st);
                   tasksSucceeded := Some (st_succeeded st);
                   taskTypes := Some (store_task_types types (byTaskType st));
                   commonFailures :=
                     commonFailures (get_or (dict_get m base) new_model);
                   firstPassRate :=
                     Some (first_pass_rate (st_succeeded st) (st_attempted st));
                   avgTokensUsed :=
                     Some (inject_Z
                             (if 0 <? st_attempted st
                              then round_half_even
                                     (binary64
                                        (inject_Z (totalTokens st)
                                         / inject_Z (st_attempted st)))
                              else 0));
                   totalTokensUsed := Some (totalTokens st) |}
                base).
  { destruct (byTaskType st); injection H as <-; reflexivity. }
  rewrite Hdone. eexists. split; [apply dict_get_set_same|].
  eexists. split; [reflexivity|].
  intros t tc Ht. now apply store_task_types_get.
Qed.

Lemma store_models_types (items : dict stats) :
  forall stored stored',
    with_task_types stored ->
    NoDup (keys items) ->
    distinct_types items ->
    store_models stored items = Done stored' ->
    forall m st,
      dict_get m items = Some st ->
      exists e, dict_get m stored' = Some e /\ summarizes_types e st.
Proof.
  induction items as [|[m0 st0] rest IH];
    intros stored stored' Hwf Hnd Hdist Hrun m st Hm; [discriminate|].
  destruct (store_model_same stored m0 st0 Hwf)
    as [stored1 [e0 [Hstep _]]].
  pose proof (store_model_keeps_task_types _ _ _ _ Hwf Hstep) as Hwf1.
  unfold store_models in Hrun. cbn [fold_left] in Hrun.
  rewrite Hstep in Hrun. fold (store_models stored1 rest) in Hrun.
  unfold keys in Hnd. cbn [map fst] in Hnd.
  inversion Hnd as [|? ? Hnotin Hnd']; subst.
  cbn [dict_get] in Hm.
  destruct (String.eqb m m0) eqn:E.
  - apply String.eqb_eq in E. subst m0. injection Hm as ->.
    destruct (store_model_types stored stored1 m st Hwf) as [e [He Hsum]];
      [| exact Hstep |].
    + apply (Hdist m). cbn [dict_get]. now rewrite String.eqb_refl.
    + exists e. split; [|exact Hsum].
      destruct (store_models_spec rest stored1 Hwf1 Hnd')
        as [stored'' [Hrun' [_ [Hframe _]]]].
      rewrite Hrun in Hrun'. injection Hrun' as <-.
      rewrite Hframe; [exact He|]. now apply dict_get_none_keys.
  - apply (IH stored1 stored' Hwf1 Hnd'); try assumption.
    intros m' st' Hm'. apply (Hdist m').
    cbn [dict_get].
    destruct (String.eqb m' m0) eqn:E'; [|exact Hm'].
    apply String.eqb_eq in E'. subst m'.
    apply dict_get_in, (in_map fst) in Hm'. contradiction.
Qed.

Lemma store_model_nodup (stored stored' : dict model_data)
    (item : string * stats) :
  NoDup (keys stored) ->
  store_model stored item = Done stored' ->
  NoDup (keys stored').
Proof.
  destruct item as [m st]. intros Hnd. unfold store_model.
  set (base := if dict_mem m stored then stored
               else dict_set m new_model stored).
  assert (Hbase : NoDup (keys base)).
  { unfold base. destruct (dict_mem m stored); [exact Hnd|].
    now apply dict_set_nodup. }
  destruct (byTaskType st);
    destruct (taskTypes (get_or (dict_get m base) new_model));
    try discriminate;
    intro H; injection H as <-; now apply dict_set_nodup.
Qed.

Lemma store_models_nodup (items : dict stats) :
  forall stored stored',
    NoDup (keys stored) ->
    store_models stored items = Done stored' ->
    NoDup (keys stored').
Proof.
  unfold store_models.
  induction items as [|item rest IH]; intros stored stored' Hnd Hrun;
    cbn [fold_left] in Hrun.
  - now injection Hrun as <-.
  - destruct (store_model stored item) as [stored1|key] eqn:Hstep.
    + apply (IH stored1 stored'); [|exact Hrun].
      now apply (store_model_nodup stored stored1 item).
    + rewrite store_models_raised in Hrun. discriminate.
Qed.

(** The entry of a model of the log on one of its task types. *)
Lemma analyze_effectiveness_types (now : string)
    (file : option subagent_data) (log : list task) (m t : string) :
  with_task_types (Subagent.models (load_subagent_data file)) ->
  In (m, t) (map (fun x => (model x, taskType x)) log) ->
  exists data' e tts,
    analyze_effectiveness now file log = Done data'
    /\ Subagent.comparisonMetrics data'
       = Some (Subagent.generate_recommendations (Subagent.models data'))
    /\ (NoDup (keys (Subagent.models (load_subagent_data file))) ->
        NoDup (keys (Subagent.models data')))
    /\ dict_get m (Subagent.models data') = Some e
    /\ taskTypes e = Some tts
    /\ dict_get t tts
       = Some (type_entry (type_attempts m t log) (type_successes m t log)).
Proof.
  intros Hwf Hpair. unfold analyze_effectiveness.
  set (ms := fold_left count_task log []).
  assert (Hnd : NoDup (keys ms)) by (apply aggregate_nodup; constructor).
  assert (Hdist : distinct_types ms).
  { apply aggregate_distinct_types. intros m' st' H. discriminate. }
  destruct (store_models_spec ms _ Hwf Hnd) as [stored' [Hrun _]].
  rewrite Hrun.
  pose proof (aggregate_type_present m t log [] (or_intror Hpair)) as Hpresent.
  fold ms in Hpresent.
  destruct (dict_get m ms) as [st|] eqn:Est.
  - destruct (store_models_types ms _ _ Hwf Hnd Hdist Hrun m st Est)
      as [e [He [tts [Htts Hall]]]].
    unfold stats_of in Hpresent. rewrite Est in Hpresent.
    cbn [get_or] in Hpresent.
    destruct (dict_get t (byTaskType st)) as [tc|] eqn:Etc; [|congruence].
    destruct (aggregate_type_counts m t log []) as [Ha Hs].
    fold ms in Ha, Hs. unfold type_count_of, stats_of in Ha, Hs.
    rewrite Est in Ha, Hs. cbn [get_or] in Ha, Hs.
    rewrite Etc in Ha, Hs. cbn in Ha, Hs.
    eexists _, e, tts. split; [reflexivity|].
    cbn [Subagent.models Subagent.comparisonMetrics].
    split; [reflexivity|]. split.
    + intro Hkeys. now apply (store_models_nodup ms _ _ Hkeys Hrun).
    + split; [exact He|]. split; [exact Htts|].
      rewrite (Hall t tc Etc), Ha, Hs. reflexivity.
  - exfalso. apply aggregate_membership in Est. destruct Est as [_ Hnot].
    apply Hnot. apply (in_map fst) in Hpair. rewrite map_map in Hpair.
    exact Hpair.
Qed.

(** X25. For stored data in which every model has its task types, a run
    stores for every pair of a model and a task type that occurs in the
    task log the number of such tasks, the number of them with status
    success, and the first-pass rate computed from the two. *)
Theorem analyze_effectiveness_type_counts (now : string)
    (file : option subagent_data) (log : list task) (m t : string) :
  with_task_types (Subagent.models (load_subagent_data file)) ->
  In (m, t) (map (fun x => (model x, taskType x)) log) ->
  exists data' e tts,
    analyze_effectiveness now file log = Done data'
    /\ dict_get m (Subagent.models data') = Some e
    /\ taskTypes e = Some tts
    /\ dict_get t tts
       = Some (type_entry (type_attempts m t log) (type_successes m t log)).
Proof.
  intros Hwf Hpair.
  destruct (analyze_effectiveness_types now file log m t Hwf Hpair)
    as [data' [e [tts [Hrun [_ [_ [He [Htts Ht]]]]]]]].
  exists data', e, tts. auto.
Qed.

Lemma analyze_effectiveness_type_counts_witness :
  exists data' e tts,
    analyze_effectiveness "2025-01-02T00:00:00" None sample_log = Done data'
    /\ dict_get "deepseek" (Subagent.models data') = Some e
    /\ taskTypes e = Some tts
    /\ dict_get "refactor" tts = Some (type_entry 2 1).
Proof.
  apply (analyze_effectiveness_type_counts "2025-01-02T00:00:00" None
           sample_log "deepseek" "refactor").
  - exact default_file_with_task_types.
  - simpl. tauto.
Defined.

(** X26. A model all of whose tasks of some type failed in the task log
    is not named best for that type in the comparison written by the
    run, even if it is the only model that attempted the type. *)
Theorem analyze_effectiveness_failed_type_not_best (now : string)
    (file : option subagent_data) (log : list task) (m t : string) :
  with_task_types (Subagent.models (load_subagent_data file)) ->
  NoDup (keys (Subagent.models (load_subagent_data file))) ->
  In (m, t) (map (fun x => (model x, taskType x)) log) ->
  type_successes m t log = 0 ->
  exists data' metrics,
    analyze_effectiveness now file log = Done data'
    /\ Subagent.comparisonMetrics data' = Some metrics
    /\ dict_get (best_for_key t) metrics <> Some m.
Proof.
  intros Hwf Hkeys Hpair Hzero.
  destruct (analyze_effectiveness_types now file log m t Hwf Hpair)
    as [data' [e [tts [Hrun [Hmetrics [Hnd [He [Htts Ht]]]]]]]].
  exists data', (Subagent.generate_recommendations (Subagent.models data')).
  split; [exact Hrun|]. split; [exact Hmetrics|].
  intro Hbest.
  apply best_for_entry, best_model_for_positive in Hbest.
  destruct Hbest as [e' [rate [Hin [Hrate Hpos]]]].
  apply dict_get_in in He.
  rewrite (keys_unique _ m e' e (Hnd Hkeys) Hin He) in Hrate.
  unfold rate_on in Hrate. rewrite Htts in Hrate. cbn [get_or] in Hrate.
  rewrite Ht, Hzero in Hrate. cbn [type_entry type_firstPassRate get_or] in Hrate.
  injection Hrate as <-.
  pose proof (first_pass_rate_no_success (type_attempts m t log)) as H0.
  lra.
Qed.

Lemma analyze_effectiveness_failed_type_not_best_witness :
  exists data' metrics,
    analyze_effectiveness "2025-01-02T00:00:00" None
      [ {| timestamp := "2025-01-01T10:00:00"; model := "qwen";
           taskType := "docs"; status := "failure"; tokens := 75 |} ]
    = Done data'
    /\ Subagent.comparisonMetrics data' = Some metrics
    /\ dict_get (best_for_key "docs") metrics <> Some "qwen".
Proof.
  apply analyze_effectiveness_failed_type_not_best.
  - exact default_file_with_task_types.
  - repeat constructor; simpl; intuition discriminate.
  - simpl. tauto.
  - reflexivity.
Defined.

(** ** Monotonicity of the composite *)

Lemma round_half_even_monotone (x y : Q) :
  (x <= y)%Q -> round_half_even x <= round_half_even y.
Proof.
  intro Hle.
  pose proof (Qfloor_resp_le _ _ Hle) as Hfloor.
  destruct (Z.eq_dec (Qfloor x) (Qfloor y)) as [Heq | Hne].
  - unfold round_half_even. rewrite Heq.
    destruct (x - inject_Z (Qfloor y) ?= 1 # 2)%Q eqn:Ex;
      destruct (y - inject_Z (Qfloor y) ?= 1 # 2)%Q eqn:Ey;
      repeat match goal with
             | H : (_ ?= _)%Q = Eq |- _ => apply Qeq_alt in H
             | H : (_ ?= _)%Q = Lt |- _ => apply Qlt_alt in H
             | H : (_ ?= _)%Q = Gt |- _ => apply Qgt_alt in H
             end;
      try (destruct (Z.even (Qfloor y))); try lia; exfalso; lra.
  - destruct (round_half_even_cases x) as [-> | ->];
      destruct (round_half_even_cases y) as [-> | ->]; lia.
Qed.

Lemma py_round_monotone (x y : Q) (n : nat) :
  (x <= y)%Q -> (py_round x n <= py_round y n)%Q.
Proof.
  intro Hle. unfold py_round.
  assert (Hp : (0 <= inject_Z (Zpos (pow10 n)))%Q)
    by (unfold Qle, inject_Z; simpl; lia).
  pose proof (Qmult_le_compat_r _ _ _ Hle Hp) as Hm.
  apply round_half_even_monotone in Hm.
  unfold Qle. cbn [Qnum Qden]. nia.
Qed.

(** On a valid table a larger value never scores lower. *)
Lemma score_dimension_ordered (v1 v2 : Q) (table : threshold_table)
    (s1 s2 : Z) :
  valid_table table ->
  (v1 <= v2)%Q ->
  score_dimension v1 table = Ok s1 ->
  score_dimension v2 table = Ok s2 ->
  s1 <= s2.
Proof.
  intros Hv Hle H1 H2.
  destruct table as [|p rest]; [discriminate|].
  apply valid_table_scores in Hv.
  pose proof (scan_thresholds_monotone v1 v2 _ Hv Hle) as Hm.
  unfold score_dimension in H1, H2.
  rewrite (last_item_last (p :: rest) (0%Q, 0)) in H1, H2 by discriminate.
  cbn [bind] in H1, H2.
  destruct (scan_thresholds v1 (p :: rest)) as [a1|] eqn:E1;
    destruct (scan_thresholds v2 (p :: rest)) as [a2|] eqn:E2;
    injection H1 as <-; injection H2 as <-.
  - exact Hm.
  - destruct (scan_thresholds_in _ _ _ E1) as [b1 Hin].
    apply (sorted_scores_last _ (b1, a1) (0%Q, 0) Hv Hin).
  - destruct Hm.
  - lia.
Qed.

Lemma weighted_sum_monotone (env1 env2 : sources) (dims : list dimension) :
  forall results1 results2,
    Forall2 (scored env1) dims results1 ->
    Forall2 (scored env2) dims results2 ->
    (forall d, In d dims ->
       valid_table (thresholds d)
       /\ (0 <= weight d)%Q
       /\ (fst (getValue d env1) <= fst (getValue d env2))%Q) ->
    (weighted_sum results1 <= weighted_sum results2)%Q.
Proof.
  induction dims as [|d dims IH]; intros results1 results2 H1 H2 Hd.
  - inversion H1; inversion H2; subst. simpl. lra.
  - inversion H1 as [|? r1 ? rest1 [Hw1 Hs1] Hrest1]; subst.
    inversion H2 as [|? r2 ? rest2 [Hw2 Hs2] Hrest2]; subst.
    cbn [weighted_sum fold_right]. fold (weighted_sum rest1).
    fold (weighted_sum rest2).
    destruct (Hd d (or_introl eq_refl)) as [Hvalid [Hweight Hvalue]].
    pose proof (score_dimension_ordered _ _ _ _ _ Hvalid Hvalue Hs1 Hs2) as Hs.
    assert (Hrest : (weighted_sum rest1 <= weighted_sum rest2)%Q).
    { apply IH; try assumption. intros d' Hd'. apply Hd. now right. }
    rewrite Hw1, Hw2.
    assert (Hq : (inject_Z (r_score r1) <= inject_Z (r_score r2))%Q)
      by (rewrite <- Zle_Qle; exact Hs).
    pose proof (Qmult_le_compat_r _ _ (weight d) Hq Hweight) as Hm.
    lra.
Qed.

Lemma dimensions_tables_valid (d : dimension) :
  In d dimensions -> valid_table (thresholds d).
Proof.
  intro Hd. unfold valid_table.
  each_dimension Hd; cbn [thresholds];
    repeat constructor; cbn [fst snd]; try reflexivity; discriminate.
Qed.

(** X27. With the six dimensions of the script, raising the value of any
    collector never lowers the overall score: if every value of one run
    is at most the corresponding value of another, so is the overall
    score. *)
Theorem calculate_maturity_monotone (env1 env2 : sources)
    (now1 now2 : string) :
  (forall d, In d dimensions ->
     (fst (getValue d env1) <= fst (getValue d env2))%Q) ->
  exists r1 r2,
    calculate_maturity env1 now1 = Ok r1
    /\ calculate_maturity env2 now2 = Ok r2
    /\ (overallScore r1 <= overallScore r2)%Q.
Proof.
  intro Hvalues.
  destruct (calculate_maturity_on_spec dimensions env1 now1
              dimensions_tables_nonempty) as [r1 [Hr1 [Hall1 [Hsum1 _]]]].
  destruct (calculate_maturity_on_spec dimensions env2 now2
              dimensions_tables_nonempty) as [r2 [Hr2 [Hall2 [Hsum2 _]]]].
  exists r1, r2. split; [exact Hr1|]. split; [exact Hr2|].
  rewrite Hsum1, Hsum2. apply py_round_monotone.
  apply (weighted_sum_monotone env1 env2 dimensions); try assumption.
  intros d Hd. split; [now apply dimensions_tables_valid|].
  split; [now apply dimensions_weights | now apply Hvalues].
Qed.

Lemma calculate_maturity_monotone_witness :
  exists r1 r2,
    calculate_maturity
      {| delegation_compliance := get_delegation_compliance None;
         error_recurrence_rate := (0.0%Q, "No fix commits in last 30 days");
         documentation_coverage := (0.0%Q, "No exported functions found");
         test_coverage := (0.0%Q, "No source files found");
         context_freshness := get_context_freshness [];
         hook_adoption_rate := get_hook_adoption_rate None |}
      "2025-01-01T00:00:00" = Ok r1
    /\ calculate_maturity sample_sources "2025-01-02T00:00:00" = Ok r2
    /\ (overallScore r1 <= overallScore r2)%Q.
Proof.
  apply calculate_maturity_monotone.
  intros d Hd. each_dimension Hd; discriminate.
Defined.

Lemma most_used_top_five_witness :
  exists ranked : list (string * Z),
    mostUsedCommands
      (insights
         (analyze_usage_patterns
            (snapshot [("/a", invoked 0); ("/local-x", invoked 3);
                       ("/review", invoked 9)])))
    = map fst ranked
    /\ (List.length ranked <= 5)%nat.
Proof.
  destruct (most_used_top_five
              (snapshot [("/a", invoked 0); ("/local-x", invoked 3);
                         ("/review", invoked 9)]))
    as [ranked [Heq [Hlen _]]].
  exists ranked. split; [exact Heq | exact Hlen].
Defined.

Lemma highest_quality_is_first_maximum_witness :
  first_maximum enough_tasks overall_rate
    [("deepseek", model_entry 10 8 [("refactor", type_entry 10 8)]);
     ("qwen", model_entry 6 3 [("refactor", type_entry 6 3)])]
    "deepseek".
Proof.
  exact (highest_quality_is_first_maximum
           [("deepseek", model_entry 10 8 [("refactor", type_entry 10 8)]);
            ("qwen", model_entry 6 3 [("refactor", type_entry 6 3)])]).
Defined.

Lemma most_token_efficient_is_first_minimum_witness :
  dict_get "mostTokenEfficient"
    (Subagent.generate_recommendations
       [("deepseek", model_entry 10 8 [("refactor", type_entry 10 8)])])
  = Some "insufficient_data".
Proof.
  apply (most_token_efficient_is_first_minimum
           [("deepseek", model_entry 10 8 [("refactor", type_entry 10 8)])]).
  intros x avg [<- | []] [Havg _]. discriminate.
Defined.
